(** * A shallow embedding of the job-search chat front end

    The development follows the TypeScript sources:
    - [Js]: the fragment of the JavaScript run time the code relies on
      (strings as sequences of UTF-16 code units, truthiness, [trim],
      [slice], template literals over integers);
    - [Api]: the [fetch] wrappers of [services/api];
    - [React]: rendered trees and the dispatch of clicks;
    - [JobDetailModal] and [JobCard]: the two job views and their
      apply-confirmation dialogs;
    - [ChatPage]: the state, handlers and pagination of the chat page;
    - [ChatPageMount]: the effect that loads or creates the chat when
      the page mounts. *)

From Stdlib Require Import String Ascii DecimalString.
From Stdlib Require Import List ZArith NArith Bool Lia.
From Stdlib Require Import DecimalZ DecimalPos FinFun.
Import ListNotations.

Set Implicit Arguments.

(* ================================================================== *)
(** * The JavaScript fragment                                           *)
(* ================================================================== *)

Module Js.

(** A JavaScript string is a finite sequence of UTF-16 code units. *)
Definition codeunit := N.
Definition jsstring := list codeunit.

(** String literals of the source are written [str "..."]. *)
Definition str (s : string) : jsstring :=
  map N_of_ascii (list_ascii_of_string s).

Fixpoint eqb (a b : jsstring) : bool :=
  match a, b with
  | [], [] => true
  | x :: a', y :: b' => N.eqb x y && eqb a' b'
  | _, _ => false
  end.

(** ToBoolean on a string: only the empty string is falsy. *)
Definition truthy (s : jsstring) : bool :=
  match s with [] => false | _ :: _ => true end.

(** [a || b] where [a] is a possibly undefined string. *)
Definition or_else (a : option jsstring) (b : jsstring) : jsstring :=
  match a with
  | Some s => if truthy s then s else b
  | None => b
  end.

(** The code units [String.prototype.trim] strips: ECMAScript's
    WhiteSpace and LineTerminator productions. *)
Definition whiteSpaceUnits : list codeunit :=
  [0x09; 0x0A; 0x0B; 0x0C; 0x0D; 0x20; 0xA0; 0x1680; 0x2028; 0x2029;
   0x202F; 0x205F; 0x3000; 0xFEFF]%N.

Definition isWhiteSpace (c : codeunit) : bool :=
  existsb (N.eqb c) whiteSpaceUnits
  || (N.leb 0x2000 c && N.leb c 0x200A).

Fixpoint trimStart (s : jsstring) : jsstring :=
  match s with
  | c :: s' => if isWhiteSpace c then trimStart s' else s
  | [] => []
  end.

Definition trimEnd (s : jsstring) : jsstring := rev (trimStart (rev s)).

Definition trim (s : jsstring) : jsstring := trimEnd (trimStart s).

(** Relative index resolution shared by [Array.prototype.slice] and
    [String.prototype.slice]: a negative index counts from the end, and
    the result is clamped to [0 .. len]. *)
Definition relIndex (len i : Z) : Z :=
  if (i <? 0)%Z then Z.max (len + i) 0 else Z.min i len.

Definition slice (A : Type) (l : list A) (start stop : Z) : list A :=
  let len := Z.of_nat (length l) in
  let k := relIndex len start in
  let final := relIndex len stop in
  firstn (Z.to_nat (final - k)) (skipn (Z.to_nat k) l).

(** [`${n}`] for an integer-valued number: its decimal digits. *)
Definition ofInt (n : Z) : jsstring :=
  str (NilZero.string_of_int (Z.to_int n)).

(** [Math.ceil (a / b)] for integers [a] and a positive integer [b]. *)
Definition ceilDiv (a b : Z) : Z := (- ((- a) / b))%Z.

End Js.

Import Js.

(* ================================================================== *)
(** * services/api: the fetch wrappers                                  *)
(* ================================================================== *)

Module Api.

(** ** Types of the chat API *)

Record Highlights := {
  Qualifications : option (list jsstring);
  Responsibilities : option (list jsstring)
}.

Record JobCardData := {
  job_id : jsstring;
  job_title : jsstring;
  employer_name : jsstring;
  job_description : jsstring;
  job_location : option jsstring;
  job_salary : option jsstring;
  job_employment_type : option jsstring;
  job_apply_link : option jsstring;
  job_posted_at : option jsstring;
  job_is_remote : option bool;
  employer_logo : option jsstring;
  job_highlights : option Highlights
}.

Record ChatMessageResponse := {
  message : jsstring;
  jobs : option (list JobCardData);
  selected_job_details : option JobCardData
}.

(** ** Exceptions and settled promises *)

Inductive Thrown :=
| Error (msg : jsstring)   (* [new Error(msg)] *)
| SyntaxError              (* [response.json()] on a body that is not JSON *)
| TypeError                (* a property read on [null], a failed conversion *)
| URIError.                (* [encodeURIComponent] on a lone surrogate *)

(** How an [async] function settles: it rejects or it fulfils. *)
Inductive Result (T : Type) :=
| Throws (e : Thrown)
| Returns (v : T).
Arguments Throws {T} e.
Arguments Returns {T} v.

(** [encodeURIComponent] throws exactly on strings that are not
    well-formed UTF-16. *)
Definition isHighSurrogate (c : codeunit) : bool :=
  (N.leb 0xD800 c && N.leb c 0xDBFF)%N.
Definition isLowSurrogate (c : codeunit) : bool :=
  (N.leb 0xDC00 c && N.leb c 0xDFFF)%N.

Fixpoint isWellFormed (s : jsstring) : bool :=
  match s with
  | [] => true
  | c :: s' =>
      if isHighSurrogate c then
        match s' with
        | d :: s'' => isLowSurrogate d && isWellFormed s''
        | [] => false
        end
      else negb (isLowSurrogate c) && isWellFormed s'
  end.

Inductive Method := GET | POST.

Section Client.

(** JSON numbers are IEEE doubles; the client only ever tests one for
    truthiness and converts it to a string. Both observations, and
    the two opaque payload types, are parameters. *)
Variable number : Type.
Variable number_truthy : number -> bool.
Variable number_toString : number -> jsstring.
Variables File UserProfile : Type.

#[local] Unset Elimination Schemes.

(** A value produced by [JSON.parse]. The pairs of [JObj] are the
    own properties of the object, with pairwise distinct keys. *)
Inductive JSON :=
| JNull
| JBool (b : bool)
| JNum (n : number)
| JStr (s : jsstring)
| JArr (items : list JSON)
| JObj (fields : list (jsstring * JSON)).
#[local] Set Elimination Schemes.

Definition lookup (key : jsstring) (fields : list (jsstring * JSON))
  : option JSON :=
  option_map snd (find (fun kv => Js.eqb (fst kv) key) fields).

(** ToBoolean. *)
Definition truthy (v : JSON) : bool :=
  match v with
  | JNull => false
  | JBool b => b
  | JNum n => number_truthy n
  | JStr s => Js.truthy s
  | JArr _ | JObj _ => true
  end.

(** ToString; [None] stands for the TypeError of an object that
    cannot be converted to a primitive, which is the case exactly
    when it shadows [toString] with a (JSON, hence not callable) own
    property. Arrays go through [join], which prints [null] as the
    empty string. *)
Fixpoint toString (v : JSON) : option jsstring :=
  match v with
  | JNull => Some (str "null")
  | JBool b => Some (if b then str "true" else str "false")
  | JNum n => Some (number_toString n)
  | JStr s => Some s
  | JArr items =>
      let element x :=
        match x with JNull => Some [] | _ => toString x end in
      (fix join (l : list JSON) : option jsstring :=
         match l with
         | [] => Some []
         | x :: rest =>
             match rest with
             | [] => element x
             | _ :: _ =>
                 match element x, join rest with
                 | Some a, Some b => Some (a ++ str "," ++ b)
                 | _, _ => None
                 end
             end
         end) items
  | JObj fields =>
      match lookup (str "toString") fields with
      | Some _ => None
      | None => Some (str "[object Object]")
      end
  end.

(** [errorData.detail]: the outer [None] is the TypeError of reading
    a property of [null], the inner one is [undefined]. *)
Definition detailOf (errorData : JSON) : option (option JSON) :=
  match errorData with
  | JNull => None
  | JObj fields => Some (lookup (str "detail") fields)
  | JBool _ | JNum _ | JStr _ | JArr _ => Some None
  end.

(** [detail || fallback]. *)
Definition orFallback (detail : option JSON) (fallback : jsstring) : JSON :=
  match detail with
  | Some d => if truthy d then d else JStr fallback
  | None => JStr fallback
  end.

(** [new Error(m)], whose message is [ToString m]. *)
Definition newError (m : JSON) : Thrown :=
  match toString m with
  | Some s => Error s
  | None => TypeError
  end.

(** ** Requests and responses *)

Inductive Body :=
| NoBody
| RawBody (file : File)
| JsonProfile (data : UserProfile)
| JsonObject (fields : list (string * option jsstring)).

(** The arguments of one [fetch] call; [query] holds the parameters
    after [encodeURIComponent]'s well-formedness check and before
    its escaping. *)
Record Request := {
  method : Method;
  path : string;
  query : list (string * jsstring);
  contentTypeJson : bool;
  body : Body
}.

(** What the wrappers read of a [Response]: [json] is [None] when
    [response.json()] rejects. *)
Record Response := {
  ok : bool;
  json : option JSON
}.

(** The network: [fetch] rejects or resolves to a response. *)
Definition Fetch := Request -> Thrown + Response.

(** Each wrapper ends with the same two statements: the [!response.ok]
    branch and [return response.json()]. *)
Definition settle (fallback : jsstring) (fetched : Thrown + Response)
  : Result JSON :=
  match fetched with
  | inl e => Throws e
  | inr response =>
      if negb (ok response) then
        match json response with
        | None => Throws SyntaxError
        | Some errorData =>
            match detailOf errorData with
            | None => Throws TypeError
            | Some detail => Throws (newError (orFallback detail fallback))
            end
        end
      else
        match json response with
        | None => Throws SyntaxError
        | Some data => Returns data
        end
  end.

(** A template literal that URI-encodes [params] before fetching. *)
Definition withEncoded (params : list (string * jsstring))
  (k : list (string * jsstring) -> Result JSON) : Result JSON :=
  if forallb (fun p => isWellFormed (snd p)) params
  then k params else Throws URIError.

Definition uploadResume (file : File) (fetch : Fetch) : Result JSON :=
  settle (str "Failed to upload resume")
    (fetch {| method := POST; path := "/api/onboardFileUpload";
              query := []; contentTypeJson := false;
              body := RawBody file |}).

Definition confirmOnboarding (data : UserProfile) (fetch : Fetch)
  : Result JSON :=
  settle (str "Failed to confirm onboarding details")
    (fetch {| method := POST; path := "/api/confirmOnboardingDetails";
              query := []; contentTypeJson := true;
              body := JsonProfile data |}).

Definition createChat (email : jsstring) (fetch : Fetch) : Result JSON :=
  settle (str "Failed to create chat")
    (fetch {| method := POST; path := "/api/createChat";
              query := []; contentTypeJson := true;
              body := JsonObject [("email"%string, Some email)] |}).

Definition sendMessage (email chatId message : jsstring)
  (selectedJobId : option jsstring) (fetch : Fetch) : Result JSON :=
  settle (str "Failed to send message")
    (fetch {| method := POST; path := "/api/sendMessage";
              query := []; contentTypeJson := true;
              body := JsonObject [("email"%string, Some email);
                                  ("chat_id"%string, Some chatId);
                                  ("message"%string, Some message);
                                  ("selected_job_id"%string,
                                    selectedJobId)] |}).

Definition getChatMessages (email chatId : jsstring) (fetch : Fetch)
  : Result JSON :=
  withEncoded [("email"%string, email); ("chat_id"%string, chatId)]
    (fun q =>
       settle (str "Failed to get chat messages")
         (fetch {| method := GET; path := "/api/getChatMessages";
                   query := q; contentTypeJson := false;
                   body := NoBody |})).

Definition getChatHistory (email : jsstring) (fetch : Fetch)
  : Result JSON :=
  withEncoded [("email"%string, email)]
    (fun q =>
       settle (str "Failed to get chat history")
         (fetch {| method := GET; path := "/api/chatHistoryRequest";
                   query := q; contentTypeJson := false;
                   body := NoBody |})).

Definition deleteChatSession (email chatId : jsstring) (fetch : Fetch)
  : Result JSON :=
  withEncoded [("email"%string, email); ("chat_id"%string, chatId)]
    (fun q =>
       settle (str "Failed to delete chat session")
         (fetch {| method := POST; path := "/api/deleteChatSession";
                   query := q; contentTypeJson := false;
                   body := NoBody |})).

(** ** The seven wrappers as one family *)

Inductive Call :=
| UploadResume (file : File)
| ConfirmOnboarding (data : UserProfile)
| CreateChat (email : jsstring)
| SendMessage (email chatId message : jsstring)
    (selectedJobId : option jsstring)
| GetChatMessages (email chatId : jsstring)
| GetChatHistory (email : jsstring)
| DeleteChatSession (email chatId : jsstring).

Definition run (c : Call) (fetch : Fetch) : Result JSON :=
  match c with
  | UploadResume file => uploadResume file fetch
  | ConfirmOnboarding data => confirmOnboarding data fetch
  | CreateChat email => createChat email fetch
  | SendMessage email chatId message selectedJobId =>
      sendMessage email chatId message selectedJobId fetch
  | GetChatMessages email chatId => getChatMessages email chatId fetch
  | GetChatHistory email => getChatHistory email fetch
  | DeleteChatSession email chatId => deleteChatSession email chatId fetch
  end.

(** The string after [||] in the wrapper's [throw]. *)
Definition fallbackOf (c : Call) : jsstring :=
  match c with
  | UploadResume _ => str "Failed to upload resume"
  | ConfirmOnboarding _ => str "Failed to confirm onboarding details"
  | CreateChat _ => str "Failed to create chat"
  | SendMessage _ _ _ _ => str "Failed to send message"
  | GetChatMessages _ _ => str "Failed to get chat messages"
  | GetChatHistory _ => str "Failed to get chat history"
  | DeleteChatSession _ _ => str "Failed to delete chat session"
  end.

(** The [detail] property of a parsed body, [None] when there is
    none to read. *)
Definition detailField (data : JSON) : option JSON :=
  match detailOf data with
  | Some d => d
  | None => None
  end.

(** The sentence of the specification, for one response and the way
    the wrapper settled: the parsed body comes back exactly when
    [ok] holds, and otherwise an [Error] is thrown that carries
    [detail] if the body has one and the fallback if not. *)
Definition claimed (fallback : jsstring) (r : Response)
  (result : Result JSON) : Prop :=
  ((exists data, json r = Some data /\ result = Returns data)
   <-> ok r = true)
  /\ (ok r = false ->
      exists m, result = Throws (Error m)
        /\ match option_map detailField (json r) with
           | Some (Some d) => d = JStr m
           | _ => m = fallback
           end).

(** The arguments a wrapper passes through [encodeURIComponent]. *)
Definition encodedArgs (c : Call) : list jsstring :=
  match c with
  | GetChatMessages email chatId | DeleteChatSession email chatId =>
      [email; chatId]
  | GetChatHistory email => [email]
  | _ => []
  end.

End Client.

Arguments JNull {number}.
Arguments JBool {number} b.
Arguments JStr {number} s.

End Api.

(* ================================================================== *)
(** * The shared types of App                                           *)
(* ================================================================== *)

(** [Job], [Message] and [Chat] are declared in [App.tsx], which is not
    among the sources, and the specification names them without listing
    their fields. A [Date] is its time value in milliseconds. *)
Module App.

Module Job.

(** Modelled from the spec: the declaration of [Job] is missing; its
    fields are those [convertJobCardDataToJob] fills in and the two job
    views read. *)
Record t := {
  id : jsstring;
  title : jsstring;
  company : jsstring;
  role : jsstring;
  description : jsstring;
  location : jsstring;
  salary : jsstring;
  applyLink : option jsstring;
  postedAt : option jsstring;
  isRemote : option bool;
  employerLogo : option jsstring;
  highlights : option Api.Highlights
}.

End Job.

(** ['user' | 'bot'] *)
Inductive Sender := user | bot.

Module Message.

(** Modelled from the spec: the declaration of [Message] is missing; its
    fields are those [handleSendMessage] fills in and the page reads. *)
Record t := {
  id : jsstring;
  sender : Sender;
  content : jsstring;
  timestamp : Z
}.

End Message.

Module Chat.

(** Modelled from the spec: the declaration of [Chat] is missing; its
    fields are those the chat page fills in and reads. *)
Record t := {
  id : jsstring;
  title : jsstring;
  messages : list Message.t;
  timestamp : Z
}.

(** [{ ...chat, messages: ms }] *)
Definition withMessages (chat : t) (ms : list Message.t) : t :=
  {| id := id chat; title := title chat; messages := ms;
     timestamp := timestamp chat |}.

(** [{ ...chat, messages: ms, title: newTitle }] *)
Definition withMessagesTitle (chat : t) (ms : list Message.t)
  (newTitle : jsstring) : t :=
  {| id := id chat; title := newTitle; messages := ms;
     timestamp := timestamp chat |}.

End Chat.

End App.

Import App.

(* ================================================================== *)
(** * Rendered trees and click dispatch                                 *)
(* ================================================================== *)

Module React.

(** Where a portal mounts its children. *)
Inductive Container :=
| ElementById (id : string)
| DocumentBody.

(** What the components ask of [document]: whether
    [getElementById('modal-root')] finds an element. *)
Record Document := { hasModalRoot : bool }.

(** A callback prop as the parent passes it: a function, or nothing.
    The interfaces declare every callback as required; a parent that
    leaves one out passes [undefined], and calling that throws a
    [TypeError]. *)
Inductive Callback := Function | Undefined.

(** [document.getElementById('modal-root') || document.body] *)
Definition modalRoot (doc : Document) : Container :=
  if hasModalRoot doc then ElementById "modal-root" else DocumentBody.

Section Nodes.

(** The closures a component binds to [onClick]. *)
Variable H : Type.

#[local] Unset Elimination Schemes.

(** A rendered element keeps its tag, its click handler, its
    [disabled] attribute and its children; class names, styles and
    icons are left out. *)
Inductive Node :=
| Text (s : jsstring)
| Element (tag : string) (onClick : option H) (disabled : bool)
    (children : list Node)
| Fragment (children : list Node)
| Portal (container : Container) (children : list Node).
#[local] Set Elimination Schemes.

Definition el (tag : string) (children : list Node) : Node :=
  Element tag None false children.

Definition clickable (tag : string) (h : H) (children : list Node) : Node :=
  Element tag (Some h) false children.

Definition button (h : H) (disabled : bool) (children : list Node) : Node :=
  Element "button" (Some h) disabled children.

(** [{cond && node}] *)
Definition when (cond : bool) (n : Node) : list Node :=
  if cond then [n] else [].

(** A component that returned [null] contributes no child. *)
Definition child (n : option Node) : list Node :=
  match n with Some x => [x] | None => [] end.

(** Induction on rendered trees: a property of all children carries
    over to their parent. *)
Section Induction.
Variable P : Node -> Prop.
Hypothesis text : forall s, P (Text s).
Hypothesis element : forall tag onClick disabled children,
  Forall P children -> P (Element tag onClick disabled children).
Hypothesis fragment : forall children,
  Forall P children -> P (Fragment children).
Hypothesis portal : forall container children,
  Forall P children -> P (Portal container children).

Fixpoint Node_induction (n : Node) : P n :=
  let all :=
    fix all (cs : list (Node)) : Forall P cs :=
      match cs with
      | [] => Forall_nil P
      | c :: cs' => Forall_cons c (Node_induction c) (all cs')
      end in
  match n with
  | Text s => text s
  | Element tag onClick disabled children =>
      @element tag onClick disabled children (all children)
  | Fragment children => @fragment children (all children)
  | Portal container children =>
      @portal container children (all children)
  end.
End Induction.

(** The handlers a click on the node at [path] reaches, from the
    target outwards: the event bubbles through the React tree,
    portals included. [None]: there is no such node, or the click is
    on or inside a disabled control, which dispatches nothing. *)
Fixpoint chain (n : Node) (path : list nat) : option (list H) :=
  let descend (children : list Node) (own : list H) :=
    match path with
    | [] => Some own
    | i :: rest =>
        (fix pick (cs : list Node) (i : nat) : option (list H) :=
           match cs, i with
           | c :: _, O => option_map (fun hs => hs ++ own) (chain c rest)
           | _ :: cs', S i' => pick cs' i'
           | [], _ => None
           end) children i
    end in
  match n with
  | Text _ => match path with [] => Some [] | _ :: _ => None end
  | Element _ onClick disabled children =>
      if disabled then None
      else descend children
             match onClick with Some h => [h] | None => [] end
  | Fragment children => descend children []
  | Portal _ children => descend children []
  end.

(** Every handler bound on a control that is not disabled. *)
Fixpoint handlers (n : Node) : list H :=
  match n with
  | Text _ => []
  | Element _ onClick disabled children =>
      if disabled then []
      else match onClick with Some h => [h] | None => [] end
           ++ flat_map handlers children
  | Fragment children => flat_map handlers children
  | Portal _ children => flat_map handlers children
  end.

(** Running the handlers of one click: each one updates the state
    and reports what it did; after one that called
    [stopPropagation] the rest do not run. The log keeps which
    handler did what. *)
Section Dispatch.
Variables S Out : Type.
Variable handle : H -> S -> S * list Out.
Variable stops : Out -> bool.

Fixpoint dispatch (hs : list H) (s : S) : S * list (H * list Out) :=
  match hs with
  | [] => (s, [])
  | h :: hs' =>
      let '(s1, outs) := handle h s in
      if existsb stops outs then (s1, [(h, outs)])
      else let '(s2, log) := dispatch hs' s1 in (s2, (h, outs) :: log)
  end.
End Dispatch.

(** A property of every entry of a log, given the entries before
    it. *)
Definition EveryEntry (Out : Type)
  (R : list (H * list Out) -> H -> list Out -> Prop)
  (log : list (H * list Out)) : Prop :=
  forall pre h outs post, log = pre ++ (h, outs) :: post -> R pre h outs.

End Nodes.

Arguments Text {H} s.
Arguments Fragment {H} children.
Arguments Portal {H} container children.

(** Embedding a child component's tree: its handlers become handlers
    of the parent. *)
Fixpoint mapNode (H H' : Type) (f : H -> H') (n : Node H) : Node H' :=
  match n with
  | Text s => Text s
  | Element tag onClick disabled children =>
      Element tag (option_map f onClick) disabled
        (map (mapNode f) children)
  | Fragment children => Fragment (map (mapNode f) children)
  | Portal container children =>
      Portal container (map (mapNode f) children)
  end.

End React.

(* ================================================================== *)
(** * JobDetailModal                                                    *)
(* ================================================================== *)

Module JobDetailModal.
Import React.

(** The props that are data. *)
Record Props := {
  job : Job.t;
  isOpen : bool;
  isSaved : bool;
  isApplied : bool;
  onUnsave : Callback
}.

Record State := { showApplyConfirmation : bool }.

(** [useState(false)] *)
Definition mounted : State := {| showApplyConfirmation := false |}.

(** What a handler does besides updating the state: the callback props
    it calls, [window.open], and the error it throws. [onClose],
    [onSave] and [onApply] are functions, as the interface declares them
    and as [JobCard], the one parent there is, passes them; [onUnsave]
    is what the props say. A handler that throws ends there; React
    reports the error once the handlers the click still reaches have
    run, so throwing does not stop the propagation. *)
Inductive Out :=
| CallOnClose
| CallOnSave (job : Job.t)
| CallOnUnsave (job : Job.t)
| CallOnApply (job : Job.t)
| WindowOpen (url target : jsstring)
| StopPropagation
| Throw (error : Api.Thrown).

Definition stops (o : Out) : bool :=
  match o with StopPropagation => true | _ => false end.

(** The closures bound to [onClick] in the rendered tree. *)
Inductive Handler :=
| OnClose                (* the [onClose] prop itself *)
| StopClick              (* [(e) => e.stopPropagation()] *)
| HandleApplyClick
| HandleConfirmApply
| HandleCancelApply
| HandleSaveToggle.

Definition setShowApplyConfirmation (v : bool) (s : State) : State :=
  {| showApplyConfirmation := v |}.

Definition present (v : option jsstring) : bool :=
  match v with Some s => Js.truthy s | None => false end.

(** [if (job.applyLink) window.open(job.applyLink, '_blank')] *)
Definition openApplyLink (job : Job.t) : list Out :=
  match Job.applyLink job with
  | Some link =>
      if Js.truthy link then [WindowOpen link (str "_blank")] else []
  | None => []
  end.

Definition handleApplyClick (props : Props) (s : State) : State * list Out :=
  if isApplied props then (s, [])
  else (setShowApplyConfirmation true s, openApplyLink (job props)).

Definition handleConfirmApply (props : Props) (s : State)
  : State * list Out :=
  (setShowApplyConfirmation false s, [CallOnApply (job props)]).

Definition handleCancelApply (props : Props) (s : State)
  : State * list Out :=
  (setShowApplyConfirmation false s, []).

(** [onUnsave(job)] *)
Definition callOnUnsave (props : Props) : list Out :=
  match onUnsave props with
  | Function => [CallOnUnsave (job props)]
  | Undefined => [Throw Api.TypeError]
  end.

Definition handleSaveToggle (props : Props) (s : State) : State * list Out :=
  if isSaved props then (s, callOnUnsave props)
  else (s, [CallOnSave (job props)]).

Definition handle (props : Props) (h : Handler) (s : State)
  : State * list Out :=
  match h with
  | OnClose => (s, [CallOnClose])
  | StopClick => (s, [StopPropagation])
  | HandleApplyClick => handleApplyClick props s
  | HandleConfirmApply => handleConfirmApply props s
  | HandleCancelApply => handleCancelApply props s
  | HandleSaveToggle => handleSaveToggle props s
  end.

(** The dialog asking whether the application was completed. *)
Definition confirmationContent (H : Type) (job : Job.t)
  (onConfirm onCancel : H) : list (Node H) :=
  [el "div"
     [el "div"
        [el "h3" [Text (str "Confirm Application")];
         el "p"
           [Text (str "Did you complete your application for ");
            el "span" [Text (Job.title job)];
            Text (str " at ");
            el "span" [Text (Job.company job)];
            Text (str "?")];
         el "div"
           [button onCancel false [Text (str "No, I didn't apply")];
            button onConfirm false [Text (str "Yes, I applied!")]]]]].

Definition ApplyConfirmationModal (H : Type) (doc : Document)
  (isOpen : bool) (job : Job.t) (onConfirm onCancel : H)
  : option (Node H) :=
  if negb isOpen then None
  else Some (Portal (modalRoot doc)
               (confirmationContent job onConfirm onCancel)).

Definition isTrue (v : option bool) : bool :=
  match v with Some b => b | None => false end.

Definition listed (H : Type) (heading : string)
  (items : option (list jsstring)) : list (Node H) :=
  match items with
  | Some l =>
      when (Nat.ltb 0 (length l))
        (el "div"
           [el "h3" [Text (str heading)];
            el "ul" (map (fun x => el "li" [Text x]) l)])
  | None => []
  end.

(** The header, the scrolling content and the footer of the dialog. *)
Definition panel (props : Props) : list (Node Handler) :=
  let job := job props in
  [el "div"
     [el "div"
        (when (present (Job.employerLogo job)) (el "img" [])
         ++ [el "div"
               [el "div"
                  ([el "h2" [Text (Job.title job)]]
                   ++ when (isApplied props)
                        (el "span" [Text (str "Applied")])
                   ++ when (isSaved props && negb (isApplied props))
                        (el "span" [Text (str "Saved")]));
                el "p" [Text (Job.company job)]]]);
      button OnClose false []];
   el "div"
     ([el "div"
         ([el "div"
             ([el "span" [Text (Job.location job)]]
              ++ when (isTrue (Job.isRemote job))
                   (el "span" [Text (str "Remote")]));
           el "div" [el "span" [Text (Job.role job)]];
           el "div" [el "span" [Text (Job.salary job)]]]
          ++ match Job.postedAt job with
             | Some posted =>
                 when (Js.truthy posted)
                   (el "div"
                      [el "span" [Text (str "Posted: "); Text posted]])
             | None => []
             end);
       el "div"
         [el "h3" [Text (str "Job Description")];
          el "div" [Text (Job.description job)]]]
      ++ match Job.highlights job with
         | Some hl =>
             [el "div"
                (listed Handler "Qualifications" (Api.Qualifications hl)
                 ++ listed Handler "Responsibilities"
                      (Api.Responsibilities hl))]
         | None => []
         end);
   el "div"
     [button HandleSaveToggle false
        [Text (if isSaved props then str "Unsave Job" else str "Save Job")];
      button HandleApplyClick (isApplied props)
        [Text (if isApplied props then str "Already Applied"
               else str "Apply Now")]]].

(** The component: [null] unless [isOpen]; otherwise a portal holding
    the overlay, which closes the dialog when clicked outside the
    panel, and the confirmation dialog. *)
Definition render (doc : Document) (props : Props) (s : State)
  : option (Node Handler) :=
  if negb (isOpen props) then None
  else
    let modalContent :=
      Fragment
        ([clickable "div" OnClose
            [clickable "div" StopClick (panel props)]]
         ++ child (ApplyConfirmationModal doc (showApplyConfirmation s)
                     (job props) HandleConfirmApply HandleCancelApply)) in
    Some (Portal (modalRoot doc) [modalContent]).

(** A click on the node at [path] of the current render. *)
Definition click (doc : Document) (props : Props) (path : list nat)
  (s : State) : State * list (Handler * list Out) :=
  match render doc props s with
  | Some tree =>
      match chain tree path with
      | Some hs => dispatch (handle props) stops hs s
      | None => (s, [])
      end
  | None => (s, [])
  end.

(** A sequence of clicks under the same props, with the log of the
    handlers that ran. *)
Fixpoint clicks (doc : Document) (props : Props) (paths : list (list nat))
  (s : State) : State * list (Handler * list Out) :=
  match paths with
  | [] => (s, [])
  | path :: paths' =>
      let '(s1, log1) := click doc props path s in
      let '(s2, log2) := clicks doc props paths' s1 in
      (s2, log1 ++ log2)
  end.

(** A handler of a log with the props of the render it ran under. *)
Definition under (props : Props) (entry : Handler * list Out)
  : (Props * Handler) * list Out :=
  ((props, fst entry), snd entry).

(** A sequence of clicks, each under the props of the render it lands
    on: between two clicks the parent may render the dialog again with
    other props. The log keeps the props with every handler that
    ran. *)
Fixpoint session (doc : Document) (events : list (Props * list nat))
  (s : State) : State * list ((Props * Handler) * list Out) :=
  match events with
  | [] => (s, [])
  | (props, path) :: events' =>
      let '(s1, log1) := click doc props path s in
      let '(s2, log2) := session doc events' s1 in
      (s2, map (under props) log1 ++ log2)
  end.

(** The log has a click on Apply that ran while the job was not applied
    to. *)
Definition applyClicked (log : list ((Props * Handler) * list Out))
  : Prop :=
  exists props,
    isApplied props = false /\ In (props, HandleApplyClick) (map fst log).

(** What a log must say of an entry, given the entries before it: if
    it calls [onApply], then with the job of the dialog, from the
    confirm handler, and after a click on Apply made while the job was
    not applied to. *)
Definition confirmed (pre : list ((Props * Handler) * list Out))
  (ran : Props * Handler) (outs : list Out) : Prop :=
  forall j, In (CallOnApply j) outs ->
    j = job (fst ran) /\ snd ran = HandleConfirmApply /\ applyClicked pre.

(** The confirmation shows only after such a click on Apply. *)
Definition asked (s : State) (log : list ((Props * Handler) * list Out))
  : Prop :=
  showApplyConfirmation s = true -> applyClicked log.

End JobDetailModal.

(* ================================================================== *)
(** * JobCard                                                           *)
(* ================================================================== *)

Module JobCard.
Import React.

(** The props that are data. *)
Record Props := {
  job : Job.t;
  isSaved : bool;
  isApplied : bool;
  onUnsave : Callback
}.

(** The two [useState] cells of the card, and the state of the
    [JobDetailModal] it always mounts. *)
Record State := {
  showDetailModal : bool;
  showApplyConfirmation : bool;
  detail : JobDetailModal.State
}.

Definition mounted : State :=
  {| showDetailModal := false; showApplyConfirmation := false;
     detail := JobDetailModal.mounted |}.

(** What a handler does besides updating the state. [onSave],
    [onApply] and [onChoose] are functions, as the interface declares
    them and as [ChatPage] passes them; [onUnsave] is what the props
    say. *)
Inductive Out :=
| CallOnSave (job : Job.t)
| CallOnUnsave (job : Job.t)
| CallOnApply (job : Job.t)
| CallOnChoose (job : Job.t)
| WindowOpen (url target : jsstring)
| ToastSuccess (text : jsstring) (description : option jsstring)
| ToastInfo (text : jsstring)
| StopPropagation
| Throw (error : Api.Thrown).

Definition stops (o : Out) : bool :=
  match o with StopPropagation => true | _ => false end.

(** The callback props an output calls. *)
Definition isCallback (o : Out) : bool :=
  match o with
  | CallOnSave _ | CallOnUnsave _ | CallOnApply _ | CallOnChoose _ => true
  | _ => false
  end.

Inductive Handler :=
| HandleCardClick
| HandleSaveToggle
| HandleApply
| HandleChoose
| HandleConfirmApply
| HandleCancelApply
| InDetail (h : JobDetailModal.Handler).

Definition setShowDetailModal (v : bool) (s : State) : State :=
  {| showDetailModal := v;
     showApplyConfirmation := showApplyConfirmation s;
     detail := detail s |}.

Definition setShowApplyConfirmation (v : bool) (s : State) : State :=
  {| showDetailModal := showDetailModal s;
     showApplyConfirmation := v;
     detail := detail s |}.

Definition setDetail (d : JobDetailModal.State) (s : State) : State :=
  {| showDetailModal := showDetailModal s;
     showApplyConfirmation := showApplyConfirmation s;
     detail := d |}.

Definition present (v : option jsstring) : bool :=
  match v with Some s => Js.truthy s | None => false end.

(** The call of an [onUnsave] that is [undefined] throws, and the rest
    of the handler does not run. *)
Definition handleSaveToggle (props : Props) (s : State) : State * list Out :=
  if isSaved props then
    match onUnsave props with
    | Function =>
        (s, [StopPropagation; CallOnUnsave (job props);
             ToastSuccess (str "Job removed from saved!") None])
    | Undefined => (s, [StopPropagation; Throw Api.TypeError])
    end
  else
    (s, [StopPropagation; CallOnSave (job props);
         ToastSuccess (str "Job saved successfully!") None]).

(** [if (job.applyLink) window.open(job.applyLink, '_blank')] *)
Definition openApplyLink (job : Job.t) : list Out :=
  match Job.applyLink job with
  | Some link =>
      if Js.truthy link then [WindowOpen link (str "_blank")] else []
  | None => []
  end.

Definition handleApply (props : Props) (s : State) : State * list Out :=
  if isApplied props then
    (s, [StopPropagation; ToastInfo (str "You already applied to this job")])
  else
    (setShowApplyConfirmation true s,
     StopPropagation :: openApplyLink (job props)).

(** [`You've applied to ${job.title} at ${job.company}`] *)
Definition appliedTo (j : Job.t) : jsstring :=
  str "You've applied to " ++ Job.title j ++ str " at " ++ Job.company j.

Definition handleConfirmApply (props : Props) (s : State)
  : State * list Out :=
  (setShowApplyConfirmation false s,
   [CallOnApply (job props);
    ToastSuccess (str "Application recorded!")
      (Some (appliedTo (job props)))]).

Definition handleCancelApply (props : Props) (s : State)
  : State * list Out :=
  (setShowApplyConfirmation false s, []).

Definition handleChoose (props : Props) (s : State) : State * list Out :=
  (s, [StopPropagation; CallOnChoose (job props)]).

Definition handleCardClick (props : Props) (s : State) : State * list Out :=
  (setShowDetailModal true s, []).

(** The props the card passes to its [JobDetailModal]. *)
Definition detailProps (props : Props) (s : State) : JobDetailModal.Props :=
  {| JobDetailModal.job := job props;
     JobDetailModal.isOpen := showDetailModal s;
     JobDetailModal.isSaved := isSaved props;
     JobDetailModal.isApplied := isApplied props;
     JobDetailModal.onUnsave := onUnsave props |}.

(** The callbacks among them: [onClose] closes the detail dialog,
    [onSave] and [onUnsave] are the card's own props, and [onApply]
    adds a toast to the card's [onApply]. *)
Definition detailCallback (o : JobDetailModal.Out) (s : State)
  : State * list Out :=
  match o with
  | JobDetailModal.CallOnClose => (setShowDetailModal false s, [])
  | JobDetailModal.CallOnSave j => (s, [CallOnSave j])
  | JobDetailModal.CallOnUnsave j => (s, [CallOnUnsave j])
  | JobDetailModal.CallOnApply j =>
      (s, [CallOnApply j;
           ToastSuccess (str "Application recorded!") (Some (appliedTo j))])
  | JobDetailModal.WindowOpen url target => (s, [WindowOpen url target])
  | JobDetailModal.StopPropagation => (s, [StopPropagation])
  | JobDetailModal.Throw error => (s, [Throw error])
  end.

Fixpoint detailCallbacks (os : list JobDetailModal.Out) (s : State)
  : State * list Out :=
  match os with
  | [] => (s, [])
  | o :: os' =>
      let '(s1, outs1) := detailCallback o s in
      let '(s2, outs2) := detailCallbacks os' s1 in
      (s2, outs1 ++ outs2)
  end.

(** A handler of the render [r], run against the state [s]. *)
Definition handle (props : Props) (r : State) (h : Handler) (s : State)
  : State * list Out :=
  match h with
  | HandleCardClick => handleCardClick props s
  | HandleSaveToggle => handleSaveToggle props s
  | HandleApply => handleApply props s
  | HandleChoose => handleChoose props s
  | HandleConfirmApply => handleConfirmApply props s
  | HandleCancelApply => handleCancelApply props s
  | InDetail h' =>
      let '(d, os) := JobDetailModal.handle (detailProps props r) h'
                        (detail s) in
      detailCallbacks os (setDetail d s)
  end.

(** The card's own confirmation dialog: the same component as the one
    in [JobDetailModal.tsx], declared a second time in
    [JobCard.tsx]. *)
Definition confirmationContent (H : Type) (job : Job.t)
  (onConfirm onCancel : H) : list (Node H) :=
  [el "div"
     [el "div"
        [el "h3" [Text (str "Confirm Application")];
         el "p"
           [Text (str "Did you complete your application for ");
            el "span" [Text (Job.title job)];
            Text (str " at ");
            el "span" [Text (Job.company job)];
            Text (str "?")];
         el "div"
           [button onCancel false [Text (str "No, I didn't apply")];
            button onConfirm false [Text (str "Yes, I applied!")]]]]].

Definition ApplyConfirmationModal (H : Type) (doc : Document)
  (isOpen : bool) (job : Job.t) (onConfirm onCancel : H)
  : option (Node H) :=
  if negb isOpen then None
  else Some (Portal (modalRoot doc)
               (confirmationContent job onConfirm onCancel)).

Definition isTrue (v : option bool) : bool :=
  match v with Some b => b | None => false end.

(** The card itself; a click that no button stops opens the detail
    dialog. *)
Definition card (props : Props) : Node Handler :=
  let job := job props in
  clickable "div" HandleCardClick
    [el "div"
       [el "div"
          [el "div"
             ([el "h3" [Text (Job.title job)]]
              ++ when (isApplied props) (el "span" [Text (str "Applied")])
              ++ when (isSaved props && negb (isApplied props))
                   (el "span" [Text (str "Saved")]));
           el "p" [Text (Job.company job)]];
        button HandleSaveToggle false []];
     el "div"
       [el "div" [el "span" [Text (Job.role job)]];
        el "div"
          ([el "span" [Text (Job.location job)]]
           ++ when (isTrue (Job.isRemote job))
                (el "span" [Text (str "Remote")]));
        el "div" [el "span" [Text (Job.salary job)]]];
     el "p" [Text (Job.description job)];
     el "div"
       [button HandleChoose false [Text (str "Choose")];
        button HandleApply (isApplied props)
          [Text (if isApplied props then str "Applied" else str "Apply")]]].

Definition render (doc : Document) (props : Props) (s : State)
  : Node Handler :=
  Fragment
    ([card props]
     ++ child (option_map (mapNode InDetail)
                 (JobDetailModal.render doc (detailProps props s)
                    (detail s)))
     ++ child (ApplyConfirmationModal doc (showApplyConfirmation s)
                 (job props) HandleConfirmApply HandleCancelApply)).

(** A click on the node at [path] of the current render. *)
Definition click (doc : Document) (props : Props) (path : list nat)
  (s : State) : State * list (Handler * list Out) :=
  match chain (render doc props s) path with
  | Some hs => dispatch (handle props s) stops hs s
  | None => (s, [])
  end.

(** A sequence of clicks under the same props, with the log of the
    handlers that ran. *)
Fixpoint clicks (doc : Document) (props : Props) (paths : list (list nat))
  (s : State) : State * list (Handler * list Out) :=
  match paths with
  | [] => (s, [])
  | path :: paths' =>
      let '(s1, log1) := click doc props path s in
      let '(s2, log2) := clicks doc props paths' s1 in
      (s2, log1 ++ log2)
  end.

(** A handler of a log with the props of the render it ran under. *)
Definition under (props : Props) (entry : Handler * list Out)
  : (Props * Handler) * list Out :=
  ((props, fst entry), snd entry).

(** A sequence of clicks, each under the props of the render it lands
    on: between two clicks [ChatPage] may render the card again with
    other props, as it does when [savedJobs] or [appliedJobs] change.
    The log keeps the props with every handler that ran. *)
Fixpoint session (doc : Document) (events : list (Props * list nat))
  (s : State) : State * list ((Props * Handler) * list Out) :=
  match events with
  | [] => (s, [])
  | (props, path) :: events' =>
      let '(s1, log1) := click doc props path s in
      let '(s2, log2) := session doc events' s1 in
      (s2, map (under props) log1 ++ log2)
  end.

(** The log has a click on the Apply button [apply] that ran while the
    job was not applied to. *)
Definition applyClicked (apply : Handler)
  (log : list ((Props * Handler) * list Out)) : Prop :=
  exists props,
    isApplied props = false /\ In (props, apply) (map fst log).

(** What a log must say of an entry, given the entries before it: if
    it calls [onApply], then with the job of the card, from the
    confirm handler of one of the two confirmation dialogs, and after
    a click on the Apply button that opens that dialog, made while the
    job was not applied to. *)
Definition confirmed (pre : list ((Props * Handler) * list Out))
  (ran : Props * Handler) (outs : list Out) : Prop :=
  forall j, In (CallOnApply j) outs ->
    j = job (fst ran)
    /\ ((snd ran = HandleConfirmApply /\ applyClicked HandleApply pre)
        \/ (snd ran = InDetail JobDetailModal.HandleConfirmApply
            /\ applyClicked (InDetail JobDetailModal.HandleApplyClick)
                 pre)).

(** Either confirmation shows only after such a click on its Apply
    button. *)
Definition asked (s : State) (log : list ((Props * Handler) * list Out))
  : Prop :=
  (showApplyConfirmation s = true -> applyClicked HandleApply log)
  /\ (JobDetailModal.showApplyConfirmation (detail s) = true ->
      applyClicked (InDetail JobDetailModal.HandleApplyClick) log).

End JobCard.

(* ================================================================== *)
(** * ChatPage                                                          *)
(* ================================================================== *)

Module ChatPage.

(** The props that are data; the callback props [addChat],
    [updateChat], [saveJob] and [applyToJob] show up as effects. *)
Record Props := {
  chats : list Chat.t;
  savedJobs : list Job.t;
  appliedJobs : list Job.t;
  userEmail : jsstring
}.

Definition convertJobCardDataToJob (jobData : Api.JobCardData) : Job.t :=
  {| Job.id := Api.job_id jobData;
     Job.title := Api.job_title jobData;
     Job.company := Api.employer_name jobData;
     Job.role := or_else (Api.job_employment_type jobData) (str "Full-time");
     Job.description := Api.job_description jobData;
     Job.location := or_else (Api.job_location jobData) (str "Not specified");
     Job.salary := or_else (Api.job_salary jobData) (str "Not disclosed");
     Job.applyLink := Api.job_apply_link jobData;
     Job.postedAt := Api.job_posted_at jobData;
     Job.isRemote := Api.job_is_remote jobData;
     Job.employerLogo := Api.employer_logo jobData;
     Job.highlights := Api.job_highlights jobData |}.

(** The conversion as the specification words it: a default exactly
    when the optional field is absent. *)
Definition orWhenAbsent (v : option jsstring) (d : jsstring) : jsstring :=
  match v with Some s => s | None => d end.

Definition convertAsSpecified (jobData : Api.JobCardData) : Job.t :=
  {| Job.id := Api.job_id jobData;
     Job.title := Api.job_title jobData;
     Job.company := Api.employer_name jobData;
     Job.role :=
       orWhenAbsent (Api.job_employment_type jobData) (str "Full-time");
     Job.description := Api.job_description jobData;
     Job.location :=
       orWhenAbsent (Api.job_location jobData) (str "Not specified");
     Job.salary := orWhenAbsent (Api.job_salary jobData) (str "Not disclosed");
     Job.applyLink := Api.job_apply_link jobData;
     Job.postedAt := Api.job_posted_at jobData;
     Job.isRemote := Api.job_is_remote jobData;
     Job.employerLogo := Api.employer_logo jobData;
     Job.highlights := Api.job_highlights jobData |}.

(** ** Component state: one field per [useState] *)

Record State := {
  currentChat : option Chat.t;
  message : jsstring;
  displayedJobs : list Job.t;
  currentPage : Z;
  showJobs : bool;
  isLoading : bool;
  isSending : bool;
  selectedJobId : option jsstring;
  actualChatId : option jsstring
}.

(** The initial values handed to [useState]. *)
Definition mounted : State :=
  {| currentChat := None; message := []; displayedJobs := [];
     currentPage := 1; showJobs := false; isLoading := false;
     isSending := false; selectedJobId := None; actualChatId := None |}.

Definition jobsPerPage : Z := 3.

(** ** Effects: calls that leave the component *)

Inductive Effect :=
| CallSendMessage (email chatId text : jsstring)
    (selectedJob : option jsstring)
| CallUpdateChat (chatId : jsstring) (messages : list Message.t)
    (title : jsstring)
| ToastSuccess (text : jsstring)
| ToastError (text : jsstring)
| ConsoleError (label : jsstring) (error : Api.Thrown)
| ConsoleLog (label : jsstring) (job : Job.t).

Definition isRequest (e : Effect) : bool :=
  match e with CallSendMessage _ _ _ _ => true | _ => false end.

Definition isUpdateChat (e : Effect) : bool :=
  match e with CallUpdateChat _ _ _ => true | _ => false end.

(** ** Handler bodies

    A handler body runs against the current state, queues state
    updates and performs effects; the values it reads are those of the
    render that created it, which it receives as a separate snapshot. *)

Definition Act (A : Type) : Type := State -> A * State * list Effect.

Definition ret (A : Type) (a : A) : Act A := fun s => (a, s, []).

Definition bind (A B : Type) (m : Act A) (k : A -> Act B) : Act B :=
  fun s =>
    let '(a, s1, e1) := m s in
    let '(b, s2, e2) := k a s1 in
    (b, s2, e1 ++ e2).

Definition emit (e : Effect) : Act unit := fun s => (tt, s, [e]).

Declare Scope act_scope.
Delimit Scope act_scope with act.
Notation "m ;; k" := (bind m (fun _ => k))
  (at level 61, right associativity) : act_scope.
Local Open Scope act_scope.

Definition setCurrentChat (v : option Chat.t) : Act unit := fun s =>
  (tt, {| currentChat := v; message := message s;
          displayedJobs := displayedJobs s; currentPage := currentPage s;
          showJobs := showJobs s; isLoading := isLoading s;
          isSending := isSending s; selectedJobId := selectedJobId s;
          actualChatId := actualChatId s |}, []).

Definition setMessage (v : jsstring) : Act unit := fun s =>
  (tt, {| currentChat := currentChat s; message := v;
          displayedJobs := displayedJobs s; currentPage := currentPage s;
          showJobs := showJobs s; isLoading := isLoading s;
          isSending := isSending s; selectedJobId := selectedJobId s;
          actualChatId := actualChatId s |}, []).

Definition setDisplayedJobs (v : list Job.t) : Act unit := fun s =>
  (tt, {| currentChat := currentChat s; message := message s;
          displayedJobs := v; currentPage := currentPage s;
          showJobs := showJobs s; isLoading := isLoading s;
          isSending := isSending s; selectedJobId := selectedJobId s;
          actualChatId := actualChatId s |}, []).

(** [setCurrentPage] in its functional form; [setCurrentPage(v)] is
    [updateCurrentPage (fun _ => v)]. *)
Definition updateCurrentPage (f : Z -> Z) : Act unit := fun s =>
  (tt, {| currentChat := currentChat s; message := message s;
          displayedJobs := displayedJobs s;
          currentPage := f (currentPage s);
          showJobs := showJobs s; isLoading := isLoading s;
          isSending := isSending s; selectedJobId := selectedJobId s;
          actualChatId := actualChatId s |}, []).

Definition setCurrentPage (v : Z) : Act unit :=
  updateCurrentPage (fun _ => v).

Definition setShowJobs (v : bool) : Act unit := fun s =>
  (tt, {| currentChat := currentChat s; message := message s;
          displayedJobs := displayedJobs s; currentPage := currentPage s;
          showJobs := v; isLoading := isLoading s;
          isSending := isSending s; selectedJobId := selectedJobId s;
          actualChatId := actualChatId s |}, []).

Definition setIsLoading (v : bool) : Act unit := fun s =>
  (tt, {| currentChat := currentChat s; message := message s;
          displayedJobs := displayedJobs s; currentPage := currentPage s;
          showJobs := showJobs s; isLoading := v;
          isSending := isSending s; selectedJobId := selectedJobId s;
          actualChatId := actualChatId s |}, []).

Definition setIsSending (v : bool) : Act unit := fun s =>
  (tt, {| currentChat := currentChat s; message := message s;
          displayedJobs := displayedJobs s; currentPage := currentPage s;
          showJobs := showJobs s; isLoading := isLoading s;
          isSending := v; selectedJobId := selectedJobId s;
          actualChatId := actualChatId s |}, []).

Definition setSelectedJobId (v : option jsstring) : Act unit := fun s =>
  (tt, {| currentChat := currentChat s; message := message s;
          displayedJobs := displayedJobs s; currentPage := currentPage s;
          showJobs := showJobs s; isLoading := isLoading s;
          isSending := isSending s; selectedJobId := v;
          actualChatId := actualChatId s |}, []).

Definition setActualChatId (v : option jsstring) : Act unit := fun s =>
  (tt, {| currentChat := currentChat s; message := message s;
          displayedJobs := displayedJobs s; currentPage := currentPage s;
          showJobs := showJobs s; isLoading := isLoading s;
          isSending := isSending s; selectedJobId := selectedJobId s;
          actualChatId := v |}, []).

(** One synchronous run reads the clock through [Date.now()] and
    through [new Date()]. *)
Record Clock := { dateNow : Z; newDate : Z }.

(** ** handleSendMessage *)

(** ToBoolean of a [string | null]. *)
Definition present (v : option jsstring) : bool :=
  match v with Some s => Js.truthy s | None => false end.

(** The condition of the early [return]. *)
Definition guard (r : State) (messageText : jsstring) : bool :=
  negb (Js.truthy (trim messageText))
  || match currentChat r with Some _ => false | None => true end
  || negb (present (actualChatId r))
  || isSending r.

(** What the suspended call keeps across its [await]: the constants of
    the closure that the rest of the body reads. *)
Record InFlight := {
  chat : Chat.t;
  chatId : jsstring;
  messageText : jsstring;
  updatedMessages : list Message.t
}.

(** The message shown at once, before the request leaves. *)
Definition newUserMessage (clock : Clock) (messageText : jsstring)
  : Message.t :=
  {| Message.id := str "msg-" ++ ofInt (dateNow clock);
     Message.sender := user;
     Message.content := messageText;
     Message.timestamp := newDate clock |}.

(** The reply, once it is there. *)
Definition newBotMessage (clock : Clock)
  (response : Api.ChatMessageResponse) : Message.t :=
  {| Message.id := str "msg-" ++ ofInt (dateNow clock + 1);
     Message.sender := bot;
     Message.content := Api.message response;
     Message.timestamp := newDate clock |}.

(** From the call to the [await]. The result is [None] when the guard
    returned, and otherwise the suspended rest of the body. *)
Definition handleSendMessage (props : Props) (r : State) (clock : Clock)
  (text : option jsstring) : Act (option InFlight) :=
  let messageText := or_else text (message r) in
  if guard r messageText then ret None
  else
    match currentChat r, actualChatId r with
    | Some currentChat, Some actualChatId =>
        setIsSending true ;;
        setMessage [] ;;
        let updatedMessages :=
          Chat.messages currentChat ++ [newUserMessage clock messageText] in
        setCurrentChat (Some (Chat.withMessages currentChat updatedMessages)) ;;
        emit (CallSendMessage (userEmail props) actualChatId messageText
                (if present (selectedJobId r) then selectedJobId r
                 else None)) ;;
        ret (Some {| chat := currentChat; chatId := actualChatId;
                     messageText := messageText;
                     updatedMessages := updatedMessages |})
    | _, _ => ret None
    end.

(** From the [await] to the end: the rest of the [try] block when the
    promise fulfils, the [catch] block when it rejects, then
    [finally]. *)
Definition resumeSendMessage (k : InFlight) (clock : Clock)
  (outcome : Api.Result Api.ChatMessageResponse) : Act unit :=
  match outcome with
  | Api.Returns response =>
      let messagesWithBot :=
        updatedMessages k ++ [newBotMessage clock response] in
      let newTitle :=
        if Nat.eqb (length (Chat.messages (chat k))) 1 then
          slice (messageText k) 0 50
          ++ (if Nat.ltb 50 (length (messageText k)) then str "..." else [])
        else Chat.title (chat k) in
      let finalChat :=
        Chat.withMessagesTitle (chat k) messagesWithBot newTitle in
      setCurrentChat (Some finalChat) ;;
      emit (CallUpdateChat (chatId k) messagesWithBot newTitle) ;;
      match Api.jobs response with
      | Some jobs =>
          if Nat.ltb 0 (length jobs) then
            let convertedJobs := map convertJobCardDataToJob jobs in
            setDisplayedJobs convertedJobs ;;
            setShowJobs true ;;
            setCurrentPage 1 ;;
            emit (ToastSuccess
                    (str "Found " ++ ofInt (Z.of_nat (length jobs))
                     ++ str " matching jobs!"))
          else ret tt
      | None => ret tt
      end ;;
      match Api.selected_job_details response with
      | Some details =>
          let selectedJob := convertJobCardDataToJob details in
          emit (ConsoleLog (str "Selected job details:") selectedJob)
      | None => ret tt
      end ;;
      setSelectedJobId None
  | Api.Throws error =>
      emit (ConsoleError (str "Error sending message:") error) ;;
      emit (ToastError (str "Failed to send message. Please try again.")) ;;
      setCurrentChat
        (Some (Chat.withMessages (chat k) (Chat.messages (chat k))))
  end ;;
  setIsSending false.

(** ** handleChooseJob *)

Definition chooseMessage (job : Job.t) : jsstring :=
  str "I'm interested in the " ++ Job.title job
  ++ str " position at " ++ Job.company job
  ++ str ". Can you tell me more about it and help me prepare for this role?".

Definition handleChooseJob (props : Props) (r : State) (clock : Clock)
  (job : Job.t) : Act (option InFlight) :=
  match currentChat r with
  | None => ret None
  | Some _ =>
      setSelectedJobId (Some (Job.id job)) ;;
      bind (handleSendMessage props r clock (Some (chooseMessage job)))
        (fun sent =>
           emit (ToastSuccess (str "Job selected for discussion")) ;;
           ret sent)
  end.

(** ** Pagination *)

Definition totalPages (r : State) : Z :=
  ceilDiv (Z.of_nat (length (displayedJobs r))) jobsPerPage.

Definition paginatedJobs (r : State) : list Job.t :=
  slice (displayedJobs r)
    ((currentPage r - 1) * jobsPerPage) (currentPage r * jobsPerPage).

(** The jobs pane replaces its placeholder. *)
Definition jobsShown (r : State) : bool :=
  showJobs r && Nat.ltb 0 (length (displayedJobs r)).

(** The pagination bar is part of the jobs pane. *)
Definition paginationShown (r : State) : bool :=
  negb (isLoading r) && jobsShown r && (1 <? totalPages r)%Z.

(** The numbered buttons: [Array.from({ length: min(totalPages, 5) },
    (_, i) => i + 1)]. *)
Definition pageButtons (r : State) : list Z :=
  map (fun i => Z.of_nat i + 1)%Z
    (seq 0 (Z.to_nat (Z.min (totalPages r) 5))).

Definition onPrevious : Act unit :=
  updateCurrentPage (fun prev => Z.max 1 (prev - 1)).

Definition onNext (r : State) : Act unit :=
  updateCurrentPage (fun prev => Z.min (totalPages r) (prev + 1)).

Definition onPage (page : Z) : Act unit := setCurrentPage page.

(** [list.some((j) => j.id === job.id)] *)
Definition someWithId (list : list Job.t) (job : Job.t) : bool :=
  existsb (fun j => Js.eqb (Job.id j) (Job.id job)) list.

(** The cards of the jobs pane, each with the data props it is given:
    one card per job of the page on display, and none while the loader
    or the placeholder is there instead. The callbacks the page passes
    are [saveJob], [applyToJob] and [handleChooseJob]; it passes no
    [onUnsave]. *)
Definition jobCards (props : Props) (r : State) : list JobCard.Props :=
  if negb (isLoading r) && jobsShown r then
    map (fun job =>
           {| JobCard.job := job;
              JobCard.isSaved := someWithId (savedJobs props) job;
              JobCard.isApplied := someWithId (appliedJobs props) job;
              JobCard.onUnsave := React.Undefined |})
      (paginatedJobs r)
  else [].

(** The render in which [currentPage] is [page]. *)
Definition atPage (r : State) (page : Z) : State :=
  snd (fst (setCurrentPage page r)).

(** ** The page as a transition system

    Between two events React commits the queued updates and renders
    again, so every handler runs with the snapshot of the state it
    updates. [pending] lists the calls of [handleSendMessage] that are
    suspended at their [await], oldest first.

    [initializeChat] (the mount effect) writes [currentChat],
    [actualChatId] and [isLoading] and nothing else of the state; the
    three [Init] events let it do so at any time and with any value. *)

Record Page := {
  view : State;
  pending : list InFlight
}.

Inductive Event :=
| SendMessage (text : option jsstring) (clock : Clock)
| ChooseJob (job : Job.t) (clock : Clock)
| Settle (n : nat) (outcome : Api.Result Api.ChatMessageResponse)
    (clock : Clock)
| Typed (value : jsstring)
| ClearSelectedJob
| Previous
| Next
| GoTo (page : Z)
| InitCurrentChat (v : option Chat.t)
| InitActualChatId (v : option jsstring)
| InitIsLoading (v : bool).

Definition dropNth (A : Type) (n : nat) (l : list A) : list A :=
  firstn n l ++ skipn (S n) l.

(** A call of [handleSendMessage] returned or reached its [await]. *)
Definition suspended (p : Page)
  (out : option InFlight * State * list Effect) : Page * list Effect :=
  let '(sent, s, effects) := out in
  ({| view := s;
      pending := pending p
                 ++ match sent with Some k => [k] | None => [] end |},
   effects).

(** A handler that does not suspend ran to its end. *)
Definition finished (p : Page) (out : unit * State * list Effect)
  : Page * list Effect :=
  let '(_, s, effects) := out in
  ({| view := s; pending := pending p |}, effects).

(** One event. [None]: the control the event needs is not on the
    page. [SendMessage] and [ChooseJob] stand for any call of the two
    handlers, and a [disabled] attribute is not taken into account:
    both choices only add behaviours. *)
Definition step (props : Props) (p : Page) (e : Event)
  : option (Page * list Effect) :=
  let r := view p in
  match e with
  | SendMessage text clock =>
      Some (suspended p (handleSendMessage props r clock text r))
  | ChooseJob job clock =>
      Some (suspended p (handleChooseJob props r clock job r))
  | Settle n outcome clock =>
      match nth_error (pending p) n with
      | Some k =>
          let '(_, s, effects) := resumeSendMessage k clock outcome r in
          Some ({| view := s; pending := dropNth n (pending p) |}, effects)
      | None => None
      end
  | Typed value =>
      if isLoading r then None else Some (finished p (setMessage value r))
  | ClearSelectedJob =>
      if negb (isLoading r) && present (selectedJobId r)
      then Some (finished p (setSelectedJobId None r)) else None
  | Previous =>
      if paginationShown r then Some (finished p (onPrevious r)) else None
  | Next =>
      if paginationShown r then Some (finished p (onNext r r)) else None
  | GoTo page =>
      if paginationShown r && existsb (Z.eqb page) (pageButtons r)
      then Some (finished p (onPage page r)) else None
  | InitCurrentChat v => Some (finished p (setCurrentChat v r))
  | InitActualChatId v => Some (finished p (setActualChatId v r))
  | InitIsLoading v => Some (finished p (setIsLoading v r))
  end.

(** A sequence of events, each under the props of its render; the
    effects are collected in order. *)
Fixpoint run (p : Page) (es : list (Props * Event))
  : option (Page * list Effect) :=
  match es with
  | [] => Some (p, [])
  | (props, e) :: es' =>
      match step props p e with
      | Some (p1, effects1) =>
          match run p1 es' with
          | Some (p2, effects2) => Some (p2, effects1 ++ effects2)
          | None => None
          end
      | None => None
      end
  end.

(** The part of the state that describes the job list. *)
Definition jobListState (r : State)
  : list Job.t * bool * Z * option jsstring :=
  (displayedJobs r, showJobs r, currentPage r, selectedJobId r).

(** No call of [handleSendMessage] is suspended and the typing
    indicator is off, as after mounting. *)
Definition idle (p : Page) : Prop :=
  pending p = [] /\ isSending (view p) = false.

(** At most one call is suspended, and [isSending] tells whether one
    is. *)
Definition sequential (p : Page) : Prop :=
  (length (pending p) <= 1)%nat
  /\ (isSending (view p) = true <-> pending p <> []).

(** What an event can do to the page as far as sending goes: leave
    the suspended calls and [isSending] alone, suspend one more call,
    or resume one. *)
Inductive Change (p p' : Page) (effects : list Effect) : Prop :=
| Kept :
    pending p' = pending p ->
    isSending (view p') = isSending (view p) ->
    existsb isRequest effects = false ->
    Change p p' effects
| Sent (k : InFlight) :
    isSending (view p) = false ->
    pending p' = pending p ++ [k] ->
    isSending (view p') = true ->
    Change p p' effects
| Settled (n : nat) (k : InFlight) :
    nth_error (pending p) n = Some k ->
    pending p' = dropNth n (pending p) ->
    isSending (view p') = false ->
    existsb isRequest effects = false ->
    Change p p' effects.

(** [1 <= currentPage <= max(1, totalPages)]. *)
Definition pageInRange (r : State) : Prop :=
  (1 <= currentPage r <= Z.max 1 (totalPages r))%Z.

End ChatPage.

(* ================================================================== *)
(** * Sample data                                                       *)
(* ================================================================== *)

Module Examples.

Definition welcome : Message.t :=
  {| Message.id := str "msg-1700000000000";
     Message.sender := bot;
     Message.content := str "Hello! What kind of job are you after?";
     Message.timestamp := 1700000000000 |}.

Definition freshChat : Chat.t :=
  {| Chat.id := str "chat-1"; Chat.title := str "New chat";
     Chat.messages := [welcome]; Chat.timestamp := 1700000000000 |}.

Definition props : ChatPage.Props :=
  {| ChatPage.chats := [freshChat]; ChatPage.savedJobs := [];
     ChatPage.appliedJobs := [];
     ChatPage.userEmail := str "ada@example.org" |}.

Definition jobData (n : Z) : Api.JobCardData :=
  {| Api.job_id := str "job-" ++ ofInt n;
     Api.job_title := str "Frontend developer";
     Api.employer_name := str "Acme";
     Api.job_description := str "Build the web client.";
     Api.job_location := Some (str "Pune");
     Api.job_salary := None;
     Api.job_employment_type := Some (str "Contract");
     Api.job_apply_link := Some (str "https://jobs.example.org/apply");
     Api.job_posted_at := None;
     Api.job_is_remote := Some true;
     Api.employer_logo := None;
     Api.job_highlights := None |}.

(** A posting whose optional texts are present and empty. *)
Definition blankFields : Api.JobCardData :=
  {| Api.job_id := str "job-0";
     Api.job_title := str "Frontend developer";
     Api.employer_name := str "Acme";
     Api.job_description := str "Build the web client.";
     Api.job_location := Some [];
     Api.job_salary := Some [];
     Api.job_employment_type := Some [];
     Api.job_apply_link := None;
     Api.job_posted_at := None;
     Api.job_is_remote := None;
     Api.employer_logo := None;
     Api.job_highlights := None |}.

Definition job : Job.t := ChatPage.convertJobCardDataToJob (jobData 1).

(** The chat is loaded and nothing is being sent. *)
Definition ready : ChatPage.State :=
  {| ChatPage.currentChat := Some freshChat;
     ChatPage.message := str "anything in Pune?";
     ChatPage.displayedJobs := [];
     ChatPage.currentPage := 1;
     ChatPage.showJobs := false;
     ChatPage.isLoading := false;
     ChatPage.isSending := false;
     ChatPage.selectedJobId := None;
     ChatPage.actualChatId := Some (str "chat-1") |}.

Definition readyPage : ChatPage.Page :=
  {| ChatPage.view := ready; ChatPage.pending := [] |}.

Definition clock1 : ChatPage.Clock :=
  {| ChatPage.dateNow := 1700000001000; ChatPage.newDate := 1700000001000 |}.

Definition clock2 : ChatPage.Clock :=
  {| ChatPage.dateNow := 1700000002500; ChatPage.newDate := 1700000002501 |}.

(** Seven jobs on display, the second of three pages showing. *)
Definition browsing : ChatPage.State :=
  {| ChatPage.currentChat := Some freshChat;
     ChatPage.message := [];
     ChatPage.displayedJobs :=
       map (fun n => ChatPage.convertJobCardDataToJob (jobData n))
         [1; 2; 3; 4; 5; 6; 7]%Z;
     ChatPage.currentPage := 2;
     ChatPage.showJobs := true;
     ChatPage.isLoading := false;
     ChatPage.isSending := false;
     ChatPage.selectedJobId := None;
     ChatPage.actualChatId := Some (str "chat-1") |}.

Definition browsingPage : ChatPage.Page :=
  {| ChatPage.view := browsing; ChatPage.pending := [] |}.

Definition found : Api.ChatMessageResponse :=
  {| Api.message := str "Here is what I found.";
     Api.jobs := Some [jobData 1; jobData 2];
     Api.selected_job_details := None |}.

(** A turn: a message goes out, a second one is tried while the
    first is in flight, and the reply arrives with two jobs. *)
Definition turn : list (ChatPage.Props * ChatPage.Event) :=
  [(props, ChatPage.SendMessage None clock1);
   (props, ChatPage.SendMessage (Some (str "and in Goa?")) clock1);
   (props, ChatPage.Settle 0 (Api.Returns found) clock2)].

Definition afterTurn : ChatPage.Page * list ChatPage.Effect :=
  match ChatPage.run readyPage turn with
  | Some result => result
  | None => (readyPage, [])
  end.

(** The page after a click on Next while browsing. *)
Definition thirdPage : ChatPage.Page :=
  {| ChatPage.view := ChatPage.atPage browsing 3; ChatPage.pending := [] |}.

Definition document : React.Document := {| React.hasModalRoot := true |}.

Definition cardProps : JobCard.Props :=
  {| JobCard.job := job; JobCard.isSaved := false;
     JobCard.isApplied := false; JobCard.onUnsave := React.Undefined |}.

Definition modalProps : JobDetailModal.Props :=
  {| JobDetailModal.job := job; JobDetailModal.isOpen := true;
     JobDetailModal.isSaved := false; JobDetailModal.isApplied := false;
     JobDetailModal.onUnsave := React.Undefined |}.

(** Numbers stand for themselves where a JSON value is needed. *)
Definition zTruthy (n : Z) : bool := negb (Z.eqb n 0).

Definition Json : Type := Api.JSON Z.

Definition send (fetch : Api.Fetch Z unit unit) : Api.Result Json :=
  Api.sendMessage zTruthy ofInt (str "ada@example.org") (str "chat-1")
    (str "anything in Pune?") None fetch.

(** A gateway answered 502 with an HTML page. *)
Definition badGateway : Api.Response Z :=
  {| Api.ok := false; Api.json := None |}.

(** The server refused with an empty [detail]. *)
Definition emptyDetail : Api.Response Z :=
  {| Api.ok := false;
     Api.json := Some (Api.JObj [(str "detail", Api.JStr [])]) |}.

(** The server refused and explained why. *)
Definition refused : Api.Response Z :=
  {| Api.ok := false;
     Api.json :=
       Some (Api.JObj [(str "detail", Api.JStr (str "Chat not found"))]) |}.

(** The server accepted but its body is not JSON. *)
Definition okNotJson : Api.Response Z :=
  {| Api.ok := true; Api.json := None |}.

End Examples.

(* ================================================================== *)
(** * More of the JavaScript fragment                                   *)
(* ================================================================== *)

Module JsArrays.

(** [Array.prototype.join] on an array of strings. *)
Fixpoint join (sep : jsstring) (l : list jsstring) : jsstring :=
  match l with
  | [] => []
  | x :: rest =>
      match rest with
      | [] => x
      | _ :: _ => x ++ sep ++ join sep rest
      end
  end.

(** [array.map((x, index) => f(x, index))], counting from [start]. *)
Fixpoint mapFrom (A B : Type) (f : A -> nat -> B) (start : nat) (l : list A)
  : list B :=
  match l with
  | [] => []
  | x :: rest => f x start :: mapFrom f (S start) rest
  end.

Definition mapIndexed (A B : Type) (f : A -> nat -> B) (l : list A) : list B :=
  mapFrom f 0 l.

End JsArrays.

(* ================================================================== *)
(** * services/api: the remaining response types                        *)
(* ================================================================== *)

Module ApiTypes.

Module ChatMessage.

Record t := {
  sender : Sender;
  message : jsstring;
  timestamp : option jsstring;
  selected_job_id : option jsstring
}.

End ChatMessage.

Module GetChatMessagesResponse.

Record t := {
  messages : list ChatMessage.t;
  chat_name : jsstring
}.

End GetChatMessagesResponse.

Module CreateChatResponse.

Record t := {
  chat_id : jsstring;
  chat_name : jsstring;
  initial_message : jsstring
}.

End CreateChatResponse.

End ApiTypes.

(* ================================================================== *)
(** * ChatPage: the mount effect                                        *)
(* ================================================================== *)

Module ChatPageMount.
Import ApiTypes.

(** What [initializeChat] does outside the component. *)
Inductive Effect :=
| ToastError (text : jsstring)
| Navigate (to : jsstring) (replace : bool)
| AddChat (chat : Chat.t)
| ConsoleLog (text : jsstring)
| ConsoleError (label : jsstring) (error : Api.Thrown)
| CallGetChatMessages (email chatId : jsstring)
| CallCreateChat (email : jsstring).

Definition isRequest (e : Effect) : bool :=
  match e with
  | CallGetChatMessages _ _ | CallCreateChat _ => true
  | _ => false
  end.

Definition Act (A : Type) : Type :=
  ChatPage.State -> A * ChatPage.State * list Effect.

Definition ret (A : Type) (a : A) : Act A := fun s => (a, s, []).

Definition bind (A B : Type) (m : Act A) (k : A -> Act B) : Act B :=
  fun s =>
    let '(a, s1, e1) := m s in
    let '(b, s2, e2) := k a s1 in
    (b, s2, e1 ++ e2).

Definition emit (e : Effect) : Act unit := fun s => (tt, s, [e]).

(** One of the state setters of the page. *)
Definition set (setter : ChatPage.Act unit) : Act unit :=
  fun s => (tt, snd (fst (setter s)), []).

Declare Scope mount_scope.
Delimit Scope mount_scope with mount.
Notation "m ;; k" := (bind m (fun _ => k))
  (at level 61, right associativity) : mount_scope.
Local Open Scope mount_scope.

(** The clock while the loaded messages are mapped: [Date.now()] as read
    for the message at each index, and the [new Date()] of a chat that
    was not known. *)
Record LoadClock := { nowAt : nat -> Z; loadedAt : Z }.

(** The clock while a created chat is built: [Date.now()] for the id of
    its first message, [new Date()] for that message and [new Date()]
    for the chat. *)
Record CreateClock := { createdNow : Z; messageDate : Z; chatDate : Z }.

(** Which chat a pending [getChatMessages] is for: one found among the
    [chats] prop, or one only the server may know. *)
Inductive Loading :=
| Existing (existingChat : Chat.t) (chatId : jsstring)
| Missing (chatId : jsstring).

(** Where [initializeChat] is suspended. *)
Inductive Waiting :=
| AwaitMessages (l : Loading)
| AwaitCreate.

Section Dates.

(** [new Date(s)] for a string, as a time value. *)
Variable dateParse : jsstring -> Z.

(** [new Date(msg.timestamp || Date.now())] *)
Definition dateOf (timestamp : option jsstring) (now : Z) : Z :=
  match timestamp with
  | Some t => if Js.truthy t then dateParse t else now
  | None => now
  end.

(** [chatData.messages.map((msg, index) => ({ ... }))] *)
Definition toMessages (clock : LoadClock) (messages : list ChatMessage.t)
  : list Message.t :=
  JsArrays.mapIndexed
    (fun msg index =>
       {| Message.id := str "msg-" ++ ofInt (Z.of_nat index);
          Message.sender := ChatMessage.sender msg;
          Message.content := ChatMessage.message msg;
          Message.timestamp :=
            dateOf (ChatMessage.timestamp msg) (nowAt clock index) |})
    messages.

(** [initializeChat] up to its [await]; [chatId] is the route parameter.
    The result is [None] when the function returned without one. *)
Definition initializeChat (props : ChatPage.Props) (chatId : option jsstring)
  : Act (option Waiting) :=
  if negb (Js.truthy (ChatPage.userEmail props)) then
    emit (ToastError (str "Please complete onboarding first")) ;;
    emit (Navigate (str "/") false) ;;
    ret None
  else
    set (ChatPage.setIsLoading true) ;;
    match chatId with
    | Some id =>
        if Js.truthy id && negb (Js.eqb id (str "new")) then
          match find (fun chat => Js.eqb (Chat.id chat) id)
                  (ChatPage.chats props) with
          | Some existingChat =>
              set (ChatPage.setCurrentChat (Some existingChat)) ;;
              set (ChatPage.setActualChatId (Some id)) ;;
              emit (CallGetChatMessages (ChatPage.userEmail props) id) ;;
              ret (Some (AwaitMessages (Existing existingChat id)))
          | None =>
              emit (CallGetChatMessages (ChatPage.userEmail props) id) ;;
              ret (Some (AwaitMessages (Missing id)))
          end
        else
          emit (CallCreateChat (ChatPage.userEmail props)) ;;
          ret (Some AwaitCreate)
    | None =>
        emit (CallCreateChat (ChatPage.userEmail props)) ;;
        ret (Some AwaitCreate)
    end.

(** From the settled [getChatMessages] to the end: the inner [try] and
    [catch] of the branch, then the outer [finally]. *)
Definition resumeGetChatMessages (l : Loading) (clock : LoadClock)
  (outcome : Api.Result GetChatMessagesResponse.t) : Act unit :=
  match l with
  | Existing existingChat chatId =>
      match outcome with
      | Api.Returns chatData =>
          let messages :=
            toMessages clock (GetChatMessagesResponse.messages chatData) in
          let updatedChat :=
            Chat.withMessagesTitle existingChat messages
              (GetChatMessagesResponse.chat_name chatData) in
          set (ChatPage.setCurrentChat (Some updatedChat))
      | Api.Throws _ => emit (ConsoleLog (str "Using cached chat data"))
      end
  | Missing chatId =>
      match outcome with
      | Api.Returns chatData =>
          let messages :=
            toMessages clock (GetChatMessagesResponse.messages chatData) in
          let newChat :=
            {| Chat.id := chatId;
               Chat.title := GetChatMessagesResponse.chat_name chatData;
               Chat.messages := messages;
               Chat.timestamp := loadedAt clock |} in
          set (ChatPage.setCurrentChat (Some newChat)) ;;
          set (ChatPage.setActualChatId (Some chatId)) ;;
          emit (AddChat newChat)
      | Api.Throws _ =>
          emit (ToastError (str "Chat not found")) ;;
          emit (Navigate (str "/home") false)
      end
  end ;;
  set (ChatPage.setIsLoading false).

(** The chat built from the answer of [createChat]. *)
Definition createdChat (clock : CreateClock) (result : CreateChatResponse.t)
  : Chat.t :=
  {| Chat.id := CreateChatResponse.chat_id result;
     Chat.title := CreateChatResponse.chat_name result;
     Chat.messages :=
       [{| Message.id := str "msg-" ++ ofInt (createdNow clock);
           Message.sender := bot;
           Message.content := CreateChatResponse.initial_message result;
           Message.timestamp := messageDate clock |}];
     Chat.timestamp := chatDate clock |}.

(** From the settled [createChat] to the end: the rest of the outer
    [try], or the outer [catch], then [finally]. *)
Definition resumeCreateChat (clock : CreateClock)
  (outcome : Api.Result CreateChatResponse.t) : Act unit :=
  match outcome with
  | Api.Returns result =>
      let newChat := createdChat clock result in
      set (ChatPage.setCurrentChat (Some newChat)) ;;
      set (ChatPage.setActualChatId
             (Some (CreateChatResponse.chat_id result))) ;;
      emit (AddChat newChat) ;;
      emit (Navigate (str "/chat/" ++ CreateChatResponse.chat_id result) true)
  | Api.Throws error =>
      emit (ConsoleError (str "Error initializing chat:") error) ;;
      emit (ToastError (str "Failed to initialize chat. Please try again."))
  end ;;
  set (ChatPage.setIsLoading false).

End Dates.

(** The events by which the transition system of the page lets the
    mount effect write the state. *)
Definition isInit (e : ChatPage.Event) : bool :=
  match e with
  | ChatPage.InitCurrentChat _ | ChatPage.InitActualChatId _
  | ChatPage.InitIsLoading _ => true
  | _ => false
  end.

(** What [initializeChat] does not write: the state [s'] has the draft,
    the jobs, the page, the selection and [isSending] of [s]. *)
Definition untouched (s s' : ChatPage.State) : Prop :=
  ChatPage.message s' = ChatPage.message s
  /\ ChatPage.displayedJobs s' = ChatPage.displayedJobs s
  /\ ChatPage.currentPage s' = ChatPage.currentPage s
  /\ ChatPage.showJobs s' = ChatPage.showJobs s
  /\ ChatPage.isSending s' = ChatPage.isSending s
  /\ ChatPage.selectedJobId s' = ChatPage.selectedJobId s.

End ChatPageMount.

(* ================================================================== *)
(** * ChatPage: what the page shows besides                            *)
(* ================================================================== *)

Module ChatPageView.
Import ChatPage.

(** [(currentPage - 1) * jobsPerPage + 1] in "Showing ... - ... of ...". *)
Definition showingFrom (r : State) : Z :=
  (currentPage r - 1) * jobsPerPage + 1.

(** [Math.min(currentPage * jobsPerPage, displayedJobs.length)] *)
Definition showingTo (r : State) : Z :=
  Z.min (currentPage r * jobsPerPage) (Z.of_nat (length (displayedJobs r))).

(** [disabled={isSending || !message.trim()}] of the Send button. *)
Definition sendDisabled (r : State) : bool :=
  isSending r || negb (Js.truthy (trim (message r))).

End ChatPageView.

(* ================================================================== *)
(** * Rendered trees: how deep handlers nest, what is written         *)
(* ================================================================== *)

Module ReactClicks.
Import React.

(** The handler bound on an element, if any. *)
Definition own (H : Type) (onClick : option H) : list H :=
  match onClick with Some h => [h] | None => [] end.

(** The most handlers one click can reach on a tree. *)
Fixpoint nesting (H : Type) (n : Node H) : nat :=
  match n with
  | Text _ => 0
  | Element _ onClick disabled children =>
      if disabled then 0
      else match onClick with Some _ => 1 | None => 0 end
           + list_max (map (@nesting H) children)
  | Fragment children => list_max (map (@nesting H) children)
  | Portal _ children => list_max (map (@nesting H) children)
  end.

(** The texts written on a tree, in document order. *)
Fixpoint texts (H : Type) (n : Node H) : list jsstring :=
  match n with
  | Text s => [s]
  | Element _ _ _ children => flat_map (@texts H) children
  | Fragment children => flat_map (@texts H) children
  | Portal _ children => flat_map (@texts H) children
  end.

End ReactClicks.

(* ================================================================== *)
(** * The job views: reading a log of clicks                            *)
(* ================================================================== *)

Module JobDetailModalLog.
Import JobDetailModal.

Definition isOnClose (o : Out) : bool :=
  match o with CallOnClose => true | _ => false end.

Definition isOnApply (o : Out) : bool :=
  match o with CallOnApply _ => true | _ => false end.

Definition isApplyClick (entry : Handler * list Out) : bool :=
  match fst entry with HandleApplyClick => true | _ => false end.

(** Everything the handlers of a log did, in order. *)
Definition outputs (log : list (Handler * list Out)) : list Out :=
  flat_map snd log.

(** The confirmations waiting for an answer: one or none. *)
Definition waiting (s : State) : nat :=
  if showApplyConfirmation s then 1 else 0.

End JobDetailModalLog.

Module JobCardLog.
Import JobCard.

Definition isOnApply (o : Out) : bool :=
  match o with CallOnApply _ => true | _ => false end.

(** A click on Apply that went through, on the card or in its detail
    dialog. *)
Definition isApplyClick (entry : Handler * list Out) : bool :=
  match fst entry with
  | HandleApply | InDetail JobDetailModal.HandleApplyClick => true
  | _ => false
  end.

(** Everything the handlers of a log did, in order. *)
Definition outputs (log : list (Handler * list Out)) : list Out :=
  flat_map snd log.

(** The confirmations waiting for an answer: the card's own and the one
    of its detail dialog. *)
Definition waiting (s : State) : nat :=
  (if showApplyConfirmation s then 1 else 0)
  + JobDetailModalLog.waiting (detail s).

End JobCardLog.

(* ================================================================== *)
(** * More sample data                                                  *)
(* ================================================================== *)

Module Samples.

(** Two messages as the server lists them, the second undated. *)
Definition history : ApiTypes.GetChatMessagesResponse.t :=
  {| ApiTypes.GetChatMessagesResponse.messages :=
       [{| ApiTypes.ChatMessage.sender := bot;
           ApiTypes.ChatMessage.message := str "Hello!";
           ApiTypes.ChatMessage.timestamp := Some (str "2025-01-01T10:00:00Z");
           ApiTypes.ChatMessage.selected_job_id := None |};
        {| ApiTypes.ChatMessage.sender := user;
           ApiTypes.ChatMessage.message := str "anything in Pune?";
           ApiTypes.ChatMessage.timestamp := None;
           ApiTypes.ChatMessage.selected_job_id := None |}];
     ApiTypes.GetChatMessagesResponse.chat_name := str "Jobs in Pune" |}.

(** A stand-in for the parsing of dates. *)
Definition dateParse (s : jsstring) : Z := Z.of_nat (length s).

Definition loadClock : ChatPageMount.LoadClock :=
  {| ChatPageMount.nowAt := fun i => (1700000003000 + Z.of_nat i)%Z;
     ChatPageMount.loadedAt := 1700000003000 |}.

(** The card of the examples once its job is applied to. *)
Definition appliedProps : JobCard.Props :=
  {| JobCard.job := Examples.job; JobCard.isSaved := false;
     JobCard.isApplied := true; JobCard.onUnsave := React.Undefined |}.

(** A server that rejects a request with three validation errors. *)
Definition invalid : Api.Response Z :=
  {| Api.ok := false;
     Api.json :=
       Some (Api.JObj
               [(str "detail",
                 Api.JArr
                   [Api.JObj [(str "loc", Api.JStr (str "body"))];
                    Api.JObj [(str "msg", Api.JStr (str "field required"))];
                    Api.JObj []])]) |}.

(** The chat built from [history] when it is loaded under an id the
    list of chats does not have. *)
Definition loaded (id : jsstring) : Chat.t :=
  {| Chat.id := id;
     Chat.title := ApiTypes.GetChatMessagesResponse.chat_name history;
     Chat.messages :=
       ChatPageMount.toMessages dateParse loadClock
         (ApiTypes.GetChatMessagesResponse.messages history);
     Chat.timestamp := ChatPageMount.loadedAt loadClock |}.

(** The chat page of the examples when the fifth job, the second on
    the page on display, is among the saved ones. *)
Definition withSavedJob : ChatPage.Props :=
  {| ChatPage.chats := [Examples.freshChat];
     ChatPage.savedJobs :=
       [ChatPage.convertJobCardDataToJob (Examples.jobData 5)];
     ChatPage.appliedJobs := [];
     ChatPage.userEmail := str "ada@example.org" |}.

End Samples.

Unset Implicit Arguments.

(* ================================================================== *)
(** * Facts about the JavaScript fragment                               *)
(* ================================================================== *)

Module JsFacts.

Lemma eqb_eq (a b : jsstring) : Js.eqb a b = true <-> a = b.
Proof.
  revert b; induction a as [|x a IH]; intros [|y b]; simpl;
    try (split; congruence).
  rewrite andb_true_iff, N.eqb_eq, IH. split.
  - intros [-> ->]; reflexivity.
  - intros E; injection E; auto.
Qed.

Lemma trimStart_nil_iff (s : jsstring) :
  trimStart s = [] <-> forallb isWhiteSpace s = true.
Proof.
  induction s as [|c s IH]; simpl.
  - split; reflexivity.
  - destruct (isWhiteSpace c); simpl.
    + exact IH.
    + split; discriminate.
Qed.

(** [!s.trim()] holds exactly of the strings made of white space. *)
Lemma trim_blank_iff (s : jsstring) :
  Js.truthy (trim s) = false <-> forallb isWhiteSpace s = true.
Proof.
  unfold trim, trimEnd.
  destruct (trimStart s) as [|c t] eqn:E.
  - simpl. rewrite <- trimStart_nil_iff, E. split; reflexivity.
  - assert (N : forallb isWhiteSpace s <> true)
      by (rewrite <- trimStart_nil_iff, E; discriminate).
    assert (W : isWhiteSpace c = false).
    { clear N. induction s as [|d s IH]; simpl in E; [discriminate|].
      destruct (isWhiteSpace d) eqn:D; [auto|congruence]. }
    assert (R : trimStart (rev (c :: t)) <> []).
    { rewrite trimStart_nil_iff, forallb_forall. intros A.
      specialize (A c). rewrite <- in_rev in A.
      rewrite A in W; [discriminate | left; reflexivity]. }
    destruct (trimStart (rev (c :: t))) as [|x u] eqn:F; [congruence|].
    split; [|intros Hs; contradiction].
    intros Hs. exfalso.
    destruct (rev (x :: u)) eqn:G; [|discriminate].
    apply (f_equal (@rev _)) in G. rewrite rev_involutive in G.
    discriminate.
Qed.

Lemma relIndex_bounds (len i : Z) :
  (0 <= len -> 0 <= relIndex len i <= len)%Z.
Proof. unfold relIndex. destruct (Z.ltb_spec i 0); lia. Qed.

Lemma relIndex_step (len a b : Z) :
  (0 <= len -> a <= b -> relIndex len b - relIndex len a <= b - a)%Z.
Proof.
  unfold relIndex.
  destruct (Z.ltb_spec a 0), (Z.ltb_spec b 0); lia.
Qed.

(** A slice is no longer than the distance between its bounds. *)
Lemma slice_length (A : Type) (l : list A) (a b : Z) :
  (a <= b)%Z -> (Z.of_nat (length (slice l a b)) <= b - a)%Z.
Proof.
  intros Hab. unfold slice.
  pose proof (firstn_le_length
    (Z.to_nat (relIndex (Z.of_nat (length l)) b
               - relIndex (Z.of_nat (length l)) a))
    (skipn (Z.to_nat (relIndex (Z.of_nat (length l)) a)) l)) as L.
  pose proof (@relIndex_step (Z.of_nat (length l)) a b) as S.
  lia.
Qed.

(** Between bounds that are not negative, [slice] drops and takes. *)
Lemma slice_nonneg (A : Type) (l : list A) (a b : nat) :
  (a <= b)%nat ->
  slice l (Z.of_nat a) (Z.of_nat b) = firstn (b - a) (skipn a l).
Proof.
  intros Hab. unfold slice, relIndex.
  destruct (Z.ltb_spec (Z.of_nat a) 0); [lia|].
  destruct (Z.ltb_spec (Z.of_nat b) 0); [lia|].
  destruct (Nat.le_gt_cases a (length l)) as [Ha|Ha].
  - replace (Z.to_nat (Z.min (Z.of_nat a) (Z.of_nat (length l)))) with a
      by lia.
    destruct (Nat.le_gt_cases b (length l)) as [Hb|Hb].
    + f_equal. lia.
    + rewrite !firstn_all2; [reflexivity| |];
        rewrite length_skipn; lia.
  - rewrite !(@skipn_all2 _ _ l) by lia.
    rewrite !firstn_nil. reflexivity.
Qed.

(** Cutting a list into consecutive chunks of [n] and gluing them
    back. *)
Lemma chunks_concat (A : Type) (n m : nat) :
  forall l : list A, (length l <= n * m)%nat ->
    concat (map (fun i => firstn n (skipn (n * i) l)) (seq 0 m)) = l.
Proof.
  induction m as [|m IH]; intros l Hl.
  - destruct l; [reflexivity | simpl in Hl; lia].
  - cbn [seq map concat]. rewrite <- seq_shift, map_map.
    rewrite Nat.mul_0_r. cbn [skipn].
    transitivity (firstn n l ++ skipn n l); [|apply firstn_skipn].
    f_equal.
    rewrite <- (IH (skipn n l)) by (rewrite length_skipn; lia).
    f_equal. apply map_ext. intros i.
    rewrite skipn_skipn. do 2 f_equal. lia.
Qed.

Lemma ceilDiv_spec (a b : Z) :
  (0 < b -> b * (ceilDiv a b - 1) < a <= b * ceilDiv a b)%Z.
Proof.
  intros Hb. unfold ceilDiv.
  pose proof (Z.div_mod (- a) b) as E.
  pose proof (Z.mod_pos_bound (- a) b Hb) as M.
  lia.
Qed.

End JsFacts.

(* ================================================================== *)
(** * The API client: what a response becomes                           *)
(* ================================================================== *)

Module ApiFacts.
Import Api.

#[local] Arguments str : simpl never.

Section Client.

Variable number : Type.
Variable number_truthy : number -> bool.
Variable number_toString : number -> jsstring.
Variables File UserProfile : Type.

(** Once its URL is built, a wrapper is [settle] applied to what the
    network answers. *)
Lemma run_settle (c : Call File UserProfile)
  (fetch : Fetch number File UserProfile)
  (fetched : Thrown + Response number) :
  forallb isWellFormed (encodedArgs c) = true ->
  (forall request, fetch request = fetched) ->
  run number_truthy number_toString c fetch
  = settle number_truthy number_toString (fallbackOf c) fetched.
Proof.
  intros W F.
  destruct c; cbn in W |- *;
    unfold uploadResume, confirmOnboarding, createChat, sendMessage,
      getChatMessages, getChatHistory, deleteChatSession, withEncoded;
    cbn [forallb snd]; rewrite ?W, ?F; reflexivity.
Qed.

(** Arguments that do not encode make the wrapper throw before it
    fetches. *)
Lemma run_URIError (c : Call File UserProfile)
  (fetch : Fetch number File UserProfile) :
  forallb isWellFormed (encodedArgs c) = false ->
  run number_truthy number_toString c fetch = Throws URIError.
Proof.
  intros W.
  destruct c; cbn in W |- *; try discriminate;
    unfold getChatMessages, getChatHistory, deleteChatSession,
      withEncoded; cbn [forallb snd]; rewrite W; reflexivity.
Qed.

Lemma orFallback_truthy (d : JSON number) (fallback : jsstring) :
  truthy number_truthy d = true ->
  orFallback number_truthy (Some d) fallback = d.
Proof. intros T. unfold orFallback. rewrite T. reflexivity. Qed.

Lemma orFallback_falsy (detail : option (JSON number))
  (fallback : jsstring) :
  detail = None
  \/ (exists d, detail = Some d /\ truthy number_truthy d = false) ->
  orFallback number_truthy detail fallback = JStr fallback.
Proof.
  intros [-> | (d & -> & T)]; unfold orFallback; [|rewrite T];
    reflexivity.
Qed.

Lemma detailOf_nonnull (data : JSON number) :
  data <> JNull -> detailOf data = Some (detailField data).
Proof. destruct data; intros N; try reflexivity; congruence. Qed.

(** C3, as amended. For each of the seven wrappers whose URL
    arguments encode, and for every response: when the body does not
    parse as JSON the wrapper rejects with the parse error, whatever
    [ok] is; when it parses, the wrapper returns the parsed body if
    and only if [ok] holds, and when [ok] does not hold it throws an
    [Error] whose message is [detail] if that is a non-empty string,
    the string conversion of [detail] if that is any other truthy
    value that has one, and the wrapper's own fallback if [detail] is
    missing or falsy. A truthy [detail] without a string conversion
    makes [new Error] throw a [TypeError] instead: an object is
    written ["[object Object]"] unless it has a [toString] property of
    its own, and then it has no conversion. A [null] body makes the
    read of [detail] throw a [TypeError] as well. *)
Theorem api_client_outcome (c : Call File UserProfile)
  (fetch : Fetch number File UserProfile) (r : Response number) :
  forallb isWellFormed (encodedArgs c) = true ->
  (forall request, fetch request = inr r) ->
  let result := run number_truthy number_toString c fetch in
  (json r = None -> result = Throws SyntaxError)
  /\ (forall data, json r = Some data ->
      ((exists v, result = Returns v) <-> ok r = true)
      /\ (ok r = true -> result = Returns data)
      /\ (ok r = false -> data = JNull -> result = Throws TypeError)
      /\ (ok r = false -> data <> JNull ->
          (forall s, detailField data = Some (JStr s) -> s <> [] ->
             result = Throws (Error s))
          /\ (forall d, detailField data = Some d ->
                truthy number_truthy d = true ->
                (forall m, toString number_toString d = Some m ->
                   result = Throws (Error m))
                /\ (toString number_toString d = None ->
                    result = Throws TypeError))
          /\ (forall fields, detailField data = Some (JObj fields) ->
                (lookup (str "toString") fields = None ->
                 result = Throws (Error (str "[object Object]")))
                /\ (lookup (str "toString") fields <> None ->
                    result = Throws TypeError))
          /\ (detailField data = None
              \/ (exists d, detailField data = Some d
                    /\ truthy number_truthy d = false) ->
              result = Throws (Error (fallbackOf c))))).
Proof.
  intros W F result. subst result.
  rewrite (@run_settle c fetch (inr r) W F).
  unfold settle. split.
  - intros ->. destruct (ok r); reflexivity.
  - intros data ->. destruct (ok r) eqn:O; cbn [negb].
    + repeat split; try discriminate; eauto.
    + split; [|split; [discriminate|split]].
      * split; [|discriminate].
        intros [v E]. destruct (detailOf data); discriminate.
      * intros _ ->. reflexivity.
      * intros _ N. rewrite (detailOf_nonnull data N).
        split; [|split; [|split]].
        -- intros s D S. rewrite D, orFallback_truthy.
           ++ reflexivity.
           ++ destruct s; [congruence | reflexivity].
        -- intros d D T. rewrite D, orFallback_truthy by exact T.
           unfold newError.
           split; [intros m M | intros M]; rewrite M; reflexivity.
        -- intros fields D.
           rewrite D, orFallback_truthy by reflexivity.
           unfold newError. cbn [toString].
           destruct (lookup (str "toString") fields);
             split; intros M; try reflexivity; congruence.
        -- intros D. rewrite orFallback_falsy by exact D. reflexivity.
Qed.

End Client.

(** A refusal that explains itself reaches the caller as that
    explanation. *)
Lemma api_client_outcome_witness :
  Examples.send (fun _ => inr Examples.refused)
  = Throws (Error (str "Chat not found")).
Proof.
  pose proof (@api_client_outcome Z Examples.zTruthy ofInt unit unit
    (@SendMessage unit unit (str "ada@example.org") (str "chat-1")
       (str "anything in Pune?") None)
    (fun _ => inr Examples.refused) Examples.refused
    eq_refl (fun _ => eq_refl)) as [_ P].
  destruct (P _ eq_refl) as (_ & _ & _ & Q).
  destruct (Q eq_refl ltac:(discriminate)) as (S & _).
  apply (S (str "Chat not found")); [reflexivity | discriminate].
Defined.

(** C3 fails as stated. A 502 whose body is an HTML page has no
    [detail], yet [sendMessage] does not throw an [Error] with its
    fallback: the rejection of [response.json()] escapes. An empty
    [detail] is present and the message is the fallback all the same,
    and a 200 whose body is not JSON returns nothing. *)
Lemma sendMessage_not_as_claimed :
  Examples.send (fun _ => inr Examples.badGateway) = Throws SyntaxError
  /\ ~ claimed (str "Failed to send message") Examples.badGateway
         (Examples.send (fun _ => inr Examples.badGateway))
  /\ Examples.send (fun _ => inr Examples.emptyDetail)
     = Throws (Error (str "Failed to send message"))
  /\ ~ claimed (str "Failed to send message") Examples.emptyDetail
         (Examples.send (fun _ => inr Examples.emptyDetail))
  /\ Examples.send (fun _ => inr Examples.okNotJson) = Throws SyntaxError
  /\ ~ claimed (str "Failed to send message") Examples.okNotJson
         (Examples.send (fun _ => inr Examples.okNotJson)).
Proof.
  repeat split; try reflexivity.
  - intros [_ C]. destruct (C eq_refl) as (m & E & _). discriminate.
  - intros [_ C]. destruct (C eq_refl) as (m & E & D).
    cbn in D. injection D as <-. discriminate.
  - intros [[_ C] _]. destruct (C eq_refl) as (v & E & _). discriminate.
Qed.

End ApiFacts.

(* ================================================================== *)
(** * ChatPage: conversion, pagination, sending                         *)
(* ================================================================== *)

Module ChatPageFacts.
Import ChatPage.

#[local] Arguments str : simpl never.
#[local] Arguments ofInt : simpl never.
#[local] Arguments slice : simpl never.
#[local] Arguments trim : simpl never.

(** ** convertJobCardDataToJob *)

Lemma or_else_default (v : option jsstring) (d : jsstring) :
  v = None \/ v = Some [] -> or_else v d = d.
Proof. intros [-> | ->]; reflexivity. Qed.

Lemma or_else_given (v d : jsstring) :
  v <> [] -> or_else (Some v) d = v.
Proof. destruct v; [congruence | reflexivity]. Qed.

(** C9, as amended. The four mandatory texts are copied; each of
    [role], [location] and [salary] is the field of the posting when
    that field holds a non-empty string, and the fixed default when
    the field is missing or is the empty string. *)
Theorem convertJobCardDataToJob_fields (jobData : Api.JobCardData) :
  let converted := convertJobCardDataToJob jobData in
  Job.id converted = Api.job_id jobData
  /\ Job.title converted = Api.job_title jobData
  /\ Job.company converted = Api.employer_name jobData
  /\ Job.description converted = Api.job_description jobData
  /\ (forall v, Api.job_employment_type jobData = Some v -> v <> [] ->
        Job.role converted = v)
  /\ (Api.job_employment_type jobData = None
      \/ Api.job_employment_type jobData = Some [] ->
        Job.role converted = str "Full-time")
  /\ (forall v, Api.job_location jobData = Some v -> v <> [] ->
        Job.location converted = v)
  /\ (Api.job_location jobData = None
      \/ Api.job_location jobData = Some [] ->
        Job.location converted = str "Not specified")
  /\ (forall v, Api.job_salary jobData = Some v -> v <> [] ->
        Job.salary converted = v)
  /\ (Api.job_salary jobData = None \/ Api.job_salary jobData = Some [] ->
        Job.salary converted = str "Not disclosed").
Proof.
  cbn zeta. unfold convertJobCardDataToJob; cbn [Job.id Job.title
    Job.company Job.description Job.role Job.location Job.salary].
  repeat split;
    try (intros v -> N; apply or_else_given; exact N);
    try (intros E; apply or_else_default; exact E).
Qed.

(** C9 fails as stated: the defaults are not substituted exactly when
    the optional fields are absent. The posting below has all three,
    each an empty string, and gets all three defaults. *)
Lemma convertJobCardDataToJob_blank_fields :
  Api.job_employment_type Examples.blankFields = Some []
  /\ Api.job_location Examples.blankFields = Some []
  /\ Api.job_salary Examples.blankFields = Some []
  /\ Job.role (convertJobCardDataToJob Examples.blankFields)
     = str "Full-time"
  /\ Job.location (convertJobCardDataToJob Examples.blankFields)
     = str "Not specified"
  /\ Job.salary (convertJobCardDataToJob Examples.blankFields)
     = str "Not disclosed"
  /\ Job.role (convertJobCardDataToJob Examples.blankFields)
     <> Job.role (convertAsSpecified Examples.blankFields)
  /\ Job.location (convertJobCardDataToJob Examples.blankFields)
     <> Job.location (convertAsSpecified Examples.blankFields)
  /\ Job.salary (convertJobCardDataToJob Examples.blankFields)
     <> Job.salary (convertAsSpecified Examples.blankFields).
Proof. repeat split; discriminate. Qed.

(** ** Pagination *)

Lemma paginatedJobs_atPage (r : State) (page : Z) :
  paginatedJobs (atPage r page)
  = slice (displayedJobs r) ((page - 1) * 3) (page * 3).
Proof. reflexivity. Qed.

Lemma totalPages_spec (r : State) :
  (3 * (totalPages r - 1) < Z.of_nat (length (displayedJobs r))
   <= 3 * totalPages r)%Z.
Proof. apply (JsFacts.ceilDiv_spec); reflexivity. Qed.

Lemma totalPages_nonneg (r : State) : (0 <= totalPages r)%Z.
Proof. pose proof (totalPages_spec r). lia. Qed.

(** From page 1 on, a page drops the pages before it and takes three
    jobs. *)
Lemma paginatedJobs_chunk (r : State) (i : nat) :
  paginatedJobs (atPage r (Z.of_nat (S i)))
  = firstn 3 (skipn (3 * i) (displayedJobs r)).
Proof.
  rewrite paginatedJobs_atPage.
  replace ((Z.of_nat (S i) - 1) * 3)%Z with (Z.of_nat (3 * i)) by lia.
  replace (Z.of_nat (S i) * 3)%Z with (Z.of_nat (3 * i + 3)) by lia.
  rewrite JsFacts.slice_nonneg by lia.
  f_equal. lia.
Qed.

(** C2. The page on display is the slice from [(currentPage-1)*3] to
    [currentPage*3] of the jobs, and the cards of the jobs pane are
    the cards of its jobs; there are three jobs per page and the
    least number of pages that holds them all; no page, whatever its
    number, has more than three jobs; and pages 1 to [totalPages],
    one after the other, are the jobs. *)
Theorem paginatedJobs_partition (props : Props) (r : State) :
  paginatedJobs r
  = slice (displayedJobs r) ((currentPage r - 1) * 3) (currentPage r * 3)
  /\ map JobCard.job (jobCards props r)
     = (if negb (isLoading r) && jobsShown r then paginatedJobs r else [])
  /\ jobsPerPage = 3%Z
  /\ (3 * (totalPages r - 1) < Z.of_nat (length (displayedJobs r))
      <= 3 * totalPages r)%Z
  /\ (length (paginatedJobs r) <= 3)%nat
  /\ concat (map (fun page => paginatedJobs (atPage r page))
               (map Z.of_nat (seq 1 (Z.to_nat (totalPages r)))))
     = displayedJobs r.
Proof.
  split; [reflexivity|]. split.
  { unfold jobCards. destruct (negb (isLoading r) && jobsShown r);
      [|reflexivity].
    rewrite map_map. cbn [JobCard.job]. apply map_id. }
  split; [reflexivity|].
  split; [apply totalPages_spec|]. split.
  - pose proof (JsFacts.slice_length _ (displayedJobs r)
      ((currentPage r - 1) * 3) (currentPage r * 3)) as L.
    change (length (paginatedJobs r))
      with (length (slice (displayedJobs r) ((currentPage r - 1) * 3)
                      (currentPage r * 3))).
    lia.
  - rewrite map_map, <- seq_shift, map_map.
    rewrite (map_ext _ _ (paginatedJobs_chunk r)).
    apply JsFacts.chunks_concat.
    pose proof (totalPages_spec r). lia.
Qed.

(** ** handleSendMessage: the guard *)

Lemma guard_false_iff (r : State) (messageText : jsstring) :
  guard r messageText = false <->
  forallb isWhiteSpace messageText = false
  /\ (exists c, currentChat r = Some c)
  /\ present (actualChatId r) = true
  /\ isSending r = false.
Proof.
  unfold guard. rewrite !orb_false_iff, !negb_false_iff.
  pose proof (JsFacts.trim_blank_iff messageText) as B.
  destruct (Js.truthy (trim messageText)), (forallb isWhiteSpace messageText);
    destruct (currentChat r); intuition (eauto; try congruence).
  all: match goal with H : exists _, None = Some _ |- _ =>
         destruct H; discriminate end.
Qed.

Lemma guard_true_if (r : State) (messageText : jsstring) :
  isSending r = true
  \/ forallb isWhiteSpace messageText = true
  \/ currentChat r = None
  \/ actualChatId r = None ->
  guard r messageText = true.
Proof.
  intros C. destruct (guard r messageText) eqn:G; [reflexivity|].
  apply guard_false_iff in G. destruct G as (B & (c & Hc) & A & S).
  destruct C as [C | [C | [C | C]]]; try congruence.
  rewrite C in A. discriminate.
Qed.

Lemma handleSendMessage_guarded (props : Props) (r : State) (clock : Clock)
  (text : option jsstring) (s : State) :
  guard r (or_else text (message r)) = true ->
  handleSendMessage props r clock text s = (None, s, []).
Proof. intros G. unfold handleSendMessage. rewrite G. reflexivity. Qed.

(** What a call that passed the guard did before it suspended. *)
Lemma handleSendMessage_sent (props : Props) (r : State) (clock : Clock)
  (text : option jsstring) (s : State) (k : InFlight) (s1 : State)
  (effects : list Effect) :
  handleSendMessage props r clock text s = (Some k, s1, effects) ->
  guard r (or_else text (message r)) = false
  /\ currentChat r = Some (chat k)
  /\ actualChatId r = Some (chatId k)
  /\ messageText k = or_else text (message r)
  /\ updatedMessages k
     = Chat.messages (chat k) ++ [newUserMessage clock (messageText k)]
  /\ currentChat s1 = Some (Chat.withMessages (chat k) (updatedMessages k))
  /\ message s1 = []
  /\ isSending s1 = true
  /\ displayedJobs s1 = displayedJobs s
  /\ currentPage s1 = currentPage s
  /\ showJobs s1 = showJobs s
  /\ isLoading s1 = isLoading s
  /\ selectedJobId s1 = selectedJobId s
  /\ actualChatId s1 = actualChatId s
  /\ effects
     = [CallSendMessage (userEmail props) (chatId k) (messageText k)
          (if present (selectedJobId r) then selectedJobId r else None)].
Proof.
  unfold handleSendMessage.
  destruct (guard r (or_else text (message r))) eqn:G; [discriminate|].
  destruct (currentChat r) as [c|]; [|discriminate].
  destruct (actualChatId r) as [i|]; [|discriminate].
  cbn. intros E. injection E as <- <- <-. cbn.
  repeat split; reflexivity.
Qed.

Lemma handleSendMessage_passes (props : Props) (r : State) (clock : Clock)
  (text : option jsstring) (s : State) :
  guard r (or_else text (message r)) = false ->
  exists k s1 effects,
    handleSendMessage props r clock text s = (Some k, s1, effects).
Proof.
  intros G. pose proof G as G'. apply guard_false_iff in G'.
  destruct G' as (_ & (c & Hc) & A & _).
  unfold handleSendMessage. rewrite G, Hc.
  destruct (actualChatId r); [|discriminate].
  cbn. eauto.
Qed.

(** ** handleSendMessage: after the await *)

(** What the [catch] branch and [finally] leave behind. *)
Lemma resumeSendMessage_rejected (k : InFlight) (clock : Clock)
  (error : Api.Thrown) (s : State) :
  exists s3 effects,
    resumeSendMessage k clock (Api.Throws error) s = (tt, s3, effects)
    /\ currentChat s3 = Some (chat k)
    /\ isSending s3 = false
    /\ message s3 = message s
    /\ displayedJobs s3 = displayedJobs s
    /\ currentPage s3 = currentPage s
    /\ showJobs s3 = showJobs s
    /\ isLoading s3 = isLoading s
    /\ selectedJobId s3 = selectedJobId s
    /\ actualChatId s3 = actualChatId s
    /\ effects
       = [ConsoleError (str "Error sending message:") error;
          ToastError (str "Failed to send message. Please try again.")].
Proof.
  do 2 eexists. cbn. repeat split. destruct (chat k); reflexivity.
Qed.

(** What the rest of the [try] block and [finally] leave behind. *)
Lemma resumeSendMessage_fulfilled (k : InFlight) (clock : Clock)
  (response : Api.ChatMessageResponse) (s : State) :
  exists s3 effects,
    resumeSendMessage k clock (Api.Returns response) s = (tt, s3, effects)
    /\ isSending s3 = false
    /\ selectedJobId s3 = None
    /\ isLoading s3 = isLoading s
    /\ existsb isRequest effects = false
    /\ existsb isUpdateChat effects = true
    /\ match Api.jobs response with
       | Some (j :: jobs) =>
           displayedJobs s3 = map convertJobCardDataToJob (j :: jobs)
           /\ showJobs s3 = true
           /\ currentPage s3 = 1%Z
       | _ =>
           displayedJobs s3 = displayedJobs s
           /\ showJobs s3 = showJobs s
           /\ currentPage s3 = currentPage s
       end.
Proof.
  unfold resumeSendMessage.
  destruct (Api.jobs response) as [[|j jobs]|];
    destruct (Api.selected_job_details response);
    do 2 eexists; cbn; repeat split.
Qed.

(** ** A failed send *)

(** C1. Take any state and any text with which [handleSendMessage]
    passes its guard (so the text is not blank, there is a current
    chat and nothing is being sent). The call appends the user's
    message to the chat on display and suspends. If the request then
    rejects, the continuation puts back the chat the call started
    from, whatever the state has become in the meantime: the list of
    messages is the one from before the append. *)
Theorem failed_send_restores_messages (props : Props) (s : State)
  (clock : Clock) (text : option jsstring) :
  let messageText := or_else text (message s) in
  guard s messageText = false ->
  exists before k s1 effects1,
    currentChat s = Some before
    /\ handleSendMessage props s clock text s = (Some k, s1, effects1)
    /\ option_map Chat.messages (currentChat s1)
       = Some (Chat.messages before ++ [newUserMessage clock messageText])
    /\ forall (s2 : State) (clock2 : Clock) (error : Api.Thrown),
         exists s3 effects3,
           resumeSendMessage k clock2 (Api.Throws error) s2
           = (tt, s3, effects3)
           /\ currentChat s3 = currentChat s
           /\ option_map Chat.messages (currentChat s3)
              = Some (Chat.messages before).
Proof.
  intros messageText G.
  destruct (handleSendMessage_passes props s clock text s G)
    as (k & s1 & effects1 & E).
  pose proof (handleSendMessage_sent _ _ _ _ _ _ _ _ E)
    as (_ & C & _ & M & U & C1 & _).
  exists (chat k), k, s1, effects1.
  split; [exact C|]. split; [exact E|]. split.
  - rewrite C1, U, M. reflexivity.
  - intros s2 clock2 error.
    destruct (resumeSendMessage_rejected k clock2 error s2)
      as (s3 & effects3 & R & C3 & _).
    exists s3, effects3. rewrite C3, C. auto.
Qed.

(** A send from the sample chat that fails leaves its one message. *)
Lemma failed_send_restores_messages_witness :
  exists k s1 effects1,
    handleSendMessage Examples.props Examples.ready Examples.clock1 None
      Examples.ready = (Some k, s1, effects1)
    /\ option_map Chat.messages (currentChat s1)
       = Some [Examples.welcome;
               newUserMessage Examples.clock1 (str "anything in Pune?")]
    /\ forall error,
         option_map Chat.messages
           (currentChat
              (snd (fst (resumeSendMessage k Examples.clock2
                           (Api.Throws error) s1))))
         = Some [Examples.welcome].
Proof.
  destruct (failed_send_restores_messages Examples.props Examples.ready
              Examples.clock1 None eq_refl)
    as (before & k & s1 & effects1 & B & E & U & R).
  injection B as <-.
  exists k, s1, effects1. split; [exact E|]. split; [exact U|].
  intros error.
  destruct (R s1 Examples.clock2 error) as (s3 & effects3 & E3 & _ & M).
  rewrite E3. exact M.
Defined.

(** C10. A call that passes the guard leaves the displayed jobs, the
    flag that shows them, the current page and the selected job as
    they were and does not call [updateChat]. If the request rejects,
    the continuation leaves the four as it finds them and does not
    call [updateChat] either, so that with nothing else in between
    they have their values from before the send. A fulfilled request
    is what clears the selected job and calls [updateChat]. *)
Theorem failed_send_keeps_job_list (props : Props) (s : State)
  (clock : Clock) (text : option jsstring) :
  guard s (or_else text (message s)) = false ->
  exists k s1 effects1,
    handleSendMessage props s clock text s = (Some k, s1, effects1)
    /\ jobListState s1 = jobListState s
    /\ existsb isUpdateChat effects1 = false
    /\ (forall (s2 : State) (clock2 : Clock) (error : Api.Thrown),
          exists s3 effects3,
            resumeSendMessage k clock2 (Api.Throws error) s2
            = (tt, s3, effects3)
            /\ jobListState s3 = jobListState s2
            /\ (s2 = s1 -> jobListState s3 = jobListState s)
            /\ existsb isUpdateChat effects3 = false)
    /\ (forall (s2 : State) (clock2 : Clock)
          (response : Api.ChatMessageResponse),
          exists s3 effects3,
            resumeSendMessage k clock2 (Api.Returns response) s2
            = (tt, s3, effects3)
            /\ selectedJobId s3 = None
            /\ existsb isUpdateChat effects3 = true).
Proof.
  intros G.
  destruct (handleSendMessage_passes props s clock text s G)
    as (k & s1 & effects1 & E).
  pose proof (handleSendMessage_sent _ _ _ _ _ _ _ _ E)
    as (_ & _ & _ & _ & _ & _ & _ & _ & D & P & J & _ & I & _ & F).
  assert (S1 : jobListState s1 = jobListState s)
    by (unfold jobListState; congruence).
  exists k, s1, effects1.
  split; [exact E|]. split; [exact S1|]. split; [rewrite F; reflexivity|].
  split.
  - intros s2 clock2 error.
    destruct (resumeSendMessage_rejected k clock2 error s2)
      as (s3 & effects3 & R & _ & _ & _ & D3 & P3 & J3 & _ & I3 & _ & F3).
    assert (S3 : jobListState s3 = jobListState s2)
      by (unfold jobListState; congruence).
    exists s3, effects3. split; [exact R|]. split; [exact S3|].
    split; [intros ->; congruence | rewrite F3; reflexivity].
  - intros s2 clock2 response.
    destruct (resumeSendMessage_fulfilled k clock2 response s2)
      as (s3 & effects3 & R & _ & I3 & _ & _ & U & _).
    exists s3, effects3. auto.
Qed.

(** A send from the sample chat that fails leaves the job list. *)
Lemma failed_send_keeps_job_list_witness :
  exists k s1 effects1,
    handleSendMessage Examples.props Examples.browsing Examples.clock1
      (Some (str "more like these")) Examples.browsing
    = (Some k, s1, effects1)
    /\ forall error,
         jobListState
           (snd (fst (resumeSendMessage k Examples.clock2
                        (Api.Throws error) s1)))
         = jobListState Examples.browsing.
Proof.
  destruct (failed_send_keeps_job_list Examples.props Examples.browsing
              Examples.clock1 (Some (str "more like these")) eq_refl)
    as (k & s1 & effects1 & E & _ & _ & R & _).
  exists k, s1, effects1. split; [exact E|].
  intros error.
  destruct (R s1 Examples.clock2 error) as (s3 & effects3 & E3 & _ & K & _).
  rewrite E3. exact (K eq_refl).
Defined.

(** ** The page as a transition system *)

(** A call of [handleSendMessage] made from the render of [p] while
    the state is [s], followed by effects that are no requests. *)
Lemma suspended_change (props : Props) (p : Page) (clock : Clock)
  (text : option jsstring) (s : State) (after : list Effect)
  (out : option InFlight * State * list Effect) :
  (let sent := handleSendMessage props (view p) clock text s in
   out = (fst (fst sent), snd (fst sent), snd sent ++ after)) ->
  displayedJobs s = displayedJobs (view p) ->
  currentPage s = currentPage (view p) ->
  isSending s = isSending (view p) ->
  existsb isRequest after = false ->
  forall p' effects,
    suspended p out = (p', effects) ->
    Change p p' effects
    /\ displayedJobs (view p') = displayedJobs (view p)
    /\ currentPage (view p') = currentPage (view p).
Proof.
  intros O D P I A p' effects H. cbn zeta in O. subst out.
  destruct (guard (view p) (or_else text (message (view p)))) eqn:G.
  - rewrite (handleSendMessage_guarded props _ clock text s G) in H.
    cbn in H. injection H as <- <-. cbn. rewrite app_nil_r.
    split; [apply Kept; cbn; auto | auto].
  - destruct (handleSendMessage_passes props _ clock text s G)
      as (k & s1 & e1 & E).
    rewrite E in H. cbn in H. injection H as <- <-.
    apply handleSendMessage_sent in E.
    destruct E as (_ & _ & _ & _ & _ & _ & _ & S1 & D1 & P1 & _).
    apply guard_false_iff in G. destruct G as (_ & _ & _ & S0).
    split; [apply Sent with k; cbn; congruence | cbn; split; congruence].
Qed.

Lemma pageInRange_same (s s' : State) :
  displayedJobs s' = displayedJobs s ->
  currentPage s' = currentPage s ->
  pageInRange s -> pageInRange s'.
Proof.
  unfold pageInRange, totalPages. intros -> ->. exact (fun H => H).
Qed.

Lemma pageInRange_first (s : State) :
  currentPage s = 1%Z -> pageInRange s.
Proof. unfold pageInRange. intros ->. lia. Qed.

Lemma resumeSendMessage_change (k : InFlight) (clock : Clock)
  (outcome : Api.Result Api.ChatMessageResponse) (s : State) :
  exists s3 effects,
    resumeSendMessage k clock outcome s = (tt, s3, effects)
    /\ isSending s3 = false
    /\ existsb isRequest effects = false
    /\ (pageInRange s -> pageInRange s3).
Proof.
  destruct outcome as [error|response].
  - destruct (resumeSendMessage_rejected k clock error s)
      as (s3 & effects & R & _ & I & _ & D & P & _ & _ & _ & _ & F).
    exists s3, effects. split; [exact R|]. split; [exact I|].
    split; [rewrite F; reflexivity|].
    apply pageInRange_same; assumption.
  - destruct (resumeSendMessage_fulfilled k clock response s)
      as (s3 & effects & R & I & _ & _ & Q & _ & J).
    exists s3, effects. split; [exact R|]. split; [exact I|].
    split; [exact Q|].
    destruct (Api.jobs response) as [[|j jobs]|];
      destruct J as (D & _ & P).
    + apply pageInRange_same; assumption.
    + intros _. apply pageInRange_first. exact P.
    + apply pageInRange_same; assumption.
Qed.

Lemma pageButtons_spec (r : State) (page : Z) :
  existsb (Z.eqb page) (pageButtons r) = true <->
  (1 <= page <= Z.min (totalPages r) 5)%Z.
Proof.
  unfold pageButtons. rewrite existsb_exists. split.
  - intros (x & I & E). apply Z.eqb_eq in E. subst x.
    apply in_map_iff in I. destruct I as (i & <- & I).
    apply in_seq in I. lia.
  - intros B. exists page. split; [|apply Z.eqb_refl].
    apply in_map_iff. exists (Z.to_nat (page - 1)). split; [lia|].
    apply in_seq. lia.
Qed.

Lemma handleChooseJob_sends (props : Props) (r : State) (clock : Clock)
  (job : Job.t) (s : State) (c : Chat.t) :
  currentChat r = Some c ->
  let sent :=
    handleSendMessage props r clock (Some (chooseMessage job))
      (snd (fst (setSelectedJobId (Some (Job.id job)) s))) in
  handleChooseJob props r clock job s
  = (fst (fst sent), snd (fst sent),
     snd sent ++ [ToastSuccess (str "Job selected for discussion")]).
Proof.
  intros C. unfold handleChooseJob. rewrite C. unfold bind. cbn.
  destruct (handleSendMessage _ _ _ _ _) as [[? ?] ?]. reflexivity.
Qed.

Lemma step_change (props : Props) (p : Page) (e : Event) (p' : Page)
  (effects : list Effect) :
  step props p e = Some (p', effects) -> Change p p' effects.
Proof.
  intros H. destruct e; cbn [step] in H.
  - injection H as H.
    refine (proj1 (@suspended_change props p clock text (view p) [] _ _
                     eq_refl eq_refl eq_refl eq_refl p' effects H)).
    cbn zeta. destruct (handleSendMessage _ _ _ _ _) as [[? ?] ?].
    cbn. rewrite app_nil_r. reflexivity.
  - injection H as H.
    destruct (currentChat (view p)) as [c|] eqn:C.
    + refine (proj1 (@suspended_change props p clock
                (Some (chooseMessage job))
                (snd (fst (setSelectedJobId (Some (Job.id job)) (view p))))
                [ToastSuccess (str "Job selected for discussion")] _
                (@handleChooseJob_sends props (view p) clock job (view p) c C)
                eq_refl eq_refl eq_refl eq_refl p' effects H)).
    + unfold handleChooseJob in H. rewrite C in H.
      cbn in H. injection H as <- <-. cbn. rewrite app_nil_r.
      apply Kept; reflexivity.
  - destruct (nth_error (pending p) n) as [k|] eqn:N; [|discriminate].
    destruct (resumeSendMessage_change k clock outcome (view p))
      as (s3 & effs & R & I & Q & _).
    rewrite R in H. injection H as <- <-.
    apply Settled with n k; auto.
  - destruct (isLoading (view p)); [discriminate|].
    injection H as <- <-. apply Kept; reflexivity.
  - destruct (negb (isLoading (view p)) && present (selectedJobId (view p)));
      [|discriminate].
    injection H as <- <-. apply Kept; reflexivity.
  - destruct (paginationShown (view p)); [|discriminate].
    injection H as <- <-. apply Kept; reflexivity.
  - destruct (paginationShown (view p)); [|discriminate].
    injection H as <- <-. apply Kept; reflexivity.
  - destruct (paginationShown (view p) && _); [|discriminate].
    injection H as <- <-. apply Kept; reflexivity.
  - injection H as <- <-. apply Kept; reflexivity.
  - injection H as <- <-. apply Kept; reflexivity.
  - injection H as <- <-. apply Kept; reflexivity.
Qed.

Lemma idle_sequential (p : Page) : idle p -> sequential p.
Proof.
  intros [P S]. unfold sequential. rewrite P, S. cbn.
  split; [lia|]. split; [discriminate | congruence].
Qed.

Lemma change_sequential (p p' : Page) (effects : list Effect) :
  sequential p -> Change p p' effects ->
  sequential p'
  /\ (existsb isRequest effects = true ->
      pending p = [] /\ length (pending p') = 1%nat
      /\ isSending (view p') = true).
Proof.
  intros [L I] [P S Q | k S P S' | n k N P S Q].
  - split; [|congruence]. unfold sequential. rewrite P, S. auto.
  - assert (E : pending p = []).
    { destruct (pending p); [reflexivity|].
      assert (isSending (view p) = true) by (apply I; discriminate).
      congruence. }
    rewrite E in P. cbn in P. unfold sequential. rewrite P, S'. cbn.
    repeat split; auto; discriminate.
  - split; [|congruence].
    destruct (pending p) as [|k0 [|k1 rest]]; cbn in L; try lia.
    + destruct n; discriminate.
    + destruct n as [|[|n]]; try discriminate.
      unfold sequential. rewrite P, S. cbn.
      split; [lia|]. split; [discriminate | congruence].
Qed.

Lemma run_sequential (es : list (Props * Event)) :
  forall p p' effects,
    sequential p -> run p es = Some (p', effects) -> sequential p'.
Proof.
  induction es as [|[props e] es IH]; intros p p' effects S R; cbn in R.
  - injection R as <- <-. exact S.
  - destruct (step props p e) as [[p1 e1]|] eqn:E; [|discriminate].
    destruct (run p1 es) as [[p2 e2]|] eqn:E2; [|discriminate].
    injection R as <- <-.
    apply (IH p1 p2 e2); [|exact E2].
    eapply change_sequential; [exact S|].
    eapply step_change; exact E.
Qed.

(** C4. Start from a page on which nothing is being sent and let any
    events happen. Then at most one call of [handleSendMessage] is
    suspended at its [await], and one is exactly when [isSending] is
    set. A call made while [isSending] is set, with a text that is
    empty or white space, without a current chat or without a chat id
    returns at once: the page is as before and there is no effect. And
    whatever event issues a [sendMessage] request finds no earlier
    request unsettled. *)
Theorem chat_turns_are_sequential (p : Page) (es : list (Props * Event))
  (p' : Page) (effects : list Effect) :
  idle p ->
  run p es = Some (p', effects) ->
  sequential p'
  /\ (forall props text clock,
        isSending (view p') = true
        \/ forallb isWhiteSpace (or_else text (message (view p'))) = true
        \/ currentChat (view p') = None
        \/ actualChatId (view p') = None ->
        step props p' (SendMessage text clock) = Some (p', []))
  /\ (forall props e p'' effects',
        step props p' e = Some (p'', effects') ->
        existsb isRequest effects' = true ->
        pending p' = [] /\ isSending (view p') = false
        /\ length (pending p'') = 1%nat /\ isSending (view p'') = true).
Proof.
  intros I R.
  assert (S : sequential p').
  { eapply run_sequential; [|exact R]. apply idle_sequential. exact I. }
  split; [exact S|]. split.
  - intros props text clock G. apply guard_true_if in G.
    cbn [step]. rewrite (handleSendMessage_guarded props _ clock text _ G).
    cbn. rewrite app_nil_r. destruct p'; reflexivity.
  - intros props e p'' effects' E Q.
    assert (C : Change p' p'' effects') by (eapply step_change; exact E).
    apply (change_sequential _ _ _ S) in C. destruct C as [_ C].
    destruct (C Q) as (P & L & T). repeat split; auto.
    destruct S as [_ S]. destruct (isSending (view p')); [|reflexivity].
    exfalso. apply (proj1 S); auto.
Qed.

(** After the sample turn nothing is in flight. *)
Lemma chat_turns_are_sequential_witness :
  sequential (fst Examples.afterTurn)
  /\ pending (fst Examples.afterTurn) = []
  /\ length (filter isRequest (snd Examples.afterTurn)) = 1%nat.
Proof.
  assert (I : idle Examples.readyPage) by (split; reflexivity).
  assert (R : run Examples.readyPage Examples.turn
              = Some (fst Examples.afterTurn, snd Examples.afterTurn))
    by (vm_compute; reflexivity).
  split; [|split; vm_compute; reflexivity].
  exact (proj1 (chat_turns_are_sequential Examples.readyPage Examples.turn
                  (fst Examples.afterTurn) (snd Examples.afterTurn) I R)).
Defined.

(** ** The current page *)

Lemma paginationShown_pages (r : State) :
  paginationShown r = true -> (1 < totalPages r)%Z.
Proof.
  unfold paginationShown. rewrite !andb_true_iff.
  intros (_ & T). apply Z.ltb_lt. exact T.
Qed.

(** A call of either sending handler leaves the jobs and the page
    number alone. *)
Lemma suspended_page (props : Props) (p : Page) (clock : Clock)
  (text : option jsstring) (s : State) (after : list Effect)
  (out : option InFlight * State * list Effect) (p' : Page)
  (effects : list Effect) :
  (let sent := handleSendMessage props (view p) clock text s in
   out = (fst (fst sent), snd (fst sent), snd sent ++ after)) ->
  displayedJobs s = displayedJobs (view p) ->
  currentPage s = currentPage (view p) ->
  suspended p out = (p', effects) ->
  pageInRange (view p) -> pageInRange (view p').
Proof.
  intros O D P H. cbn zeta in O. subst out.
  destruct (handleSendMessage props (view p) clock text s)
    as [[sent s1] e1] eqn:E.
  cbn in H. injection H as <- <-. cbn.
  destruct sent as [k|].
  - apply handleSendMessage_sent in E.
    destruct E as (_ & _ & _ & _ & _ & _ & _ & _ & D1 & P1 & _).
    apply pageInRange_same; congruence.
  - destruct (guard (view p) (or_else text (message (view p)))) eqn:G.
    + rewrite (handleSendMessage_guarded props _ clock text s G) in E.
      injection E as <- <-. apply pageInRange_same; assumption.
    + destruct (handleSendMessage_passes props _ clock text s G)
        as (k & s2 & e2 & E2). congruence.
Qed.

(** C5. Every event of the page keeps [currentPage] between 1 and
    [max(1, totalPages)]. Previous sets it to [max(1, currentPage -
    1)], Next to [min(totalPages, currentPage + 1)], a numbered button
    to its number, which lies between 1 and [min(totalPages, 5)], and
    a reply that brings jobs sets it to 1 together with the new
    jobs. *)
Theorem currentPage_stays_in_range (props : Props) (p : Page) (e : Event)
  (p' : Page) (effects : list Effect) :
  pageInRange (view p) ->
  step props p e = Some (p', effects) ->
  pageInRange (view p')
  /\ (e = Previous ->
      currentPage (view p') = Z.max 1 (currentPage (view p) - 1))
  /\ (e = Next ->
      currentPage (view p')
      = Z.min (totalPages (view p)) (currentPage (view p) + 1))
  /\ (forall page, e = GoTo page ->
      currentPage (view p') = page
      /\ (1 <= page <= Z.min (totalPages (view p)) 5)%Z)
  /\ (forall n response clock jobs,
      e = Settle n (Api.Returns response) clock ->
      Api.jobs response = Some jobs -> jobs <> [] ->
      currentPage (view p') = 1%Z
      /\ displayedJobs (view p') = map convertJobCardDataToJob jobs).
Proof.
  intros R H. destruct e; cbn [step] in H.
  - injection H as H.
    split; [|repeat split; intros; discriminate].
    refine (suspended_page props p clock text (view p) [] _ p' effects
              _ eq_refl eq_refl H R).
    cbn zeta. destruct (handleSendMessage _ _ _ _ _) as [[? ?] ?].
    cbn. rewrite app_nil_r. reflexivity.
  - injection H as H.
    split; [|repeat split; intros; discriminate].
    destruct (currentChat (view p)) as [c|] eqn:C.
    + exact (suspended_page props p clock (Some (chooseMessage job))
               (snd (fst (setSelectedJobId (Some (Job.id job)) (view p))))
               [ToastSuccess (str "Job selected for discussion")] _
               p' effects
               (handleChooseJob_sends props (view p) clock job (view p) c C)
               eq_refl eq_refl H R).
    + unfold handleChooseJob in H. rewrite C in H.
      cbn in H. injection H as <- <-. exact R.
  - destruct (nth_error (pending p) n) as [k|] eqn:N; [|discriminate].
    destruct (resumeSendMessage_change k clock outcome (view p))
      as (s3 & effs & E & _ & _ & Q).
    rewrite E in H. injection H as <- <-. cbn [view].
    split; [exact (Q R)|].
    split; [discriminate|]. split; [discriminate|].
    split; [intros page X; discriminate|].
    intros n' response clock' jobs X J NE. injection X as -> -> ->.
    destruct (resumeSendMessage_fulfilled k clock' response (view p))
      as (s4 & effs4 & E4 & _ & _ & _ & _ & _ & F).
    rewrite E4 in E. injection E as -> ->.
    rewrite J in F. destruct jobs; [congruence|]. tauto.
  - destruct (isLoading (view p)); [discriminate|].
    injection H as <- <-.
    split; [exact R | repeat split; intros; discriminate].
  - destruct (negb (isLoading (view p)) && present (selectedJobId (view p)));
      [|discriminate].
    injection H as <- <-.
    split; [exact R | repeat split; intros; discriminate].
  - destruct (paginationShown (view p)) eqn:S; [|discriminate].
    apply paginationShown_pages in S.
    injection H as <- <-. unfold pageInRange, totalPages in *. cbn.
    repeat split; try (intros; discriminate); lia.
  - destruct (paginationShown (view p)) eqn:S; [|discriminate].
    apply paginationShown_pages in S.
    injection H as <- <-. unfold pageInRange, totalPages in *. cbn.
    repeat split; try (intros; discriminate); lia.
  - destruct (paginationShown (view p)) eqn:S; [|discriminate].
    destruct (existsb (Z.eqb page) (pageButtons (view p))) eqn:B;
      [|discriminate].
    apply paginationShown_pages in S. apply pageButtons_spec in B.
    injection H as <- <-. unfold pageInRange, totalPages in *. cbn.
    split; [lia|]. split; [discriminate|]. split; [discriminate|].
    split; [|intros; discriminate].
    intros page' X. injection X as <-. split; [reflexivity | lia].
  - injection H as <- <-.
    split; [exact R | repeat split; intros; discriminate].
  - injection H as <- <-.
    split; [exact R | repeat split; intros; discriminate].
  - injection H as <- <-.
    split; [exact R | repeat split; intros; discriminate].
Qed.

(** Next on the second of three pages leads to the third. *)
Lemma currentPage_stays_in_range_witness :
  pageInRange (view Examples.thirdPage)
  /\ currentPage (view Examples.thirdPage) = 3%Z.
Proof.
  assert (R : pageInRange (view Examples.browsingPage))
    by (unfold pageInRange; cbn; lia).
  destruct (currentPage_stays_in_range Examples.props
              Examples.browsingPage Next Examples.thirdPage [] R eq_refl)
    as (P & _ & N & _).
  split; [exact P | exact (N eq_refl)].
Defined.

End ChatPageFacts.

(* ================================================================== *)
(** * Rendered trees: clicks reach bound handlers only                  *)
(* ================================================================== *)

Module ReactFacts.
Import React.

Section Nodes.
Variable H : Type.

(** Descending into the [i]-th child. *)
Lemma chain_pick (own : list H) (rest : list nat) (hs : list H) :
  forall (children : list (Node H)) (i : nat),
    (fix pick (cs : list (Node H)) (i : nat) : option (list H) :=
       match cs, i with
       | c :: _, O => option_map (fun hs => hs ++ own) (chain c rest)
       | _ :: cs', S i' => pick cs' i'
       | [], _ => None
       end) children i = Some hs ->
    exists c hs', In c children /\ chain c rest = Some hs'
                  /\ hs = hs' ++ own.
Proof.
  induction children as [|c cs IH]; intros i E.
  - destruct i; discriminate.
  - destruct i as [|i].
    + destruct (chain c rest) as [hs'|] eqn:C; [|discriminate].
      injection E as <-. exists c, hs'. cbn. auto.
    + destruct (IH i E) as (c' & hs' & I & C & ->).
      exists c', hs'. cbn. auto.
Qed.

(** A click only reaches handlers bound on enabled controls. *)
Lemma chain_handlers (n : Node H) :
  forall path hs, chain n path = Some hs -> incl hs (handlers n).
Proof.
  induction n as [s|tag onClick disabled children IH|children IH
                 |container children IH] using Node_induction;
    intros path hs E h I.
  - destruct path; [|discriminate]. injection E as <-. exact I.
  - cbn in E |- *. destruct disabled; [discriminate|].
    destruct path as [|i rest].
    + injection E as <-. apply in_or_app. left. exact I.
    + apply chain_pick in E. destruct E as (c & hs' & Ic & C & ->).
      apply in_app_or in I. apply in_or_app. destruct I as [I|I].
      * right. apply in_flat_map. exists c. split; [exact Ic|].
        rewrite Forall_forall in IH. exact (IH c Ic rest hs' C h I).
      * left. exact I.
  - cbn in E |- *. destruct path as [|i rest].
    + injection E as <-. destruct I.
    + apply chain_pick in E. destruct E as (c & hs' & Ic & C & ->).
      rewrite app_nil_r in I.
      apply in_flat_map. exists c. split; [exact Ic|].
      rewrite Forall_forall in IH. exact (IH c Ic rest hs' C h I).
  - cbn in E |- *. destruct path as [|i rest].
    + injection E as <-. destruct I.
    + apply chain_pick in E. destruct E as (c & hs' & Ic & C & ->).
      rewrite app_nil_r in I.
      apply in_flat_map. exists c. split; [exact Ic|].
      rewrite Forall_forall in IH. exact (IH c Ic rest hs' C h I).
Qed.

(** Running a chain of handlers keeps what every handler of the
    chain keeps. *)
Lemma dispatch_invariant (S Out : Type) (handle : H -> S -> S * list Out)
  (stops : Out -> bool) (Q : S -> list (H * list Out) -> Prop)
  (hs : list H) :
  (forall h s log, In h hs -> Q s log ->
     Q (fst (handle h s)) (log ++ [(h, snd (handle h s))])) ->
  forall s log, Q s log ->
    Q (fst (dispatch handle stops hs s))
      (log ++ snd (dispatch handle stops hs s)).
Proof.
  induction hs as [|h hs IH]; intros K s log Q0; cbn.
  - rewrite app_nil_r. exact Q0.
  - pose proof (K h s log (or_introl eq_refl) Q0) as Q1.
    destruct (handle h s) as [s1 outs]. cbn in Q1.
    destruct (existsb stops outs); [exact Q1|].
    specialize (IH (fun h' s' log' I => K h' s' log' (or_intror I))
                  s1 (log ++ [(h, outs)]) Q1).
    destruct (dispatch handle stops hs s1) as [s2 l2]. cbn in IH |- *.
    rewrite <- app_assoc in IH. exact IH.
Qed.

Lemma everyEntry_nil (Out : Type)
  (R : list (H * list Out) -> H -> list Out -> Prop) :
  EveryEntry R [].
Proof. intros [|? ?] h outs post E; discriminate. Qed.

Lemma everyEntry_snoc (Out : Type)
  (R : list (H * list Out) -> H -> list Out -> Prop) log h outs :
  EveryEntry R log -> R log h outs -> EveryEntry R (log ++ [(h, outs)]).
Proof.
  intros A B pre h' outs' post E.
  destruct (exists_last (l := (h', outs') :: post)) as (init & last & L);
    [discriminate|].
  rewrite L, app_assoc in E. apply app_inj_tail in E.
  destruct E as [E1 E2]. subst last.
  destruct post as [|x post].
  - destruct init as [|? [|? ?]]; try discriminate.
    cbn in L. injection L as -> ->.
    rewrite app_nil_r in E1. subst pre. exact B.
  - destruct init as [|y init]; [destruct post; discriminate|].
    cbn in L. injection L as <- L.
    apply (A pre h' outs' init). exact E1.
Qed.

End Nodes.

Lemma handlers_mapNode (H H' : Type) (f : H -> H') (n : Node H) :
  handlers (mapNode f n) = map f (handlers n).
Proof.
  assert (L : forall children : list (Node H),
             Forall (fun c => handlers (mapNode f c) = map f (handlers c))
               children ->
             flat_map (@handlers H') (map (mapNode f) children)
             = map f (flat_map (@handlers H) children)).
  { induction 1 as [|c cs E _ IH]; cbn; [reflexivity|].
    rewrite map_app, E, IH. reflexivity. }
  induction n as [s|tag onClick disabled children IH|children IH
                 |container children IH] using Node_induction; cbn.
  - reflexivity.
  - destruct disabled; [reflexivity|].
    rewrite map_app, (L _ IH). destruct onClick; reflexivity.
  - apply L, IH.
  - apply L, IH.
Qed.

End ReactFacts.

(* ================================================================== *)
(** * JobDetailModal: who calls onApply                                 *)
(* ================================================================== *)

Module JobDetailModalFacts.
Import React JobDetailModal ReactFacts.

#[local] Arguments str : simpl never.

(** ** Which handlers are on the page *)

Lemma handlers_listed (heading : string) (items : option (list jsstring)) :
  flat_map (@handlers Handler) (listed Handler heading items) = [].
Proof.
  destruct items as [l|]; [|reflexivity]. unfold listed, when.
  destruct (Nat.ltb 0 (length l)); [|reflexivity]. cbn.
  rewrite !app_nil_r.
  induction l as [|x l IH]; [reflexivity | exact IH].
Qed.

Lemma handlers_panel (props : Props) :
  flat_map (@handlers Handler) (panel props)
  = OnClose :: HandleSaveToggle
    :: (if isApplied props then [] else [HandleApplyClick]).
Proof.
  unfold panel.
  destruct (isApplied props), (isSaved props),
    (present (Job.employerLogo (job props))),
    (isTrue (Job.isRemote (job props)));
    destruct (Job.postedAt (job props)) as [posted|];
    try destruct (Js.truthy posted);
    destruct (Job.highlights (job props)) as [hl|];
    cbn; rewrite ?flat_map_app, ?handlers_listed; reflexivity.
Qed.

Lemma handlers_confirmation (H : Type) (doc : Document) (isOpen : bool)
  (job : Job.t) (onConfirm onCancel : H) :
  flat_map (@handlers H)
    (child (ApplyConfirmationModal doc isOpen job onConfirm onCancel))
  = if isOpen then [onCancel; onConfirm] else [].
Proof. destruct isOpen; reflexivity. Qed.

(** The handlers of an open dialog; the two of the confirmation are
    there exactly while it shows. *)
Lemma modal_handlers_render (doc : Document) (props : Props) (s : State)
  (tree : Node Handler) :
  render doc props s = Some tree ->
  isOpen props = true
  /\ handlers tree
     = OnClose :: StopClick :: OnClose :: HandleSaveToggle
       :: (if isApplied props then [] else [HandleApplyClick])
       ++ (if showApplyConfirmation s
           then [HandleCancelApply; HandleConfirmApply] else []).
Proof.
  unfold render. destruct (isOpen props); [|discriminate].
  intros E. injection E as <-. split; [reflexivity|].
  cbn [handlers flat_map negb clickable].
  rewrite !app_nil_r, handlers_confirmation, handlers_panel.
  destruct (isApplied props); reflexivity.
Qed.

(** ** The handlers one by one *)

Lemma handleApplyClick_applied (props : Props) (s : State) :
  isApplied props = true -> handleApplyClick props s = (s, []).
Proof. unfold handleApplyClick. intros ->. reflexivity. Qed.

Lemma handleApplyClick_fresh (props : Props) (s : State) :
  isApplied props = false ->
  handleApplyClick props s
  = ({| showApplyConfirmation := true |}, openApplyLink (job props)).
Proof. unfold handleApplyClick. intros ->. reflexivity. Qed.

Lemma modal_openApplyLink_no_callback (job j : Job.t) :
  ~ In (CallOnApply j) (openApplyLink job).
Proof.
  unfold openApplyLink. destruct (Job.applyLink job) as [link|]; [|intros []].
  destruct (Js.truthy link); [|intros []].
  intros [E|[]]. discriminate.
Qed.

(** Only the confirm handler calls [onApply], and with the job of the
    dialog. *)
Lemma modal_handle_onApply (props : Props) (h : Handler) (s : State)
  (j : Job.t) :
  In (CallOnApply j) (snd (handle props h s)) ->
  h = HandleConfirmApply /\ j = job props.
Proof.
  destruct h; cbn; unfold handleApplyClick, handleSaveToggle, callOnUnsave;
    try (intros [E|[]]; discriminate).
  - destruct (isApplied props); [intros []|]. cbn.
    intros I. exfalso. exact (modal_openApplyLink_no_callback _ _ I).
  - intros [E|[]]. injection E as <-. auto.
  - intros [].
  - destruct (isSaved props), (onUnsave props); cbn;
      intros [E|[]]; discriminate.
Qed.

(** ** Sequences of clicks *)

(** Only the Apply handler opens the confirmation, and only on a job
    not applied to. *)
Lemma modal_handle_asks (props : Props) (h : Handler) (s : State) :
  showApplyConfirmation (fst (handle props h s)) = true ->
  showApplyConfirmation s = true
  \/ (isApplied props = false /\ h = HandleApplyClick).
Proof.
  destruct h; cbn; auto; try discriminate.
  - unfold handleApplyClick. destruct (isApplied props); cbn; auto.
  - unfold handleSaveToggle. destruct (isSaved props); cbn; auto.
Qed.

Lemma modal_applyClicked_app (log more : list ((Props * Handler) * list Out)) :
  applyClicked log -> applyClicked (log ++ more).
Proof.
  intros (props & A & I). exists props. split; [exact A|].
  rewrite map_app, in_app_iff. auto.
Qed.

Lemma modal_asked_step (props : Props) (s s' : State)
  (log : list ((Props * Handler) * list Out)) (h : Handler)
  (outs : list Out) :
  asked s log ->
  (showApplyConfirmation s' = true ->
   showApplyConfirmation s = true
   \/ (isApplied props = false /\ h = HandleApplyClick)) ->
  asked s' (log ++ [((props, h), outs)]).
Proof.
  intros A K X.
  destruct (K X) as [Y | [Y ->]].
  - apply modal_applyClicked_app, A, Y.
  - exists props. split; [exact Y|].
    rewrite map_app, in_app_iff. cbn. auto.
Qed.

(** One click, under the props of its render, keeps what the log says:
    the confirmation shows only after a click on Apply that went
    through, and [onApply] is called only by confirming it. *)
Lemma modal_click_confirmed (doc : Document) (props : Props) (path : list nat)
  (r : State) (log : list ((Props * Handler) * list Out)) :
  asked r log -> EveryEntry confirmed log ->
  asked (fst (click doc props path r))
    (log ++ map (under props) (snd (click doc props path r)))
  /\ EveryEntry confirmed
       (log ++ map (under props) (snd (click doc props path r))).
Proof.
  intros A E. unfold click.
  destruct (render doc props r) as [tree|] eqn:T;
    [|cbn; rewrite app_nil_r; auto].
  destruct (chain tree path) as [hs|] eqn:C;
    [|cbn; rewrite app_nil_r; auto].
  apply modal_handlers_render in T. destruct T as [_ T].
  pose proof (chain_handlers _ tree path hs C) as I. rewrite T in I.
  pose proof (dispatch_invariant Handler State Out (handle props) stops
    (fun s l => asked s (log ++ map (under props) l)
                /\ EveryEntry confirmed (log ++ map (under props) l))
    hs) as D.
  cbn beta in D.
  assert (Q0 : asked r (log ++ map (under props) [])
               /\ EveryEntry confirmed (log ++ map (under props) []))
    by (cbn; rewrite app_nil_r; auto).
  refine (D _ r [] Q0).
  clear D Q0. intros h s l Ih [As Es].
  rewrite map_app, app_assoc. cbn [map under fst snd]. split.
  - (* the confirmation *)
    apply (modal_asked_step props s); [exact As | apply modal_handle_asks].
  - (* the log *)
    apply everyEntry_snoc; [exact Es|].
    intros j Ij. apply modal_handle_onApply in Ij. destruct Ij as [-> ->].
    specialize (I _ Ih). cbn in I.
    assert (R : showApplyConfirmation r = true).
    { destruct (showApplyConfirmation r); [reflexivity|].
      exfalso. rewrite app_nil_r in I.
      destruct (isApplied props); cbn in I;
        intuition discriminate. }
    split; [reflexivity|]. split; [reflexivity|].
    apply modal_applyClicked_app, A, R.
Qed.

Lemma modal_session_confirmed (doc : Document)
  (events : list (Props * list nat)) :
  forall (s : State) (log : list ((Props * Handler) * list Out)),
    asked s log -> EveryEntry confirmed log ->
    asked (fst (session doc events s)) (log ++ snd (session doc events s))
    /\ EveryEntry confirmed (log ++ snd (session doc events s)).
Proof.
  induction events as [|[props path] events IH]; intros s log A E; cbn.
  - rewrite app_nil_r. auto.
  - destruct (modal_click_confirmed doc props path s log A E) as [A1 E1].
    destruct (click doc props path s) as [s1 log1]. cbn in A1, E1.
    specialize (IH s1 (log ++ map (under props) log1) A1 E1).
    destruct (session doc events s1) as [s2 log2]. cbn in IH |- *.
    rewrite app_assoc. exact IH.
Qed.

End JobDetailModalFacts.

(* ================================================================== *)
(** * JobCard: who calls onApply                                        *)
(* ================================================================== *)

Module JobCardFacts.
Import React JobCard ReactFacts.

#[local] Arguments str : simpl never.

(** ** Which handlers are on the page *)

Lemma handlers_card (props : Props) :
  handlers (card props)
  = HandleCardClick :: HandleSaveToggle :: HandleChoose
    :: (if isApplied props then [] else [HandleApply]).
Proof.
  unfold card.
  destruct (isApplied props), (isSaved props),
    (isTrue (Job.isRemote (job props))); reflexivity.
Qed.

(** The confirm handlers are on the page only while their dialog
    shows. *)
Lemma card_handlers_render (doc : Document) (props : Props) (s : State) :
  (In HandleConfirmApply (handlers (render doc props s)) ->
   showApplyConfirmation s = true)
  /\ (In (InDetail JobDetailModal.HandleConfirmApply)
        (handlers (render doc props s)) ->
      JobDetailModal.showApplyConfirmation (detail s) = true).
Proof.
  unfold render. cbn [handlers].
  rewrite !flat_map_app. cbn [flat_map]. rewrite app_nil_r, handlers_card.
  rewrite JobDetailModalFacts.handlers_confirmation.
  assert (D : forall h,
    In (InDetail h)
       (flat_map (@handlers Handler)
          (child (option_map (mapNode InDetail)
                    (JobDetailModal.render doc (detailProps props s)
                       (detail s))))) ->
    h = JobDetailModal.HandleConfirmApply ->
    JobDetailModal.showApplyConfirmation (detail s) = true).
  { intros h I ->.
    destruct (JobDetailModal.render doc (detailProps props s) (detail s))
      as [tree|] eqn:T; [|destruct I].
    cbn in I. rewrite app_nil_r, handlers_mapNode in I.
    apply in_map_iff in I. destruct I as (h' & E & I).
    injection E as ->.
    apply JobDetailModalFacts.modal_handlers_render in T. destruct T as [_ T].
    rewrite T in I.
    destruct (JobDetailModal.showApplyConfirmation (detail s));
      [reflexivity|].
    rewrite app_nil_r in I. cbn in I.
    destruct (isApplied props); cbn in I; intuition congruence. }
  assert (N : forall h,
    In h (flat_map (@handlers Handler)
            (child (option_map (mapNode InDetail)
                      (JobDetailModal.render doc (detailProps props s)
                         (detail s))))) ->
    exists h', h = InDetail h').
  { intros h I.
    destruct (JobDetailModal.render doc (detailProps props s) (detail s))
      as [tree|]; [|destruct I].
    cbn in I. rewrite app_nil_r, handlers_mapNode in I.
    apply in_map_iff in I. destruct I as (h' & <- & _). eauto. }
  split; intros I; rewrite !in_app_iff in I.
  - destruct (showApplyConfirmation s); [reflexivity|]. exfalso.
    destruct I as [I | [I | I]].
    + destruct (isApplied props); cbn in I; intuition congruence.
    + destruct (N _ I) as (h' & X). discriminate.
    + destruct I.
  - destruct I as [I | [I | I]].
    + destruct (isApplied props); cbn in I; intuition congruence.
    + exact (D _ I eq_refl).
    + destruct (showApplyConfirmation s); cbn in I; intuition congruence.
Qed.

(** ** The handlers one by one *)

Lemma card_openApplyLink_no_callback (job j : Job.t) :
  ~ In (CallOnApply j) (openApplyLink job).
Proof.
  unfold openApplyLink. destruct (Job.applyLink job) as [link|]; [|intros []].
  destruct (Js.truthy link); [|intros []].
  intros [E|[]]. discriminate.
Qed.

Lemma handleApply_applied (props : Props) (s : State) :
  isApplied props = true ->
  handleApply props s
  = (s, [StopPropagation; ToastInfo (str "You already applied to this job")]).
Proof. unfold handleApply. intros ->. reflexivity. Qed.

Lemma handleApply_fresh (props : Props) (s : State) :
  isApplied props = false ->
  handleApply props s
  = (setShowApplyConfirmation true s,
     StopPropagation :: openApplyLink (job props)).
Proof. unfold handleApply. intros ->. reflexivity. Qed.

(** The callbacks of the detail dialog touch neither confirmation. *)
Lemma detailCallbacks_state (os : list JobDetailModal.Out) :
  forall s,
    showApplyConfirmation (fst (detailCallbacks os s))
    = showApplyConfirmation s
    /\ detail (fst (detailCallbacks os s)) = detail s.
Proof.
  induction os as [|o os IH]; intros s; cbn; [auto|].
  destruct (detailCallback o s) as [s1 outs1] eqn:E1.
  specialize (IH s1).
  destruct (detailCallbacks os s1) as [s2 outs2]. cbn in IH |- *.
  destruct o; cbn in E1; injection E1 as <- <-; exact IH.
Qed.

(** They call the card's [onApply] only for the dialog's
    [onApply]. *)
Lemma detailCallbacks_onApply (os : list JobDetailModal.Out) (j : Job.t) :
  forall s,
    In (CallOnApply j) (snd (detailCallbacks os s)) ->
    In (JobDetailModal.CallOnApply j) os.
Proof.
  induction os as [|o os IH]; intros s; cbn; [auto|].
  destruct (detailCallback o s) as [s1 outs1] eqn:E1.
  specialize (IH s1).
  destruct (detailCallbacks os s1) as [s2 outs2]. cbn in IH |- *.
  rewrite in_app_iff. intros [I|I]; [|right; exact (IH I)].
  destruct o; cbn in E1; injection E1 as <- <-; cbn in I.
  - destruct I.
  - destruct I as [I|[]]; discriminate.
  - destruct I as [I|[]]; discriminate.
  - destruct I as [I|[I|[]]]; [|discriminate].
    injection I as ->. left; reflexivity.
  - destruct I as [I|[]]; discriminate.
  - destruct I as [I|[]]; discriminate.
  - destruct I as [I|[]]; discriminate.
Qed.

(** Only the confirm handlers call [onApply], and with the job of the
    card. *)
Lemma card_handle_onApply (props : Props) (r : State) (h : Handler) (s : State)
  (j : Job.t) :
  In (CallOnApply j) (snd (handle props r h s)) ->
  j = job props
  /\ (h = HandleConfirmApply
      \/ h = InDetail JobDetailModal.HandleConfirmApply).
Proof.
  destruct h; cbn [handle].
  - intros [].
  - unfold handleSaveToggle.
    destruct (isSaved props), (onUnsave props); cbn;
      intuition discriminate.
  - unfold handleApply. destruct (isApplied props); cbn;
      [intuition discriminate|].
    intros [E|I]; [discriminate|].
    exfalso. exact (card_openApplyLink_no_callback _ _ I).
  - cbn. intuition discriminate.
  - cbn. intros [E|[E|[]]]; [|discriminate]. injection E as <-. auto.
  - intros [].
  - destruct (JobDetailModal.handle (detailProps props r) h (detail s))
      as [d os] eqn:E.
    intros I. apply detailCallbacks_onApply in I.
    replace os with (snd (JobDetailModal.handle (detailProps props r) h
                            (detail s))) in I by (rewrite E; reflexivity).
    apply JobDetailModalFacts.modal_handle_onApply in I.
    destruct I as [-> ->]. auto.
Qed.

(** Only the two Apply handlers open a confirmation, each its own,
    and only on a job not applied to. *)
Lemma card_handle_asks (props : Props) (r : State) (h : Handler) (s : State) :
  (showApplyConfirmation (fst (handle props r h s)) = true ->
   showApplyConfirmation s = true
   \/ (isApplied props = false /\ h = HandleApply))
  /\ (JobDetailModal.showApplyConfirmation
        (detail (fst (handle props r h s))) = true ->
      JobDetailModal.showApplyConfirmation (detail s) = true
      \/ (isApplied props = false
          /\ h = InDetail JobDetailModal.HandleApplyClick)).
Proof.
  destruct h; cbn [handle]; try (cbn; split; auto; discriminate).
  - unfold handleSaveToggle.
    destruct (isSaved props), (onUnsave props); cbn; auto.
  - unfold handleApply. destruct (isApplied props); cbn; auto.
  - destruct (JobDetailModal.handle (detailProps props r) h (detail s))
      as [d os] eqn:E.
    destruct (detailCallbacks_state os (setDetail d s)) as [C D].
    rewrite C, D. cbn. split; [auto|].
    replace d with (fst (JobDetailModal.handle (detailProps props r) h
                           (detail s))) by (rewrite E; reflexivity).
    intros X. apply JobDetailModalFacts.modal_handle_asks in X.
    destruct X as [X | [X ->]]; auto.
Qed.

(** ** Sequences of clicks *)

Lemma card_applyClicked_app (apply : Handler)
  (log more : list ((Props * Handler) * list Out)) :
  applyClicked apply log -> applyClicked apply (log ++ more).
Proof.
  intros (props & A & I). exists props. split; [exact A|].
  rewrite map_app, in_app_iff. auto.
Qed.

Lemma card_asked_step (props : Props) (s s' : State)
  (log : list ((Props * Handler) * list Out)) (h : Handler)
  (outs : list Out) :
  asked s log ->
  (showApplyConfirmation s' = true ->
   showApplyConfirmation s = true
   \/ (isApplied props = false /\ h = HandleApply)) ->
  (JobDetailModal.showApplyConfirmation (detail s') = true ->
   JobDetailModal.showApplyConfirmation (detail s) = true
   \/ (isApplied props = false
       /\ h = InDetail JobDetailModal.HandleApplyClick)) ->
  asked s' (log ++ [((props, h), outs)]).
Proof.
  intros [A B] K L. split; intros X.
  - destruct (K X) as [Y | [Y ->]].
    + apply card_applyClicked_app, A, Y.
    + exists props. split; [exact Y|].
      rewrite map_app, in_app_iff. cbn. auto.
  - destruct (L X) as [Y | [Y ->]].
    + apply card_applyClicked_app, B, Y.
    + exists props. split; [exact Y|].
      rewrite map_app, in_app_iff. cbn. auto.
Qed.

(** One click, under the props of its render, keeps what the log says:
    a confirmation shows only after a click on its Apply button that
    went through, and [onApply] is called only by confirming one. *)
Lemma card_click_confirmed (doc : Document) (props : Props) (path : list nat)
  (r : State) (log : list ((Props * Handler) * list Out)) :
  asked r log -> EveryEntry confirmed log ->
  asked (fst (click doc props path r))
    (log ++ map (under props) (snd (click doc props path r)))
  /\ EveryEntry confirmed
       (log ++ map (under props) (snd (click doc props path r))).
Proof.
  intros A E. unfold click.
  destruct (chain (render doc props r) path) as [hs|] eqn:C;
    [|cbn; rewrite app_nil_r; auto].
  pose proof (chain_handlers _ _ path hs C) as I.
  destruct (card_handlers_render doc props r) as [R1 R2].
  pose proof (dispatch_invariant Handler State Out (handle props r) stops
    (fun s l => asked s (log ++ map (under props) l)
                /\ EveryEntry confirmed (log ++ map (under props) l))
    hs) as D.
  cbn beta in D.
  assert (Q0 : asked r (log ++ map (under props) [])
               /\ EveryEntry confirmed (log ++ map (under props) []))
    by (cbn; rewrite app_nil_r; auto).
  refine (D _ r [] Q0).
  clear D Q0. intros h s l Ih [As Es].
  rewrite map_app, app_assoc. cbn [map under fst snd]. split.
  - destruct (card_handle_asks props r h s) as [K L].
    apply (card_asked_step props s); assumption.
  - apply everyEntry_snoc; [exact Es|].
    intros j Ij. apply card_handle_onApply in Ij.
    destruct Ij as [-> [-> | ->]]; specialize (I _ Ih);
      (split; [reflexivity|]).
    + left. split; [reflexivity|].
      apply card_applyClicked_app, (proj1 A), R1, I.
    + right. split; [reflexivity|].
      apply card_applyClicked_app, (proj2 A), R2, I.
Qed.

Lemma card_session_confirmed (doc : Document)
  (events : list (Props * list nat)) :
  forall (s : State) (log : list ((Props * Handler) * list Out)),
    asked s log -> EveryEntry confirmed log ->
    asked (fst (session doc events s)) (log ++ snd (session doc events s))
    /\ EveryEntry confirmed (log ++ snd (session doc events s)).
Proof.
  induction events as [|[props path] events IH]; intros s log A E; cbn.
  - rewrite app_nil_r. auto.
  - destruct (card_click_confirmed doc props path s log A E) as [A1 E1].
    destruct (click doc props path s) as [s1 log1]. cbn in A1, E1.
    specialize (IH s1 (log ++ map (under props) log1) A1 E1).
    destruct (session doc events s1) as [s2 log2]. cbn in IH |- *.
    rewrite app_assoc. exact IH.
Qed.

End JobCardFacts.

(* ================================================================== *)
(** * The job views: applying, saving, showing the dialogs              *)
(* ================================================================== *)

Module JobViews.
Import React.

#[local] Arguments str : simpl never.

(** C6, as amended. In both components the Apply handler of a job
    already applied to opens no link, shows no confirmation and calls
    nothing (the card tells the user so in a toast); on a job not
    applied to it shows the confirmation and opens [job.applyLink] in a
    new tab when that is a non-empty string, and calls no callback. The
    confirm handlers call [onApply] with the job, whatever [isApplied]
    is by then, and the cancel handlers call nothing; no other handler
    calls [onApply]. And in every sequence of clicks on a freshly
    mounted card or dialog, whatever the props of each render, a
    confirmation shows only after a click on the Apply button that
    opens it, made while the job was not applied to, and each call of
    [onApply] is for the job of the view, made by the confirm handler
    of a confirmation dialog, after such a click. *)
Theorem onApply_only_after_confirmation :
  (forall (props : JobCard.Props) (s : JobCard.State),
      (JobCard.isApplied props = true ->
       JobCard.handleApply props s
       = (s, [JobCard.StopPropagation;
              JobCard.ToastInfo (str "You already applied to this job")]))
      /\ (JobCard.isApplied props = false ->
          JobCard.handleApply props s
          = (JobCard.setShowApplyConfirmation true s,
             JobCard.StopPropagation
             :: match Job.applyLink (JobCard.job props) with
                | Some link =>
                    if Js.truthy link
                    then [JobCard.WindowOpen link (str "_blank")] else []
                | None => []
                end))
      /\ JobCard.handleConfirmApply props s
         = (JobCard.setShowApplyConfirmation false s,
            [JobCard.CallOnApply (JobCard.job props);
             JobCard.ToastSuccess (str "Application recorded!")
               (Some (str "You've applied to "
                      ++ Job.title (JobCard.job props) ++ str " at "
                      ++ Job.company (JobCard.job props)))])
      /\ JobCard.handleCancelApply props s
         = (JobCard.setShowApplyConfirmation false s, []))
  /\ (forall (props : JobDetailModal.Props) (s : JobDetailModal.State),
      (JobDetailModal.isApplied props = true ->
       JobDetailModal.handleApplyClick props s = (s, []))
      /\ (JobDetailModal.isApplied props = false ->
          JobDetailModal.handleApplyClick props s
          = (JobDetailModal.setShowApplyConfirmation true s,
             match Job.applyLink (JobDetailModal.job props) with
             | Some link =>
                 if Js.truthy link
                 then [JobDetailModal.WindowOpen link (str "_blank")]
                 else []
             | None => []
             end))
      /\ JobDetailModal.handleConfirmApply props s
         = (JobDetailModal.setShowApplyConfirmation false s,
            [JobDetailModal.CallOnApply (JobDetailModal.job props)])
      /\ JobDetailModal.handleCancelApply props s
         = (JobDetailModal.setShowApplyConfirmation false s, []))
  /\ (forall (props : JobCard.Props) (r : JobCard.State)
        (h : JobCard.Handler) (s : JobCard.State) (j : Job.t),
      In (JobCard.CallOnApply j) (snd (JobCard.handle props r h s)) ->
      j = JobCard.job props
      /\ (h = JobCard.HandleConfirmApply
          \/ h = JobCard.InDetail JobDetailModal.HandleConfirmApply))
  /\ (forall (props : JobDetailModal.Props) (h : JobDetailModal.Handler)
        (s : JobDetailModal.State) (j : Job.t),
      In (JobDetailModal.CallOnApply j)
        (snd (JobDetailModal.handle props h s)) ->
      h = JobDetailModal.HandleConfirmApply
      /\ j = JobDetailModal.job props)
  /\ (forall (doc : Document)
        (events : list (JobCard.Props * list nat)),
      JobCard.asked (fst (JobCard.session doc events JobCard.mounted))
        (snd (JobCard.session doc events JobCard.mounted))
      /\ EveryEntry JobCard.confirmed
           (snd (JobCard.session doc events JobCard.mounted)))
  /\ (forall (doc : Document)
        (events : list (JobDetailModal.Props * list nat)),
      JobDetailModal.asked
        (fst (JobDetailModal.session doc events JobDetailModal.mounted))
        (snd (JobDetailModal.session doc events JobDetailModal.mounted))
      /\ EveryEntry JobDetailModal.confirmed
           (snd (JobDetailModal.session doc events
                   JobDetailModal.mounted))).
Proof.
  split; [|split; [|split; [|split; [|split]]]].
  - intros props s. split; [|split; [|split]].
    + apply JobCardFacts.handleApply_applied.
    + intros A. rewrite (JobCardFacts.handleApply_fresh props s A).
      reflexivity.
    + reflexivity.
    + reflexivity.
  - intros props s. split; [|split; [|split]].
    + apply JobDetailModalFacts.handleApplyClick_applied.
    + intros A.
      rewrite (JobDetailModalFacts.handleApplyClick_fresh props s A).
      reflexivity.
    + reflexivity.
    + reflexivity.
  - apply JobCardFacts.card_handle_onApply.
  - apply JobDetailModalFacts.modal_handle_onApply.
  - intros doc events.
    apply (JobCardFacts.card_session_confirmed doc events
             JobCard.mounted []).
    + split; discriminate.
    + apply ReactFacts.everyEntry_nil.
  - intros doc events.
    apply (JobDetailModalFacts.modal_session_confirmed doc events
             JobDetailModal.mounted []).
    + discriminate.
    + apply ReactFacts.everyEntry_nil.
Qed.

(** C6 fails as stated. The card is clicked, which opens the detail
    dialog; Apply Now is clicked there and Apply on the card, so both
    confirmations show; the card's is confirmed, which calls [onApply];
    the page renders the card again, now with [isApplied]; the
    dialog's confirmation is confirmed as well. This last click calls
    [onApply] on a job that is applied to. *)
Lemma onApply_on_an_applied_job :
  JobCard.isApplied Samples.appliedProps = true
  /\ snd (JobCard.session Examples.document
            [(Examples.cardProps, [0]);
             (Examples.cardProps, [1; 0; 0; 0; 2; 1]);
             (Examples.cardProps, [0; 3; 1]);
             (Examples.cardProps, [2; 0; 0; 2; 1]);
             (Samples.appliedProps, [1; 0; 1; 0; 0; 2; 1])]%nat
            JobCard.mounted)
     = [((Examples.cardProps, JobCard.HandleCardClick), []);
        ((Examples.cardProps,
          JobCard.InDetail JobDetailModal.HandleApplyClick),
         [JobCard.WindowOpen (str "https://jobs.example.org/apply")
            (str "_blank")]);
        ((Examples.cardProps, JobCard.InDetail JobDetailModal.StopClick),
         [JobCard.StopPropagation]);
        ((Examples.cardProps, JobCard.HandleApply),
         [JobCard.StopPropagation;
          JobCard.WindowOpen (str "https://jobs.example.org/apply")
            (str "_blank")]);
        ((Examples.cardProps, JobCard.HandleConfirmApply),
         [JobCard.CallOnApply Examples.job;
          JobCard.ToastSuccess (str "Application recorded!")
            (Some (JobCard.appliedTo Examples.job))]);
        ((Samples.appliedProps,
          JobCard.InDetail JobDetailModal.HandleConfirmApply),
         [JobCard.CallOnApply Examples.job;
          JobCard.ToastSuccess (str "Application recorded!")
            (Some (JobCard.appliedTo Examples.job))])].
Proof. split; reflexivity. Qed.

(** A click on Apply and one on "Yes, I applied!" in the card. *)
Example card_apply_then_confirm :
  snd (JobCard.clicks Examples.document Examples.cardProps
         [[0; 3; 1]; [1; 0; 0; 2; 1]]%nat JobCard.mounted)
  = [(JobCard.HandleApply,
      [JobCard.StopPropagation;
       JobCard.WindowOpen (str "https://jobs.example.org/apply")
         (str "_blank")]);
     (JobCard.HandleConfirmApply,
      [JobCard.CallOnApply Examples.job;
       JobCard.ToastSuccess (str "Application recorded!")
         (Some (JobCard.appliedTo Examples.job))])].
Proof. reflexivity. Qed.

(** The same two clicks in the detail dialog; each bubbles to the
    panel, which stops it. *)
Example modal_apply_then_confirm :
  map fst
    (snd (JobDetailModal.clicks Examples.document Examples.modalProps
            [[0; 0; 0; 2; 1]; [0; 1; 0; 0; 2; 1]]%nat
            JobDetailModal.mounted))
  = [JobDetailModal.HandleApplyClick; JobDetailModal.StopClick;
     JobDetailModal.HandleConfirmApply].
Proof. reflexivity. Qed.

(** Finds a text in a list built with [::] and [++], also when [In]
    is unfolded. *)
Ltac written :=
  first
    [ assumption
    | lazymatch goal with
      | |- In _ (_ ++ _) =>
          apply in_or_app; (solve [left; written] || (right; written))
      | |- In _ (_ :: _) => (left; reflexivity) || (right; written)
      | |- _ = _ \/ _ => (left; reflexivity) || (right; written)
      end ].

(** The cases of the panel. *)
Ltac panel_cases props :=
  unfold JobDetailModal.panel;
  destruct (JobDetailModal.isApplied props),
    (JobDetailModal.isSaved props),
    (JobDetailModal.present
       (Job.employerLogo (JobDetailModal.job props))),
    (JobDetailModal.isTrue (Job.isRemote (JobDetailModal.job props)));
  destruct (Job.postedAt (JobDetailModal.job props)) as [posted|];
  try destruct (Js.truthy posted) eqn:?;
  destruct (Job.highlights (JobDetailModal.job props)) as [hl|].

(** A list of highlights shows its entries. *)
Lemma listed_texts (H : Type) (heading : string) (l : list jsstring)
  (x : jsstring) :
  In x l ->
  In x (flat_map (@ReactClicks.texts H)
          (JobDetailModal.listed H heading (Some l))).
Proof.
  intros I. unfold JobDetailModal.listed, when.
  destruct l as [|y l]; [destruct I|].
  cbn [length Nat.ltb Nat.leb]. cbn [flat_map ReactClicks.texts el app].
  rewrite !app_nil_r. right.
  revert I. generalize (y :: l). clear y l.
  induction l as [|y l IH]; intros I; [destruct I|].
  cbn. destruct I as [->|I]; auto.
Qed.

(** The panel of the detail dialog shows the job. *)
Lemma panel_texts (props : JobDetailModal.Props) (t : jsstring) :
  In t [Job.title (JobDetailModal.job props);
        Job.company (JobDetailModal.job props);
        Job.location (JobDetailModal.job props);
        Job.role (JobDetailModal.job props);
        Job.salary (JobDetailModal.job props);
        Job.description (JobDetailModal.job props);
        if JobDetailModal.isSaved props
        then str "Unsave Job" else str "Save Job";
        if JobDetailModal.isApplied props
        then str "Already Applied" else str "Apply Now"] ->
  In t (flat_map (@ReactClicks.texts JobDetailModal.Handler)
          (JobDetailModal.panel props)).
Proof.
  intros I. panel_cases props;
    cbn in I |- *; rewrite ?flat_map_app;
    repeat (destruct I as [<-|I]; [written|]); destruct I.
Qed.

(** And what there is to say about it besides: the badges, the date,
    the highlights. *)
Lemma panel_optional_texts (props : JobDetailModal.Props) :
  let shown t :=
    In t (flat_map (@ReactClicks.texts JobDetailModal.Handler)
            (JobDetailModal.panel props)) in
  (JobDetailModal.isApplied props = true -> shown (str "Applied"))
  /\ (JobDetailModal.isSaved props = true ->
      JobDetailModal.isApplied props = false -> shown (str "Saved"))
  /\ (Job.isRemote (JobDetailModal.job props) = Some true ->
      shown (str "Remote"))
  /\ (forall posted,
        Job.postedAt (JobDetailModal.job props) = Some posted ->
        posted <> [] -> shown posted)
  /\ (forall hl l x,
        Job.highlights (JobDetailModal.job props) = Some hl ->
        Api.Qualifications hl = Some l \/ Api.Responsibilities hl = Some l ->
        In x l -> shown x).
Proof.
  cbn zeta. split; [|split; [|split; [|split]]].
  - intros A. unfold JobDetailModal.panel. rewrite A.
    cbn. rewrite ?flat_map_app. cbn. written.
  - intros Sv A. unfold JobDetailModal.panel. rewrite Sv, A.
    cbn. rewrite ?flat_map_app. cbn. written.
  - intros R. unfold JobDetailModal.panel. rewrite R.
    cbn. rewrite ?flat_map_app. cbn. written.
  - intros posted P N. unfold JobDetailModal.panel. rewrite P.
    destruct posted as [|c posted]; [congruence|].
    cbn. rewrite ?flat_map_app. cbn. written.
  - intros hl l x Hl Q I. unfold JobDetailModal.panel. rewrite Hl.
    assert (L : In x (flat_map (@ReactClicks.texts JobDetailModal.Handler)
                        (JobDetailModal.listed JobDetailModal.Handler
                           "Qualifications" (Api.Qualifications hl)))
                \/ In x (flat_map
                           (@ReactClicks.texts JobDetailModal.Handler)
                           (JobDetailModal.listed JobDetailModal.Handler
                              "Responsibilities"
                              (Api.Responsibilities hl)))).
    { destruct Q as [Q|Q]; rewrite Q; [left|right];
        apply listed_texts; exact I. }
    cbn [flat_map ReactClicks.texts el button app].
    rewrite !flat_map_app.
    cbn [flat_map ReactClicks.texts el button app].
    rewrite !flat_map_app.
    cbn [flat_map ReactClicks.texts el button app].
    destruct L as [L|L]; written.
Qed.

(** C7. [JobDetailModal] and the two [ApplyConfirmationModal]s return
    [null] exactly when [isOpen] is false. What they return otherwise
    is a portal into the modal root, the element [modal-root] or the
    body of the document when there is none, that holds their content
    and nothing else: for a confirmation, the question with the title
    and the company of the job and the two buttons, No bound to
    [onCancel] and Yes to [onConfirm]; for the detail dialog, the
    overlay that closes it, the panel inside, which stops clicks and
    shows the job (its title, company, location, role, salary and
    description, the badge, the date and the highlights it has) with
    the Close, Save and Apply controls, and its confirmation when that
    shows. *)
Theorem modals_render_only_when_open (doc : Document)
  (props : JobDetailModal.Props) (s : JobDetailModal.State)
  (H : Type) (isOpen : bool) (job : Job.t) (onConfirm onCancel : H) :
  let question : list (Node H) :=
    [el "div"
       [el "div"
          [el "h3" [Text (str "Confirm Application")];
           el "p"
             [Text (str "Did you complete your application for ");
              el "span" [Text (Job.title job)];
              Text (str " at ");
              el "span" [Text (Job.company job)];
              Text (str "?")];
           el "div"
             [button onCancel false [Text (str "No, I didn't apply")];
              button onConfirm false [Text (str "Yes, I applied!")]]]]] in
  modalRoot doc
  = (if hasModalRoot doc then ElementById "modal-root" else DocumentBody)
  /\ (JobDetailModal.render doc props s = None
      <-> JobDetailModal.isOpen props = false)
  /\ (JobDetailModal.isOpen props = true ->
      JobDetailModal.render doc props s
      = Some (Portal (modalRoot doc)
                [Fragment
                   (clickable "div" JobDetailModal.OnClose
                      [clickable "div" JobDetailModal.StopClick
                         (JobDetailModal.panel props)]
                    :: child (JobDetailModal.ApplyConfirmationModal doc
                                (JobDetailModal.showApplyConfirmation s)
                                (JobDetailModal.job props)
                                JobDetailModal.HandleConfirmApply
                                JobDetailModal.HandleCancelApply))]))
  /\ (forall t,
      In t [Job.title (JobDetailModal.job props);
            Job.company (JobDetailModal.job props);
            Job.location (JobDetailModal.job props);
            Job.role (JobDetailModal.job props);
            Job.salary (JobDetailModal.job props);
            Job.description (JobDetailModal.job props);
            if JobDetailModal.isSaved props
            then str "Unsave Job" else str "Save Job";
            if JobDetailModal.isApplied props
            then str "Already Applied" else str "Apply Now"] ->
      In t (flat_map (@ReactClicks.texts JobDetailModal.Handler)
              (JobDetailModal.panel props)))
  /\ (let shown t :=
        In t (flat_map (@ReactClicks.texts JobDetailModal.Handler)
                (JobDetailModal.panel props)) in
      (JobDetailModal.isApplied props = true -> shown (str "Applied"))
      /\ (JobDetailModal.isSaved props = true ->
          JobDetailModal.isApplied props = false -> shown (str "Saved"))
      /\ (Job.isRemote (JobDetailModal.job props) = Some true ->
          shown (str "Remote"))
      /\ (forall posted,
            Job.postedAt (JobDetailModal.job props) = Some posted ->
            posted <> [] -> shown posted)
      /\ (forall hl l x,
            Job.highlights (JobDetailModal.job props) = Some hl ->
            Api.Qualifications hl = Some l
            \/ Api.Responsibilities hl = Some l ->
            In x l -> shown x))
  /\ flat_map (@handlers JobDetailModal.Handler)
       (JobDetailModal.panel props)
     = JobDetailModal.OnClose :: JobDetailModal.HandleSaveToggle
       :: (if JobDetailModal.isApplied props then []
           else [JobDetailModal.HandleApplyClick])
  /\ (JobDetailModal.ApplyConfirmationModal doc isOpen job onConfirm onCancel
      = None <-> isOpen = false)
  /\ (isOpen = true ->
      JobDetailModal.ApplyConfirmationModal doc isOpen job onConfirm onCancel
      = Some (Portal (modalRoot doc) question))
  /\ (JobCard.ApplyConfirmationModal doc isOpen job onConfirm onCancel
      = None <-> isOpen = false)
  /\ (isOpen = true ->
      JobCard.ApplyConfirmationModal doc isOpen job onConfirm onCancel
      = Some (Portal (modalRoot doc) question)).
Proof.
  cbn zeta.
  split; [reflexivity|].
  split; [unfold JobDetailModal.render;
          destruct (JobDetailModal.isOpen props); cbn;
          split; congruence|].
  split; [intros O; unfold JobDetailModal.render; rewrite O;
          reflexivity|].
  split; [apply panel_texts|].
  split; [apply panel_optional_texts|].
  split; [apply JobDetailModalFacts.handlers_panel|].
  unfold JobDetailModal.ApplyConfirmationModal,
    JobCard.ApplyConfirmationModal.
  destruct isOpen; cbn [negb]; repeat split; try discriminate;
    try reflexivity; congruence.
Qed.

(** The cards of the chat page are mounted without [onUnsave]. *)
Lemma jobCards_onUnsave (pageProps : ChatPage.Props) (r : ChatPage.State)
  (card : JobCard.Props) :
  In card (ChatPage.jobCards pageProps r) ->
  JobCard.onUnsave card = Undefined.
Proof.
  unfold ChatPage.jobCards.
  destruct (negb (ChatPage.isLoading r) && ChatPage.jobsShown r);
    [|intros []].
  intros I. apply in_map_iff in I. destruct I as (job & <- & _).
  reflexivity.
Qed.

(** C8. The save toggles leave the state alone. On a job that is not
    saved they call [onSave] with the job and no other callback. On a
    saved job they call [onUnsave] with the job and no other callback,
    provided the parent passed one; when it did not, the call throws a
    [TypeError] and no callback is called: the card stops the
    propagation first and shows no toast, and the dialog the card
    mounts is given the card's [onUnsave] and does the same. The chat
    page mounts every card without [onUnsave]: on its cards the toggle
    of a saved job throws. *)
Theorem save_toggle_needs_onUnsave (cardProps : JobCard.Props)
  (r s : JobCard.State) (modalProps : JobDetailModal.Props)
  (m : JobDetailModal.State) :
  JobCard.handleSaveToggle cardProps s
  = (s, if JobCard.isSaved cardProps
        then match JobCard.onUnsave cardProps with
             | Function =>
                 [JobCard.StopPropagation;
                  JobCard.CallOnUnsave (JobCard.job cardProps);
                  JobCard.ToastSuccess (str "Job removed from saved!") None]
             | Undefined =>
                 [JobCard.StopPropagation; JobCard.Throw Api.TypeError]
             end
        else [JobCard.StopPropagation;
              JobCard.CallOnSave (JobCard.job cardProps);
              JobCard.ToastSuccess (str "Job saved successfully!") None])
  /\ JobDetailModal.handleSaveToggle modalProps m
     = (m, if JobDetailModal.isSaved modalProps
           then match JobDetailModal.onUnsave modalProps with
                | Function =>
                    [JobDetailModal.CallOnUnsave
                       (JobDetailModal.job modalProps)]
                | Undefined => [JobDetailModal.Throw Api.TypeError]
                end
           else [JobDetailModal.CallOnSave (JobDetailModal.job modalProps)])
  /\ JobCard.handle cardProps r
       (JobCard.InDetail JobDetailModal.HandleSaveToggle) s
     = (s, if JobCard.isSaved cardProps
           then match JobCard.onUnsave cardProps with
                | Function =>
                    [JobCard.CallOnUnsave (JobCard.job cardProps)]
                | Undefined => [JobCard.Throw Api.TypeError]
                end
           else [JobCard.CallOnSave (JobCard.job cardProps)])
  /\ (forall (pageProps : ChatPage.Props) (page : ChatPage.State)
        (card : JobCard.Props),
      In card (ChatPage.jobCards pageProps page) ->
      JobCard.isSaved card = true ->
      JobCard.handleSaveToggle card s
      = (s, [JobCard.StopPropagation; JobCard.Throw Api.TypeError])
      /\ JobCard.handle card r
           (JobCard.InDetail JobDetailModal.HandleSaveToggle) s
         = (s, [JobCard.Throw Api.TypeError])).
Proof.
  split; [|split; [|split]].
  - unfold JobCard.handleSaveToggle.
    destruct (JobCard.isSaved cardProps), (JobCard.onUnsave cardProps);
      reflexivity.
  - unfold JobDetailModal.handleSaveToggle, JobDetailModal.callOnUnsave.
    destruct (JobDetailModal.isSaved modalProps),
      (JobDetailModal.onUnsave modalProps); reflexivity.
  - cbn [JobCard.handle JobDetailModal.handle].
    unfold JobDetailModal.handleSaveToggle, JobDetailModal.callOnUnsave.
    cbn.
    destruct (JobCard.isSaved cardProps), (JobCard.onUnsave cardProps), s;
      reflexivity.
  - intros pageProps page card I Sv.
    pose proof (jobCards_onUnsave pageProps page card I) as U.
    split.
    + unfold JobCard.handleSaveToggle. rewrite Sv, U. reflexivity.
    + cbn [JobCard.handle JobDetailModal.handle].
      unfold JobDetailModal.handleSaveToggle, JobDetailModal.callOnUnsave.
      cbn. rewrite Sv, U. destruct s; reflexivity.
Qed.

(** On the chat page, with a job on display that is among the saved
    ones: a click on the bookmark of its card throws and calls
    nothing. *)
Example saved_card_toggle_throws :
  map JobCard.isSaved
    (ChatPage.jobCards Samples.withSavedJob Examples.browsing)
  = [false; true; false]
  /\ (forall card,
       nth_error (ChatPage.jobCards Samples.withSavedJob Examples.browsing) 1
       = Some card ->
       JobCard.click Examples.document card [0; 0; 1]%nat JobCard.mounted
       = (JobCard.mounted,
          [(JobCard.HandleSaveToggle,
            [JobCard.StopPropagation; JobCard.Throw Api.TypeError])])).
Proof.
  split; [reflexivity|].
  intros card E. cbn in E. injection E as <-. reflexivity.
Qed.

End JobViews.

(* ================================================================== *)
(** * Numbers in template literals                                  *)
(* ================================================================== *)

Module JsDecimalFacts.

Lemma str_inj (a b : string) : str a = str b -> a = b.
Proof.
  unfold str. intros E.
  rewrite <- (string_of_list_ascii_of_string a),
          <- (string_of_list_ascii_of_string b).
  f_equal.
  revert E. generalize (list_ascii_of_string a) (list_ascii_of_string b).
  induction l as [|x l IH]; intros [|y l']; cbn; intros E;
    try discriminate; [reflexivity|].
  injection E as E1 E2. f_equal; [|apply IH; exact E2].
  rewrite <- (ascii_N_embedding x), <- (ascii_N_embedding y), E1.
  reflexivity.
Qed.

Lemma to_int_not_nil (n : Z) :
  Z.to_int n <> Decimal.Pos Decimal.Nil
  /\ Z.to_int n <> Decimal.Neg Decimal.Nil.
Proof.
  destruct n as [|p|p]; cbn; split; try discriminate;
    intros E; injection E as E; revert E; apply Unsigned.to_uint_nonnil.
Qed.

Lemma ofInt_inj (n m : Z) : ofInt n = ofInt m -> n = m.
Proof.
  unfold ofInt. intros E. apply str_inj in E.
  apply (f_equal NilZero.int_of_string) in E.
  destruct (to_int_not_nil n), (to_int_not_nil m).
  rewrite !NilZero.isi in E by assumption.
  injection E as E. apply to_int_inj. exact E.
Qed.

End JsDecimalFacts.

(* ================================================================== *)
(** * services/api: what is thrown besides                          *)
(* ================================================================== *)

Module ApiEdgeFacts.
Import Api.

#[local] Arguments str : simpl never.

Section Client.

Variable number : Type.
Variable number_truthy : number -> bool.
Variable number_toString : number -> jsstring.
Variables File UserProfile : Type.

(** An object that [JSON.parse] built and that has no [toString] of its
    own prints as every plain object does. *)
Lemma toString_plain (v : JSON number) :
  (exists fields, v = JObj fields /\ lookup (str "toString") fields = None) ->
  toString number_toString v = Some (str "[object Object]").
Proof. intros (fields & -> & L). cbn. rewrite L. reflexivity. Qed.

Lemma toString_plain_array (items : list (JSON number)) :
  Forall (fun v => exists fields,
            v = JObj fields /\ lookup (str "toString") fields = None) items ->
  toString number_toString (JArr items)
  = Some (JsArrays.join (str ",")
            (repeat (str "[object Object]") (length items))).
Proof.
  induction 1 as [|v items P _ IH]; [reflexivity|].
  destruct P as (fields & -> & L).
  destruct items as [|w items].
  - cbn. rewrite L. reflexivity.
  - cbn [toString] in IH |- *. rewrite L.
    cbn [length repeat JsArrays.join] in IH |- *.
    rewrite IH. reflexivity.
Qed.

(** X1. A wrapper that puts an argument in its URL throws [URIError]
    when that argument is not well-formed UTF-16, whatever the network
    would have answered: nothing is fetched. *)
Theorem unencodable_argument_throws (c : Call File UserProfile) :
  forallb isWellFormed (encodedArgs c) = false ->
  forall fetch : Fetch number File UserProfile,
    run number_truthy number_toString c fetch = Throws URIError.
Proof. intros W fetch. apply ApiFacts.run_URIError. exact W. Qed.

(** X2. When [fetch] itself rejects, every wrapper rejects with the same
    reason: a network failure is never turned into an [Error] with the
    wrapper's fallback message. *)
Theorem fetch_rejection_surfaces (c : Call File UserProfile)
  (fetch : Fetch number File UserProfile) (reason : Thrown) :
  forallb isWellFormed (encodedArgs c) = true ->
  (forall request, fetch request = inl reason) ->
  run number_truthy number_toString c fetch = Throws reason.
Proof.
  intros W F.
  rewrite (ApiFacts.run_settle number number_truthy number_toString
             File UserProfile c fetch (inl reason) W F).
  reflexivity.
Qed.

(** X3. A refusal whose [detail] is a list of plain objects, as a
    validation failure is reported, reaches the caller as an [Error]
    whose message is ["[object Object]"] once per entry, joined by
    commas; with an empty list the message is empty. *)
Theorem validation_errors_lose_their_text (c : Call File UserProfile)
  (fetch : Fetch number File UserProfile) (r : Response number)
  (fields : list (jsstring * JSON number)) (items : list (JSON number)) :
  forallb isWellFormed (encodedArgs c) = true ->
  (forall request, fetch request = inr r) ->
  ok r = false ->
  json r = Some (JObj fields) ->
  lookup (str "detail") fields = Some (JArr items) ->
  Forall (fun v => exists fs,
            v = JObj fs /\ lookup (str "toString") fs = None) items ->
  run number_truthy number_toString c fetch
  = Throws (Error (JsArrays.join (str ",")
                     (repeat (str "[object Object]") (length items)))).
Proof.
  intros W F O J D P.
  rewrite (ApiFacts.run_settle number number_truthy number_toString
             File UserProfile c fetch (inr r) W F).
  unfold settle. rewrite O, J. cbn [negb detailOf]. rewrite D.
  unfold orFallback, newError. cbn [truthy].
  rewrite (toString_plain_array items P). reflexivity.
Qed.

End Client.

Lemma unencodable_argument_throws_witness :
  run Examples.zTruthy ofInt
    (@GetChatHistory unit unit [0xD800%N])
    (fun _ => inr Examples.refused)
  = Throws URIError.
Proof.
  exact (unencodable_argument_throws Z Examples.zTruthy ofInt unit unit
           (@GetChatHistory unit unit [0xD800%N]) eq_refl
           (fun _ => inr Examples.refused)).
Defined.

Lemma fetch_rejection_surfaces_witness :
  Examples.send (fun _ => inl TypeError) = Throws TypeError.
Proof.
  exact (fetch_rejection_surfaces Z Examples.zTruthy ofInt unit unit
           (@SendMessage unit unit (str "ada@example.org") (str "chat-1")
              (str "anything in Pune?") None)
           (fun _ => inl TypeError) TypeError eq_refl (fun _ => eq_refl)).
Defined.

Lemma validation_errors_lose_their_text_witness :
  Examples.send (fun _ => inr Samples.invalid)
  = Throws (Error (str "[object Object],[object Object],[object Object]")).
Proof.
  refine (validation_errors_lose_their_text Z Examples.zTruthy ofInt
            unit unit
            (@SendMessage unit unit (str "ada@example.org") (str "chat-1")
               (str "anything in Pune?") None)
            (fun _ => inr Samples.invalid) Samples.invalid _ _
            eq_refl (fun _ => eq_refl) eq_refl eq_refl eq_refl _).
  repeat constructor; eexists; split; reflexivity.
Defined.

End ApiEdgeFacts.

(* ================================================================== *)
(** * ChatPage: a turn, a choice, the pages                         *)
(* ================================================================== *)

Module ChatPageTurnFacts.
Import ChatPage ChatPageFacts.

#[local] Arguments str : simpl never.
#[local] Arguments ofInt : simpl never.
#[local] Arguments slice : simpl never.
#[local] Arguments trim : simpl never.

(** ** The reply to a message *)

(** The whole of what the rest of the [try] block leaves behind. *)
Lemma resumeSendMessage_reply (k : InFlight) (clock : Clock)
  (response : Api.ChatMessageResponse) (s : State) :
  exists s3 effects finalChat,
    resumeSendMessage k clock (Api.Returns response) s = (tt, s3, effects)
    /\ currentChat s3 = Some finalChat
    /\ Chat.id finalChat = Chat.id (chat k)
    /\ Chat.timestamp finalChat = Chat.timestamp (chat k)
    /\ Chat.messages finalChat
       = updatedMessages k ++ [newBotMessage clock response]
    /\ Chat.title finalChat
       = (if Nat.eqb (length (Chat.messages (chat k))) 1
          then slice (messageText k) 0 50
               ++ (if Nat.ltb 50 (length (messageText k))
                   then str "..." else [])
          else Chat.title (chat k))
    /\ filter isUpdateChat effects
       = [CallUpdateChat (chatId k) (Chat.messages finalChat)
            (Chat.title finalChat)]
    /\ message s3 = message s
    /\ actualChatId s3 = actualChatId s.
Proof.
  unfold resumeSendMessage.
  destruct (Api.jobs response) as [[|j jobs]|];
    destruct (Api.selected_job_details response);
    do 3 eexists; cbn; repeat split.
Qed.

Lemma slice_prefix (A : Type) (l : list A) (n : nat) :
  slice l 0 (Z.of_nat n) = firstn n l.
Proof.
  change 0%Z with (Z.of_nat 0).
  rewrite (JsFacts.slice_nonneg A l 0 n) by lia.
  rewrite Nat.sub_0_r. reflexivity.
Qed.

(** X4. When a reply arrives, the chat on display is the chat the call
    started from with the user's message and the reply appended in this
    order, under the same id; and [updateChat] is called exactly once,
    with the chat id of the call and with the very messages and title
    now on display. *)
Theorem reply_is_stored_as_shown (props : Props) (s : State) (clock : Clock)
  (text : option jsstring) :
  guard s (or_else text (message s)) = false ->
  exists before k s1 effects1,
    currentChat s = Some before
    /\ actualChatId s = Some (chatId k)
    /\ handleSendMessage props s clock text s = (Some k, s1, effects1)
    /\ forall (s2 : State) (clock2 : Clock)
         (response : Api.ChatMessageResponse),
         exists s3 effects3 shown,
           resumeSendMessage k clock2 (Api.Returns response) s2
           = (tt, s3, effects3)
           /\ currentChat s3 = Some shown
           /\ Chat.id shown = Chat.id before
           /\ Chat.messages shown
              = Chat.messages before
                ++ [newUserMessage clock (or_else text (message s));
                    newBotMessage clock2 response]
           /\ filter isUpdateChat effects3
              = [CallUpdateChat (chatId k) (Chat.messages shown)
                   (Chat.title shown)].
Proof.
  intros G.
  destruct (handleSendMessage_passes props s clock text s G)
    as (k & s1 & effects1 & E).
  pose proof (handleSendMessage_sent _ _ _ _ _ _ _ _ E)
    as (_ & C & A & M & U & _).
  exists (chat k), k, s1, effects1.
  split; [exact C|]. split; [exact A|]. split; [exact E|].
  intros s2 clock2 response.
  destruct (resumeSendMessage_reply k clock2 response s2)
    as (s3 & effects3 & shown & R & C3 & I & _ & Ms & _ & F & _).
  exists s3, effects3, shown.
  split; [exact R|]. split; [exact C3|]. split; [exact I|].
  split; [|exact F].
  rewrite Ms, U, M, <- app_assoc. reflexivity.
Qed.

(** X5. The title after a reply. A chat that held exactly one message
    when the call was made is renamed after the text sent: the text
    itself when it has at most 50 code units, and otherwise its first 50
    followed by three dots, so never more than 53. Any other chat keeps
    its title. *)
Theorem reply_titles_first_turn (k : InFlight) (clock : Clock)
  (response : Api.ChatMessageResponse) (s : State) :
  exists s3 effects shown,
    resumeSendMessage k clock (Api.Returns response) s = (tt, s3, effects)
    /\ currentChat s3 = Some shown
    /\ (length (Chat.messages (chat k)) <> 1%nat ->
        Chat.title shown = Chat.title (chat k))
    /\ (length (Chat.messages (chat k)) = 1%nat ->
        (length (Chat.title shown) <= 53)%nat
        /\ firstn 50 (Chat.title shown) = firstn 50 (messageText k)
        /\ ((length (messageText k) <= 50)%nat ->
            Chat.title shown = messageText k)
        /\ ((50 < length (messageText k))%nat ->
            Chat.title shown = firstn 50 (messageText k) ++ str "...")).
Proof.
  destruct (resumeSendMessage_reply k clock response s)
    as (s3 & effects & shown & R & C & _ & _ & _ & T & _).
  exists s3, effects, shown. split; [exact R|]. split; [exact C|].
  rewrite T. change 50%Z with (Z.of_nat 50). rewrite slice_prefix.
  split.
  - intros N. apply Nat.eqb_neq in N. rewrite N. reflexivity.
  - intros O. rewrite O. cbn [Nat.eqb].
    destruct (Nat.ltb_spec 50 (length (messageText k))) as [L|L].
    + repeat split.
      * rewrite length_app, length_firstn.
        change (length (str "...")) with 3%nat. lia.
      * rewrite firstn_app, firstn_firstn, length_firstn.
        replace (50 - Nat.min 50 (length (messageText k)))%nat with 0%nat
          by lia.
        cbn. rewrite app_nil_r. reflexivity.
      * lia.
    + rewrite app_nil_r. rewrite !firstn_all2 by exact L.
      split; [lia|]. split; [reflexivity|]. split; [reflexivity|].
      intros X. exfalso. lia.
Qed.

(** X6. A reply that brings no jobs, because the field is missing or the
    list is empty, leaves the jobs on display, their visibility and the
    page number as they are and announces nothing. A reply that brings
    jobs shows exactly these, converted one by one and in the order
    received, from page 1, and announces their number. *)
Theorem reply_jobs_replace_or_keep (k : InFlight) (clock : Clock)
  (response : Api.ChatMessageResponse) (s : State) :
  exists s3 effects,
    resumeSendMessage k clock (Api.Returns response) s = (tt, s3, effects)
    /\ ((Api.jobs response = None \/ Api.jobs response = Some []) ->
        displayedJobs s3 = displayedJobs s
        /\ showJobs s3 = showJobs s
        /\ currentPage s3 = currentPage s
        /\ forall text, ~ In (ToastSuccess text) effects)
    /\ (forall jobs, Api.jobs response = Some jobs -> jobs <> [] ->
        displayedJobs s3 = map convertJobCardDataToJob jobs
        /\ map Job.id (displayedJobs s3) = map Api.job_id jobs
        /\ showJobs s3 = true
        /\ currentPage s3 = 1%Z
        /\ In (ToastSuccess
                 (str "Found " ++ ofInt (Z.of_nat (length jobs))
                  ++ str " matching jobs!")) effects).
Proof.
  destruct (resumeSendMessage k clock (Api.Returns response) s)
    as [[[] s3] effects] eqn:E.
  exists s3, effects. split; [reflexivity|].
  unfold resumeSendMessage in E.
  destruct (Api.jobs response) as [[|j jobs]|];
    destruct (Api.selected_job_details response);
    simpl in E; injection E as <- <-; simpl.
  all: split;
    [ intros [X|X]; try discriminate;
      (split; [reflexivity|]); (split; [reflexivity|]);
      (split; [reflexivity|]);
      intros text I; cbn in I;
      repeat (destruct I as [I|I]; [discriminate|]); exact I
    | intros jobs' X N; try congruence ].
  all: injection X as <-.
  all: split; [reflexivity|].
  all: split; [cbn [map]; f_equal; rewrite map_map; reflexivity|].
  all: split; [reflexivity|].
  all: split; [reflexivity|].
  all: right; left; reflexivity.
Qed.

(** ** handleChooseJob *)

Lemma chooseMessage_not_blank (job : Job.t) :
  forallb isWhiteSpace (chooseMessage job) = false.
Proof.
  unfold chooseMessage.
  change (str "I'm interested in the ")
    with (73%N :: str "'m interested in the ").
  reflexivity.
Qed.

Lemma setSelectedJobId_frame (v : option jsstring) (s : State) :
  let s' := snd (fst (setSelectedJobId v s)) in
  selectedJobId s' = v
  /\ currentChat s' = currentChat s /\ message s' = message s
  /\ displayedJobs s' = displayedJobs s /\ currentPage s' = currentPage s
  /\ showJobs s' = showJobs s /\ isLoading s' = isLoading s
  /\ isSending s' = isSending s /\ actualChatId s' = actualChatId s.
Proof. cbn. repeat split. Qed.

(** X7. Choosing a job while a chat is loaded and nothing is being sent
    selects the job and sends the sentence about it; but the request
    carries the selection of the render in which the button was
    clicked, not the job just chosen: with no job selected before, it
    carries none. *)
Theorem choosing_sends_earlier_selection (props : Props) (r : State)
  (clock : Clock) (job : Job.t) :
  (exists c, currentChat r = Some c) ->
  present (actualChatId r) = true ->
  isSending r = false ->
  exists k s1,
    handleChooseJob props r clock job r
    = (Some k, s1,
       [CallSendMessage (userEmail props) (chatId k) (chooseMessage job)
          (if present (selectedJobId r) then selectedJobId r else None);
        ToastSuccess (str "Job selected for discussion")])
    /\ actualChatId r = Some (chatId k)
    /\ selectedJobId s1 = Some (Job.id job)
    /\ isSending s1 = true
    /\ (selectedJobId r = None ->
        In (CallSendMessage (userEmail props) (chatId k) (chooseMessage job)
              None)
           (snd (handleChooseJob props r clock job r))).
Proof.
  intros (c & C) A S.
  assert (G : guard r (or_else (Some (chooseMessage job)) (message r))
              = false).
  { apply guard_false_iff. cbn [or_else].
    assert (T : Js.truthy (chooseMessage job) = true) by reflexivity.
    rewrite T. split; [apply chooseMessage_not_blank|]. eauto. }
  destruct (handleSendMessage_passes props r clock
              (Some (chooseMessage job))
              (snd (fst (setSelectedJobId (Some (Job.id job)) r))) G)
    as (k & s1 & effects & E).
  pose proof (handleChooseJob_sends props r clock job r c C) as H.
  cbn zeta in H. rewrite E in H. cbn [fst snd] in H.
  pose proof (handleSendMessage_sent _ _ _ _ _ _ _ _ E)
    as (_ & _ & Ak & M & _ & _ & _ & S1 & _ & _ & _ & _ & J & _ & F).
  assert (T : Js.truthy (chooseMessage job) = true) by reflexivity.
  cbn [or_else] in M. rewrite T in M.
  exists k, s1. rewrite H, F, M. cbn [app].
  split; [reflexivity|]. split; [exact Ak|].
  split; [rewrite J; reflexivity|]. split; [exact S1|].
  intros N. rewrite N. cbn. auto.
Qed.

(** X8. Choosing a job when it cannot be sent. Without a current chat
    nothing happens at all. With one, but while a message is being sent
    or without a chat id, the job is selected and the toast says so,
    yet no request leaves: the selection waits for the next message. *)
Theorem choosing_while_blocked (props : Props) (r : State) (clock : Clock)
  (job : Job.t) (s : State) :
  (currentChat r = None ->
   handleChooseJob props r clock job s = (None, s, []))
  /\ ((exists c, currentChat r = Some c) ->
      isSending r = true \/ actualChatId r = None ->
      handleChooseJob props r clock job s
      = (None, snd (fst (setSelectedJobId (Some (Job.id job)) s)),
         [ToastSuccess (str "Job selected for discussion")])).
Proof.
  split.
  - intros C. unfold handleChooseJob. rewrite C. reflexivity.
  - intros (c & C) B.
    rewrite (handleChooseJob_sends props r clock job s c C).
    cbn zeta.
    rewrite handleSendMessage_guarded; [reflexivity|].
    apply guard_true_if. tauto.
Qed.

(** X9. The Send button against the guard of [handleSendMessage].
    While the button is disabled a call would return at once. While it
    is enabled, a click sends the draft, unless no chat is on display
    or the chat id is missing: then the click does nothing at all, and
    nothing says so. *)
Theorem send_button_and_guard (props : Props) (r : State) (clock : Clock) :
  (ChatPageView.sendDisabled r = true ->
   handleSendMessage props r clock None r = (None, r, []))
  /\ (ChatPageView.sendDisabled r = false ->
      (currentChat r = None \/ present (actualChatId r) = false ->
       handleSendMessage props r clock None r = (None, r, []))
      /\ ((exists c, currentChat r = Some c) ->
          present (actualChatId r) = true ->
          exists k s1 effects,
            handleSendMessage props r clock None r = (Some k, s1, effects)
            /\ messageText k = message r)).
Proof.
  unfold ChatPageView.sendDisabled.
  pose proof (JsFacts.trim_blank_iff (message r)) as B.
  split; intros D.
  - apply handleSendMessage_guarded, guard_true_if. cbn [or_else].
    apply orb_true_iff in D. destruct D as [D|D]; [auto|].
    apply negb_true_iff in D. right. left. apply B. exact D.
  - apply orb_false_iff in D. destruct D as [S T].
    apply negb_false_iff in T.
    assert (W : forallb isWhiteSpace (message r) = false).
    { destruct (forallb isWhiteSpace (message r)); [|reflexivity].
      rewrite (proj2 B eq_refl) in T. discriminate. }
    split.
    + intros N. apply handleSendMessage_guarded.
      destruct (guard r (or_else None (message r))) eqn:G; [reflexivity|].
      apply guard_false_iff in G. destruct G as (_ & (c & C) & A & _).
      destruct N; congruence.
    + intros C A.
      assert (G : guard r (or_else None (message r)) = false)
        by (apply guard_false_iff; auto).
      destruct (handleSendMessage_passes props r clock None r G)
        as (k & s1 & effects & E).
      pose proof (handleSendMessage_sent _ _ _ _ _ _ _ _ E)
        as (_ & _ & _ & M & _).
      exists k, s1, effects. split; [exact E | exact M].
Qed.

(** ** Paging *)

Lemma paginationShown_same (s s' : State) :
  isLoading s' = isLoading s -> showJobs s' = showJobs s ->
  displayedJobs s' = displayedJobs s ->
  paginationShown s' = paginationShown s.
Proof.
  unfold paginationShown, jobsShown, totalPages. intros -> -> ->.
  reflexivity.
Qed.

(** The state with another page number. *)
Lemma atPage_same (r : State) : atPage r (currentPage r) = r.
Proof. destruct r. reflexivity. Qed.

Lemma step_Next (props : Props) (p : Page) :
  paginationShown (view p) = true ->
  step props p Next
  = Some ({| view := atPage (view p)
                       (Z.min (totalPages (view p))
                          (currentPage (view p) + 1));
             pending := pending p |}, []).
Proof. intros S. cbn [step]. rewrite S. reflexivity. Qed.

Lemma step_Previous (props : Props) (p : Page) :
  paginationShown (view p) = true ->
  step props p Previous
  = Some ({| view := atPage (view p) (Z.max 1 (currentPage (view p) - 1));
             pending := pending p |}, []).
Proof. intros S. cbn [step]. rewrite S. reflexivity. Qed.

Lemma atPage_atPage (r : State) (a b : Z) :
  atPage (atPage r a) b = atPage r b.
Proof. reflexivity. Qed.

Lemma paginationShown_atPage (r : State) (a : Z) :
  paginationShown (atPage r a) = paginationShown r.
Proof. reflexivity. Qed.

Lemma totalPages_atPage (r : State) (a : Z) :
  totalPages (atPage r a) = totalPages r.
Proof. reflexivity. Qed.

(** X10. While the pagination bar is there, Previous undoes Next on every
    page but the last, and Next undoes Previous on every page but the
    first: the page is back as it was, and nothing else happened. *)
Theorem next_previous_round_trip (props props' : Props) (p : Page) :
  paginationShown (view p) = true ->
  pageInRange (view p) ->
  ((currentPage (view p) < totalPages (view p))%Z ->
   run p [(props, Next); (props', Previous)] = Some (p, []))
  /\ ((1 < currentPage (view p))%Z ->
      run p [(props, Previous); (props', Next)] = Some (p, [])).
Proof.
  intros S [L U]. split; intros B; cbn [run].
  - rewrite (step_Next props p S), step_Previous
      by (cbn [view]; rewrite paginationShown_atPage; exact S).
    cbn [view pending app]. rewrite atPage_atPage.
    replace (Z.max 1 _) with (currentPage (view p))
      by (change (currentPage (atPage (view p) ?x)) with x; cbn; lia).
    rewrite atPage_same. destruct p; reflexivity.
  - rewrite (step_Previous props p S), step_Next
      by (cbn [view]; rewrite paginationShown_atPage; exact S).
    cbn [view pending app]. rewrite atPage_atPage, totalPages_atPage.
    replace (Z.min _ _) with (currentPage (view p)) by (cbn; lia).
    rewrite atPage_same. destruct p; reflexivity.
Qed.

(** X11. Only the first five pages have a numbered button, but Next
    alone reaches every page: [n] times Next lead from an admissible
    page to that page plus [n], or to the last page if there are fewer,
    where Next changes nothing any more; the jobs are untouched. *)
Theorem next_reaches_every_page (props : Props) (n : nat) :
  forall p : Page,
    paginationShown (view p) = true ->
    pageInRange (view p) ->
    length (pageButtons (view p))
    = Z.to_nat (Z.min (totalPages (view p)) 5)
    /\ run p (repeat (props, Next) n)
       = Some ({| view := atPage (view p)
                            (Z.min (totalPages (view p))
                               (currentPage (view p) + Z.of_nat n));
                  pending := pending p |}, []).
Proof.
  intros p S R. split.
  { unfold pageButtons. rewrite length_map, length_seq. reflexivity. }
  revert p S R. induction n as [|n IH]; intros p S [L U].
  - cbn [repeat run].
    pose proof (paginationShown_pages _ S) as T.
    replace (Z.min _ _) with (currentPage (view p)) by lia.
    rewrite atPage_same. destruct p; reflexivity.
  - pose proof (paginationShown_pages _ S) as T.
    cbn [repeat run]. rewrite (step_Next props p S).
    rewrite IH.
    + cbn [view pending app]. rewrite atPage_atPage, totalPages_atPage.
      change (currentPage (atPage (view p) ?x)) with x.
      replace (Z.min _ (Z.min _ _ + _))
        with (Z.min (totalPages (view p))
                (currentPage (view p) + Z.of_nat (Datatypes.S n))) by lia.
      reflexivity.
    + cbn [view]. rewrite paginationShown_atPage. exact S.
    + unfold pageInRange. cbn [view]. rewrite totalPages_atPage. cbn. lia.
Qed.

(** X12. On an admissible page of a non-empty list, the bar's "Showing
    [a] - [b] of [n]" is right: the cards on the page are the jobs
    number [a] to [b] of the list, counted from 1, so there are
    [b - a + 1] of them, at least one. *)
Theorem showing_range_counts_cards (r : State) :
  pageInRange r ->
  displayedJobs r <> [] ->
  let a := ChatPageView.showingFrom r in
  let b := ChatPageView.showingTo r in
  (1 <= a <= b)%Z
  /\ (b <= Z.of_nat (length (displayedJobs r)))%Z
  /\ paginatedJobs r
     = firstn (Z.to_nat (b - a + 1))
         (skipn (Z.to_nat (a - 1)) (displayedJobs r))
  /\ Z.of_nat (length (paginatedJobs r)) = (b - a + 1)%Z.
Proof.
  intros [L U] N a b. subst a b.
  unfold ChatPageView.showingFrom, ChatPageView.showingTo, jobsPerPage.
  pose proof (totalPages_spec r) as T.
  assert (P : (0 < Z.of_nat (length (displayedJobs r)))%Z)
    by (destruct (displayedJobs r); [congruence | cbn; lia]).
  assert (E : paginatedJobs r
              = firstn 3 (skipn (3 * Z.to_nat (currentPage r - 1))
                            (displayedJobs r))).
  { rewrite <- (paginatedJobs_chunk r (Z.to_nat (currentPage r - 1))).
    replace (Z.of_nat (S (Z.to_nat (currentPage r - 1))))
      with (currentPage r) by lia.
    rewrite atPage_same. reflexivity. }
  split; [lia|]. split; [lia|].
  assert (F : firstn 3 (skipn (3 * Z.to_nat (currentPage r - 1))
                          (displayedJobs r))
              = firstn (Z.to_nat
                          (Z.min (currentPage r * 3)
                             (Z.of_nat (length (displayedJobs r)))
                           - ((currentPage r - 1) * 3 + 1) + 1))
                  (skipn (Z.to_nat ((currentPage r - 1) * 3 + 1 - 1))
                     (displayedJobs r))).
  { replace (Z.to_nat ((currentPage r - 1) * 3 + 1 - 1))
      with (3 * Z.to_nat (currentPage r - 1))%nat by lia.
    destruct (Z.le_gt_cases (currentPage r * 3)
                (Z.of_nat (length (displayedJobs r)))) as [C|C].
    - f_equal. lia.
    - rewrite !firstn_all2; [reflexivity| |]; rewrite length_skipn; lia. }
  split; [rewrite E; exact F|].
  rewrite E, F, length_firstn, length_skipn. lia.
Qed.

(** X13. The two messages a turn adds to a chat have different ids,
    provided [Date.now()] did not go back between the call and the
    reply. *)
Theorem turn_message_ids_differ (clock clock2 : Clock) (text : jsstring)
  (response : Api.ChatMessageResponse) :
  (dateNow clock <= dateNow clock2)%Z ->
  Message.id (newUserMessage clock text)
  <> Message.id (newBotMessage clock2 response).
Proof.
  intros M E. cbn [newUserMessage newBotMessage Message.id] in E.
  apply app_inv_head in E. apply JsDecimalFacts.ofInt_inj in E. lia.
Qed.

Lemma reply_is_stored_as_shown_witness :
  exists before k s1 effects1,
    currentChat Examples.ready = Some before
    /\ actualChatId Examples.ready = Some (chatId k)
    /\ handleSendMessage Examples.props Examples.ready Examples.clock1 None
         Examples.ready = (Some k, s1, effects1)
    /\ forall (s2 : State) (clock2 : Clock)
         (response : Api.ChatMessageResponse),
         exists s3 effects3 shown,
           resumeSendMessage k clock2 (Api.Returns response) s2
           = (tt, s3, effects3)
           /\ currentChat s3 = Some shown
           /\ Chat.id shown = Chat.id before
           /\ Chat.messages shown
              = Chat.messages before
                ++ [newUserMessage Examples.clock1
                      (or_else None (message Examples.ready));
                    newBotMessage clock2 response]
           /\ filter isUpdateChat effects3
              = [CallUpdateChat (chatId k) (Chat.messages shown)
                   (Chat.title shown)].
Proof.
  apply (reply_is_stored_as_shown Examples.props Examples.ready
           Examples.clock1 None).
  vm_compute. reflexivity.
Defined.

Lemma choosing_sends_earlier_selection_witness :
  exists k s1,
    handleChooseJob Examples.props Examples.browsing Examples.clock1
      Examples.job Examples.browsing
    = (Some k, s1,
       [CallSendMessage (userEmail Examples.props) (chatId k)
          (chooseMessage Examples.job)
          (if present (selectedJobId Examples.browsing)
           then selectedJobId Examples.browsing else None);
        ToastSuccess (str "Job selected for discussion")])
    /\ actualChatId Examples.browsing = Some (chatId k)
    /\ selectedJobId s1 = Some (Job.id Examples.job)
    /\ isSending s1 = true
    /\ (selectedJobId Examples.browsing = None ->
        In (CallSendMessage (userEmail Examples.props) (chatId k)
              (chooseMessage Examples.job) None)
           (snd (handleChooseJob Examples.props Examples.browsing
                   Examples.clock1 Examples.job Examples.browsing))).
Proof.
  apply (choosing_sends_earlier_selection Examples.props Examples.browsing
           Examples.clock1 Examples.job).
  - exists Examples.freshChat. reflexivity.
  - vm_compute. reflexivity.
  - reflexivity.
Defined.

Lemma next_previous_round_trip_witness :
  ((currentPage (view Examples.browsingPage)
    < totalPages (view Examples.browsingPage))%Z ->
   run Examples.browsingPage
     [(Examples.props, Next); (Examples.props, Previous)]
   = Some (Examples.browsingPage, []))
  /\ ((1 < currentPage (view Examples.browsingPage))%Z ->
      run Examples.browsingPage
        [(Examples.props, Previous); (Examples.props, Next)]
      = Some (Examples.browsingPage, [])).
Proof.
  apply (next_previous_round_trip Examples.props Examples.props
           Examples.browsingPage).
  - vm_compute. reflexivity.
  - unfold pageInRange. vm_compute. split; discriminate.
Defined.

Lemma next_reaches_every_page_witness :
  length (pageButtons (view Examples.browsingPage))
  = Z.to_nat (Z.min (totalPages (view Examples.browsingPage)) 5)
  /\ run Examples.browsingPage (repeat (Examples.props, Next) 4)
     = Some ({| view := atPage (view Examples.browsingPage)
                          (Z.min (totalPages (view Examples.browsingPage))
                             (currentPage (view Examples.browsingPage)
                              + Z.of_nat 4));
                pending := pending Examples.browsingPage |}, []).
Proof.
  apply (next_reaches_every_page Examples.props 4 Examples.browsingPage).
  - vm_compute. reflexivity.
  - unfold pageInRange. vm_compute. split; discriminate.
Defined.

Lemma showing_range_counts_cards_witness :
  (1 <= ChatPageView.showingFrom Examples.browsing
   <= ChatPageView.showingTo Examples.browsing)%Z
  /\ (ChatPageView.showingTo Examples.browsing
      <= Z.of_nat (length (displayedJobs Examples.browsing)))%Z
  /\ paginatedJobs Examples.browsing
     = firstn
         (Z.to_nat (ChatPageView.showingTo Examples.browsing
                    - ChatPageView.showingFrom Examples.browsing + 1))
         (skipn (Z.to_nat (ChatPageView.showingFrom Examples.browsing - 1))
            (displayedJobs Examples.browsing))
  /\ Z.of_nat (length (paginatedJobs Examples.browsing))
     = (ChatPageView.showingTo Examples.browsing
        - ChatPageView.showingFrom Examples.browsing + 1)%Z.
Proof.
  apply (showing_range_counts_cards Examples.browsing).
  - unfold pageInRange. vm_compute. split; discriminate.
  - discriminate.
Defined.

Lemma turn_message_ids_differ_witness :
  (dateNow Examples.clock1 <= dateNow Examples.clock2)%Z
  /\ Message.id (newUserMessage Examples.clock1 (str "anything in Pune?"))
     <> Message.id (newBotMessage Examples.clock2 Examples.found).
Proof.
  assert (L : (dateNow Examples.clock1 <= dateNow Examples.clock2)%Z)
    by (vm_compute; discriminate).
  split; [exact L|].
  exact (turn_message_ids_differ Examples.clock1 Examples.clock2
           (str "anything in Pune?") Examples.found L).
Defined.

End ChatPageTurnFacts.

(* ================================================================== *)
(** * ChatPage: mounting                                            *)
(* ================================================================== *)

Module ChatPageMountFacts.
Import ApiTypes ChatPage ChatPageMount.

#[local] Arguments str : simpl never.
#[local] Arguments ofInt : simpl never.

Section Dates.
Variable dateParse : jsstring -> Z.

(** ** The messages of a loaded chat *)

Lemma mapFrom_length (A B : Type) (f : A -> nat -> B) (l : list A) :
  forall start, length (JsArrays.mapFrom f start l) = length l.
Proof.
  induction l as [|x l IH]; intros start; cbn; [reflexivity|].
  rewrite IH. reflexivity.
Qed.

Lemma mapFrom_nth_error (A B : Type) (f : A -> nat -> B) (l : list A) :
  forall start i,
    nth_error (JsArrays.mapFrom f start l) i
    = option_map (fun x => f x (start + i)) (nth_error l i).
Proof.
  induction l as [|x l IH]; intros start [|i]; cbn; try reflexivity.
  - rewrite Nat.add_0_r. reflexivity.
  - rewrite IH. rewrite <- plus_n_Sm. reflexivity.
Qed.

Lemma mapFrom_map (A B C : Type) (f : A -> nat -> B) (g : B -> C)
  (h : A -> C) (l : list A) :
  (forall x i, g (f x i) = h x) ->
  forall start, map g (JsArrays.mapFrom f start l) = map h l.
Proof.
  intros K. induction l as [|x l IH]; intros start; cbn; [reflexivity|].
  rewrite K, IH. reflexivity.
Qed.

Lemma mapFrom_ids (A B C : Type) (f : A -> nat -> B) (g : B -> C)
  (h : nat -> C) (l : list A) :
  (forall x i, g (f x i) = h i) ->
  forall start,
    map g (JsArrays.mapFrom f start l) = map h (seq start (length l)).
Proof.
  intros K. induction l as [|x l IH]; intros start; cbn; [reflexivity|].
  rewrite K, IH. reflexivity.
Qed.

(** X14. The messages of a loaded chat are the server's, one for one
    and in the same order, with the sender and the text of each; the
    one at index [i] gets the id [msg-i], so no two ids of the chat are
    equal; and a message the server did not date, or dated with the
    empty string, is dated with the clock. *)
Theorem loaded_messages_keep_order_with_distinct_ids (clock : LoadClock)
  (messages : list ChatMessage.t) :
  let loaded := toMessages dateParse clock messages in
  length loaded = length messages
  /\ map Message.sender loaded = map ChatMessage.sender messages
  /\ map Message.content loaded = map ChatMessage.message messages
  /\ map Message.id loaded
     = map (fun i => str "msg-" ++ ofInt (Z.of_nat i))
         (seq 0 (length messages))
  /\ NoDup (map Message.id loaded)
  /\ (forall i msg m,
        nth_error messages i = Some msg -> nth_error loaded i = Some m ->
        Message.timestamp m
        = match ChatMessage.timestamp msg with
          | Some t => if Nat.eqb (length t) 0 then nowAt clock i
                      else dateParse t
          | None => nowAt clock i
          end).
Proof.
  cbn zeta. unfold toMessages, JsArrays.mapIndexed.
  split; [apply mapFrom_length|].
  split; [apply mapFrom_map; reflexivity|].
  split; [apply mapFrom_map; reflexivity|].
  assert (I : map Message.id
                (JsArrays.mapFrom
                   (fun msg index =>
                      {| Message.id := str "msg-" ++ ofInt (Z.of_nat index);
                         Message.sender := ChatMessage.sender msg;
                         Message.content := ChatMessage.message msg;
                         Message.timestamp :=
                           dateOf dateParse (ChatMessage.timestamp msg)
                             (nowAt clock index) |}) 0 messages)
              = map (fun i => str "msg-" ++ ofInt (Z.of_nat i))
                  (seq 0 (length messages)))
    by (apply mapFrom_ids; reflexivity).
  split; [exact I|]. split.
  - rewrite I. apply Injective_map_NoDup; [|apply seq_NoDup].
    intros i j E. apply app_inv_head in E. apply JsDecimalFacts.ofInt_inj in E.
    lia.
  - intros i msg m N L. rewrite mapFrom_nth_error, N in L.
    injection L as <-. cbn. unfold dateOf.
    destruct (ChatMessage.timestamp msg) as [[|c t]|]; reflexivity.
Qed.

(** ** From mounting to the answer *)

Lemma resumeGetChatMessages_cases (l : Loading) (clock : LoadClock)
  (outcome : Api.Result GetChatMessagesResponse.t) (s : State) :
  exists s' effects,
    resumeGetChatMessages dateParse l clock outcome s = (tt, s', effects)
    /\ isLoading s' = false /\ untouched s s'
    /\ match l, outcome with
       | Existing existingChat chatId, Api.Returns chatData =>
           currentChat s'
           = Some (Chat.withMessagesTitle existingChat
                     (toMessages dateParse clock
                        (GetChatMessagesResponse.messages chatData))
                     (GetChatMessagesResponse.chat_name chatData))
           /\ actualChatId s' = actualChatId s /\ effects = []
       | Existing existingChat chatId, Api.Throws _ =>
           currentChat s' = currentChat s
           /\ actualChatId s' = actualChatId s
           /\ effects = [ConsoleLog (str "Using cached chat data")]
       | Missing chatId, Api.Returns chatData =>
           let newChat :=
             {| Chat.id := chatId;
                Chat.title := GetChatMessagesResponse.chat_name chatData;
                Chat.messages :=
                  toMessages dateParse clock
                    (GetChatMessagesResponse.messages chatData);
                Chat.timestamp := loadedAt clock |} in
           currentChat s' = Some newChat
           /\ actualChatId s' = Some chatId /\ effects = [AddChat newChat]
       | Missing chatId, Api.Throws _ =>
           currentChat s' = currentChat s
           /\ actualChatId s' = actualChatId s
           /\ effects = [ToastError (str "Chat not found");
                         Navigate (str "/home") false]
       end.
Proof.
  unfold untouched. destruct l, outcome; do 2 eexists;
    (split; [reflexivity|]); cbn; repeat split.
Qed.

Lemma resumeCreateChat_cases (clock : CreateClock)
  (outcome : Api.Result CreateChatResponse.t) (s : State) :
  exists s' effects,
    resumeCreateChat clock outcome s = (tt, s', effects)
    /\ isLoading s' = false /\ untouched s s'
    /\ match outcome with
       | Api.Returns result =>
           currentChat s' = Some (createdChat clock result)
           /\ actualChatId s' = Some (CreateChatResponse.chat_id result)
           /\ effects
              = [AddChat (createdChat clock result);
                 Navigate (str "/chat/" ++ CreateChatResponse.chat_id result)
                   true]
       | Api.Throws error =>
           currentChat s' = currentChat s
           /\ actualChatId s' = actualChatId s
           /\ effects
              = [ConsoleError (str "Error initializing chat:") error;
                 ToastError
                   (str "Failed to initialize chat. Please try again.")]
       end.
Proof.
  unfold untouched. destruct outcome; do 2 eexists;
    (split; [reflexivity|]); cbn; repeat split.
Qed.

(** What the part before the [await] leaves, by the route. *)
Lemma initializeChat_cases (props : Props) (chatId : option jsstring)
  (s : State) :
  Js.truthy (userEmail props) = true ->
  exists w s1 request,
    initializeChat props chatId s = (Some w, s1, [request])
    /\ isLoading s1 = true /\ untouched s s1
    /\ match w with
       | AwaitMessages (Existing existingChat id) =>
           chatId = Some id /\ In existingChat (chats props)
           /\ Chat.id existingChat = id
           /\ request = CallGetChatMessages (userEmail props) id
           /\ currentChat s1 = Some existingChat
           /\ actualChatId s1 = Some id
       | AwaitMessages (Missing id) =>
           chatId = Some id
           /\ ~ In id (map Chat.id (chats props))
           /\ request = CallGetChatMessages (userEmail props) id
           /\ currentChat s1 = currentChat s
           /\ actualChatId s1 = actualChatId s
       | AwaitCreate =>
           (chatId = None \/ chatId = Some [] \/ chatId = Some (str "new"))
           /\ request = CallCreateChat (userEmail props)
           /\ currentChat s1 = currentChat s
           /\ actualChatId s1 = actualChatId s
       end.
Proof.
  intros T. unfold initializeChat, untouched. rewrite T. cbn [negb].
  destruct chatId as [id|];
    [|do 3 eexists; (split; [reflexivity|]); cbn; repeat split; auto].
  destruct (Js.truthy id) eqn:Ti; cbn [andb].
  - destruct (Js.eqb id (str "new")) eqn:N; cbn [negb].
    + apply JsFacts.eqb_eq in N. subst id.
      do 3 eexists; (split; [reflexivity|]); cbn; repeat split; auto.
    + destruct (find (fun chat => Js.eqb (Chat.id chat) id) (chats props))
        as [existingChat|] eqn:F.
      * apply find_some in F. destruct F as [I E].
        apply JsFacts.eqb_eq in E.
        do 3 eexists; (split; [reflexivity|]); cbn; repeat split; auto.
      * do 3 eexists; (split; [reflexivity|]); cbn; repeat split; auto.
        intros I. apply in_map_iff in I. destruct I as (c & E & I).
        pose proof (find_none _ _ F c I) as X. cbn in X.
        rewrite <- E in X.
        assert (Y : Js.eqb (Chat.id c) (Chat.id c) = true)
          by (apply JsFacts.eqb_eq; reflexivity).
        congruence.
  - destruct id; [|discriminate].
    do 3 eexists; (split; [reflexivity|]); cbn; repeat split; auto.
Qed.

(** X15. Mounting without an email asks the server nothing: it shows
    the onboarding toast, goes to the start page and leaves the state,
    [isLoading] included, as it is. With an email it turns [isLoading]
    on and sends exactly one request; and whatever the answer, and
    whatever the state by then, the rest of [initializeChat] turns
    [isLoading] off again. The draft, the jobs, the page, the selection
    and [isSending] are never written. *)
Theorem mount_ends_loading (props : Props) (chatId : option jsstring)
  (s : State) :
  (Js.truthy (userEmail props) = false ->
   initializeChat props chatId s
   = (None, s, [ToastError (str "Please complete onboarding first");
                Navigate (str "/") false]))
  /\ (Js.truthy (userEmail props) = true ->
      exists w s1 request,
        initializeChat props chatId s = (Some w, s1, [request])
        /\ isRequest request = true
        /\ isLoading s1 = true /\ untouched s s1)
  /\ (forall l clock outcome s2,
        isLoading
          (snd (fst (resumeGetChatMessages dateParse l clock outcome s2)))
        = false
        /\ untouched s2
             (snd (fst (resumeGetChatMessages dateParse l clock outcome
                          s2))))
  /\ (forall clock outcome s2,
        isLoading (snd (fst (resumeCreateChat clock outcome s2))) = false
        /\ untouched s2 (snd (fst (resumeCreateChat clock outcome s2)))).
Proof.
  split; [|split; [|split]].
  - intros T. unfold initializeChat. rewrite T. reflexivity.
  - intros T.
    destruct (initializeChat_cases props chatId s T)
      as (w & s1 & request & E & L & U & K).
    exists w, s1, request. split; [exact E|]. split; [|auto].
    destruct w as [[existingChat id|id]|].
    + destruct K as (_ & _ & _ & -> & _). reflexivity.
    + destruct K as (_ & _ & -> & _). reflexivity.
    + destruct K as (_ & -> & _). reflexivity.
  - intros l clock outcome s2.
    destruct (resumeGetChatMessages_cases l clock outcome s2)
      as (s3 & effects & -> & L & U & _). auto.
  - intros clock outcome s2.
    destruct (resumeCreateChat_cases clock outcome s2)
      as (s3 & effects & -> & L & U & _). auto.
Qed.

(** X16. A chat loaded by the id of the route is added to the list of
    chats only when no chat of the list has this id; and then the one
    call of [addChat] is all that happens outside the page, the chat
    added is the chat on display, and its id is the route's and the
    current chat id. *)
Theorem loaded_chat_is_added_only_if_unknown (props : Props)
  (chatId : option jsstring) (s : State) (l : Loading) (s1 : State)
  (requests : list Effect) :
  initializeChat props chatId s = (Some (AwaitMessages l), s1, requests) ->
  forall clock outcome s2 s3 effects c,
    resumeGetChatMessages dateParse l clock outcome s2 = (tt, s3, effects) ->
    In (AddChat c) effects ->
    ~ In (Chat.id c) (map Chat.id (chats props))
    /\ chatId = Some (Chat.id c)
    /\ effects = [AddChat c]
    /\ currentChat s3 = Some c
    /\ actualChatId s3 = Some (Chat.id c).
Proof.
  intros E clock outcome s2 s3 effects c R I.
  assert (T : Js.truthy (userEmail props) = true).
  { destruct (Js.truthy (userEmail props)) eqn:T; [reflexivity|].
    unfold initializeChat in E. rewrite T in E. discriminate. }
  destruct (initializeChat_cases props chatId s T)
    as (w & s1' & request & E' & _ & _ & K).
  rewrite E in E'. injection E' as <- <- ->.
  destruct (resumeGetChatMessages_cases l clock outcome s2)
    as (s3' & effects' & R' & _ & _ & C).
  rewrite R in R'. injection R' as <- <-.
  destruct l as [existingChat id|id], outcome as [error|chatData];
    cbn zeta in C; destruct C as (C & A & ->);
    cbn in I; try (intuition discriminate).
  destruct I as [I|[]]. injection I as <-.
  destruct K as (-> & N & _). cbn [Chat.id]. auto.
Qed.


(** X18. A request of [initializeChat] that fails changes neither the
    chat on display nor the current chat id and adds no chat. For a chat
    the list has, the failure is only logged; for one it has not, a
    toast says so and the page goes home; when no chat could be created,
    the error is logged with [console.error], a toast says so, nothing
    else happens, and the page stays where it is. *)
Theorem failed_mount_keeps_the_chat (error : Api.Thrown) (s2 : State) :
  (forall l clock,
     exists s3 effects,
       resumeGetChatMessages dateParse l clock (Api.Throws error) s2
       = (tt, s3, effects)
       /\ currentChat s3 = currentChat s2
       /\ actualChatId s3 = actualChatId s2
       /\ (forall c, ~ In (AddChat c) effects)
       /\ effects
          = match l with
            | Existing _ _ => [ConsoleLog (str "Using cached chat data")]
            | Missing _ => [ToastError (str "Chat not found");
                            Navigate (str "/home") false]
            end)
  /\ (forall clock,
        exists s3 effects,
          resumeCreateChat clock (Api.Throws error) s2 = (tt, s3, effects)
          /\ currentChat s3 = currentChat s2
          /\ actualChatId s3 = actualChatId s2
          /\ (forall c, ~ In (AddChat c) effects)
          /\ (forall to replace, ~ In (Navigate to replace) effects)
          /\ In (ToastError
                   (str "Failed to initialize chat. Please try again."))
               effects
          /\ effects
             = [ConsoleError (str "Error initializing chat:") error;
                ToastError
                  (str "Failed to initialize chat. Please try again.")]).
Proof.
  split.
  - intros l clock.
    destruct (resumeGetChatMessages_cases l clock (Api.Throws error) s2)
      as (s3 & effects & R & _ & _ & K).
    exists s3, effects. split; [exact R|].
    destruct l; destruct K as (C & A & ->);
      (split; [exact C|]); (split; [exact A|]);
      (split; [|reflexivity]); intros c I; cbn in I;
      intuition discriminate.
  - intros clock.
    destruct (resumeCreateChat_cases clock (Api.Throws error) s2)
      as (s3 & effects & R & _ & _ & C & A & ->).
    eexists s3, _. split; [exact R|]. split; [exact C|]. split; [exact A|].
    split; [|split; [|split]]; [| |cbn; auto|reflexivity];
      intros; cbn; intuition discriminate.
Qed.

(** X19. What [initializeChat] writes, before and after its request, is
    what the page's [Init] events write: each of its parts is a run of
    such events on the page, with no effect of the page's own and with
    the suspended sends left alone. So what holds of the page after any
    events holds through mounting. *)
Theorem mount_writes_are_init_events (props : Props) (p : Page) :
  (forall chatId,
     exists events,
       forallb isInit events = true
       /\ ChatPage.run p (map (pair props) events)
          = Some ({| view := snd (fst (initializeChat props chatId
                                         (view p)));
                     pending := pending p |}, []))
  /\ (forall l clock outcome,
        exists events,
          forallb isInit events = true
          /\ ChatPage.run p (map (pair props) events)
             = Some ({| view := snd (fst (resumeGetChatMessages dateParse l
                                            clock outcome (view p)));
                        pending := pending p |}, []))
  /\ (forall clock outcome,
        exists events,
          forallb isInit events = true
          /\ ChatPage.run p (map (pair props) events)
             = Some ({| view := snd (fst (resumeCreateChat clock outcome
                                            (view p)));
                        pending := pending p |}, [])).
Proof.
  split; [|split].
  - intros chatId. unfold initializeChat.
    destruct (Js.truthy (userEmail props)); cbn [negb];
      [|exists []; split; [reflexivity|]; destruct p; reflexivity].
    destruct chatId as [id|];
      [|exists [InitIsLoading true]; split; reflexivity].
    destruct (Js.truthy id && negb (Js.eqb id (str "new")));
      [|exists [InitIsLoading true]; split; reflexivity].
    destruct (find (fun chat => Js.eqb (Chat.id chat) id) (chats props))
      as [existingChat|].
    + exists [InitIsLoading true; InitCurrentChat (Some existingChat);
              InitActualChatId (Some id)].
      split; reflexivity.
    + exists [InitIsLoading true]. split; reflexivity.
  - intros [existingChat id|id] clock [error|chatData].
    + exists [InitIsLoading false]. split; reflexivity.
    + eexists [InitCurrentChat _; InitIsLoading false].
      split; reflexivity.
    + exists [InitIsLoading false]. split; reflexivity.
    + eexists [InitCurrentChat _; InitActualChatId _; InitIsLoading false].
      split; reflexivity.
  - intros clock [error|result].
    + exists [InitIsLoading false]. split; reflexivity.
    + eexists [InitCurrentChat _; InitActualChatId _; InitIsLoading false].
      split; reflexivity.
Qed.

End Dates.

Lemma loaded_chat_is_added_only_if_unknown_witness :
  ~ In (str "chat-9") (map Chat.id (chats Examples.props))
  /\ Some (str "chat-9") = Some (str "chat-9")
  /\ snd (resumeGetChatMessages Samples.dateParse (Missing (str "chat-9"))
            Samples.loadClock (Api.Returns Samples.history)
            Examples.ready)
     = [AddChat (Samples.loaded (str "chat-9"))]
  /\ currentChat
       (snd (fst (resumeGetChatMessages Samples.dateParse
                    (Missing (str "chat-9")) Samples.loadClock
                    (Api.Returns Samples.history) Examples.ready)))
     = Some (Samples.loaded (str "chat-9"))
  /\ actualChatId
       (snd (fst (resumeGetChatMessages Samples.dateParse
                    (Missing (str "chat-9")) Samples.loadClock
                    (Api.Returns Samples.history) Examples.ready)))
     = Some (str "chat-9").
Proof.
  refine (loaded_chat_is_added_only_if_unknown Samples.dateParse
            Examples.props (Some (str "chat-9")) Examples.ready
            (Missing (str "chat-9")) _ _ _ Samples.loadClock
            (Api.Returns Samples.history) Examples.ready _ _
            (Samples.loaded (str "chat-9")) _ _).
  - vm_compute. reflexivity.
  - reflexivity.
  - left. reflexivity.
Defined.


End ChatPageMountFacts.

(* ================================================================== *)
(** * Rendered trees: the handlers a click reaches                  *)
(* ================================================================== *)

Module ReactClickFacts.
Import React ReactFacts ReactClicks.

Section Nodes.
Variable H : Type.

Lemma pick_nth (own : list H) (rest : list nat) :
  forall (children : list (Node H)) (i : nat),
    (fix pick (cs : list (Node H)) (i : nat) : option (list H) :=
       match cs, i with
       | c :: _, O => option_map (fun hs => hs ++ own) (chain c rest)
       | _ :: cs', S i' => pick cs' i'
       | [], _ => None
       end) children i
    = match nth_error children i with
      | Some c => option_map (fun hs => hs ++ own) (chain c rest)
      | None => None
      end.
Proof.
  induction children as [|c cs IH]; intros [|i]; try reflexivity.
  cbn [nth_error]. apply IH.
Qed.

(** A click below an enabled element reaches the handlers of the child
    it is in, then the element's own. *)
Lemma chain_Element (tag : string) (onClick : option H)
  (children : list (Node H)) (i : nat) (rest : list nat) :
  chain (Element tag onClick false children) (i :: rest)
  = match nth_error children i with
    | Some c => option_map (fun hs => hs ++ own onClick) (chain c rest)
    | None => None
    end.
Proof. cbn [chain]. apply pick_nth. Qed.

Lemma chain_Fragment (children : list (Node H)) (i : nat)
  (rest : list nat) :
  chain (Fragment children) (i :: rest)
  = match nth_error children i with
    | Some c => chain c rest
    | None => None
    end.
Proof.
  cbn [chain]. rewrite pick_nth.
  destruct (nth_error children i) as [c|]; [|reflexivity].
  destruct (chain c rest) as [hs|]; [|reflexivity].
  cbn. rewrite app_nil_r. reflexivity.
Qed.

Lemma chain_Portal (container : Container) (children : list (Node H))
  (i : nat) (rest : list nat) :
  chain (Portal container children) (i :: rest)
  = match nth_error children i with
    | Some c => chain c rest
    | None => None
    end.
Proof.
  cbn [chain]. rewrite pick_nth.
  destruct (nth_error children i) as [c|]; [|reflexivity].
  destruct (chain c rest) as [hs|]; [|reflexivity].
  cbn. rewrite app_nil_r. reflexivity.
Qed.

Lemma nesting_child (children : list (Node H)) (c : Node H) :
  In c children -> nesting c <= list_max (map (@nesting H) children).
Proof.
  intros I.
  pose proof (proj1 (list_max_le (map (@nesting H) children) _)
                (le_n _)) as F.
  rewrite Forall_forall in F. apply F. apply in_map. exact I.
Qed.

(** A click reaches no more handlers than the tree nests. *)
Lemma chain_nesting (n : Node H) :
  forall path hs, chain n path = Some hs -> length hs <= nesting n.
Proof.
  induction n as [s|tag onClick disabled children IH|children IH
                 |container children IH] using Node_induction;
    intros path hs E.
  - destruct path; [|discriminate]. injection E as <-. cbn. lia.
  - destruct disabled; [discriminate|].
    destruct path as [|i rest].
    + cbn in E. injection E as <-. cbn [nesting].
      destruct onClick; cbn; lia.
    + rewrite chain_Element in E.
      destruct (nth_error children i) as [c|] eqn:N; [|discriminate].
      destruct (chain c rest) as [hs'|] eqn:C; [|discriminate].
      injection E as <-. apply nth_error_In in N.
      rewrite Forall_forall in IH. specialize (IH c N rest hs' C).
      pose proof (nesting_child children c N).
      cbn [nesting]. rewrite length_app.
      destruct onClick; cbn; lia.
  - destruct path as [|i rest].
    + cbn in E. injection E as <-. cbn. lia.
    + rewrite chain_Fragment in E.
      destruct (nth_error children i) as [c|] eqn:N; [|discriminate].
      apply nth_error_In in N.
      rewrite Forall_forall in IH. specialize (IH c N rest hs E).
      pose proof (nesting_child children c N).
      cbn [nesting]. lia.
  - destruct path as [|i rest].
    + cbn in E. injection E as <-. cbn. lia.
    + rewrite chain_Portal in E.
      destruct (nth_error children i) as [c|] eqn:N; [|discriminate].
      apply nth_error_In in N.
      rewrite Forall_forall in IH. specialize (IH c N rest hs E).
      pose proof (nesting_child children c N).
      cbn [nesting]. lia.
Qed.

(** Where handlers do not nest, a click reaches one of them or none. *)
Lemma chain_flat (n : Node H) (path : list nat) (hs : list H) :
  nesting n <= 1 -> chain n path = Some hs ->
  hs = [] \/ exists h, hs = [h] /\ In h (handlers n).
Proof.
  intros F E. pose proof (chain_nesting n path hs E) as L.
  pose proof (chain_handlers H n path hs E) as I.
  destruct hs as [|h [|h' hs]]; [auto| |cbn in L; lia].
  right. exists h. split; [reflexivity|]. apply I. left. reflexivity.
Qed.

(** Among several trees as well. *)
Lemma chain_flat_child (children : list (Node H)) (i : nat)
  (c : Node H) (path : list nat) (hs : list H) :
  list_max (map (@nesting H) children) <= 1 ->
  nth_error children i = Some c -> chain c path = Some hs ->
  hs = [] \/ exists h, hs = [h] /\ In h (flat_map (@handlers H) children).
Proof.
  intros F N E. apply nth_error_In in N.
  pose proof (nesting_child children c N) as L.
  destruct (chain_flat c path hs) as [->|(h & -> & I)];
    [lia | exact E | auto |].
  right. exists h. split; [reflexivity|].
  apply in_flat_map. exists c. auto.
Qed.

End Nodes.

Lemma chain_mapNode (H H' : Type) (f : H -> H') (n : Node H) :
  forall path, chain (mapNode f n) path = option_map (map f) (chain n path).
Proof.
  induction n as [s|tag onClick disabled children IH|children IH
                 |container children IH] using Node_induction;
    intros path.
  - destruct path; reflexivity.
  - cbn [mapNode]. destruct disabled; [reflexivity|].
    destruct path as [|i rest].
    + cbn. destruct onClick; reflexivity.
    + rewrite !chain_Element, nth_error_map.
      destruct (nth_error children i) as [c|] eqn:N; [|reflexivity].
      apply nth_error_In in N. rewrite Forall_forall in IH.
      cbn [option_map]. rewrite (IH c N rest).
      destruct (chain c rest) as [hs|]; [|reflexivity].
      cbn. rewrite map_app. destruct onClick; reflexivity.
  - cbn [mapNode]. destruct path as [|i rest]; [reflexivity|].
    rewrite !chain_Fragment, nth_error_map.
    destruct (nth_error children i) as [c|] eqn:N; [|reflexivity].
    apply nth_error_In in N. rewrite Forall_forall in IH.
    exact (IH c N rest).
  - cbn [mapNode]. destruct path as [|i rest]; [reflexivity|].
    rewrite !chain_Portal, nth_error_map.
    destruct (nth_error children i) as [c|] eqn:N; [|reflexivity].
    apply nth_error_In in N. rewrite Forall_forall in IH.
    exact (IH c N rest).
Qed.

End ReactClickFacts.

(* ================================================================== *)
(** * JobDetailModal: closing and applying, click by click          *)
(* ================================================================== *)

Module JobDetailModalClickFacts.
Import React JobDetailModal ReactFacts ReactClicks ReactClickFacts.
Import JobDetailModalFacts JobDetailModalLog.

#[local] Arguments str : simpl never.

Lemma nesting_listed (heading : string) (items : option (list jsstring)) :
  list_max (map (@nesting Handler) (listed Handler heading items)) = 0.
Proof.
  destruct items as [l|]; [|reflexivity]. unfold listed, when.
  destruct (Nat.ltb 0 (length l)); [|reflexivity]. cbn.
  rewrite map_map. cbn.
  induction l as [|x l IH]; [reflexivity | exact IH].
Qed.

(** The buttons of the panel hold no further control. *)
Lemma nesting_panel (props : Props) :
  list_max (map (@nesting Handler) (panel props)) <= 1.
Proof.
  unfold panel.
  destruct (isApplied props), (isSaved props),
    (present (Job.employerLogo (job props))),
    (isTrue (Job.isRemote (job props)));
    destruct (Job.postedAt (job props)) as [posted|];
    try destruct (Js.truthy posted);
    destruct (Job.highlights (job props)) as [hl|];
    cbn; rewrite ?map_app, ?list_max_app, ?nesting_listed; cbn; lia.
Qed.

Lemma modal_no_stop (props : Props) (h : Handler) (s : State) :
  h <> StopClick -> existsb stops (snd (handle props h s)) = false.
Proof.
  destruct h; try reflexivity; [congruence| |]; intros _; cbn.
  - unfold handleApplyClick, openApplyLink.
    destruct (isApplied props); [reflexivity|].
    destruct (Job.applyLink (job props)) as [link|]; [|reflexivity].
    destruct (Js.truthy link); reflexivity.
  - unfold handleSaveToggle, callOnUnsave.
    destruct (isSaved props), (onUnsave props); reflexivity.
Qed.

(** The handlers a click on the open dialog reaches, by where it
    lands: on nothing that listens; on the overlay; on the panel outside
    its buttons; on a button of the panel; on a button of the
    confirmation. *)
Lemma modal_chain_cases (doc : Document) (props : Props) (s : State)
  (tree : Node Handler) (path : list nat) (hs : list Handler) :
  render doc props s = Some tree -> chain tree path = Some hs ->
  hs = []
  \/ hs = [OnClose]
  \/ hs = [StopClick; OnClose]
  \/ (exists h,
        In h [OnClose; HandleSaveToggle; HandleApplyClick]
        /\ (h = HandleApplyClick -> isApplied props = false)
        /\ hs = [h; StopClick; OnClose])
  \/ (showApplyConfirmation s = true
      /\ exists h,
           In h [HandleCancelApply; HandleConfirmApply] /\ hs = [h]).
Proof.
  unfold render. destruct (isOpen props); [|discriminate].
  cbn [negb]. intros T E. injection T as <-.
  destruct path as [|i p1]; [cbn in E; injection E as <-; auto|].
  rewrite chain_Portal in E.
  destruct i as [|i]; [|destruct i; discriminate].
  cbn [nth_error] in E.
  destruct p1 as [|i p2]; [cbn in E; injection E as <-; auto|].
  rewrite chain_Fragment in E.
  destruct i as [|[|i]].
  - (* the overlay *)
    cbn [nth_error app] in E. unfold clickable at 1 in E.
    destruct p2 as [|i p3]; [cbn in E; injection E as <-; auto|].
    rewrite chain_Element in E.
    destruct i as [|i]; [|destruct i; discriminate].
    cbn [nth_error] in E. unfold clickable in E.
    destruct p3 as [|i p4]; [cbn in E; injection E as <-; auto|].
    rewrite chain_Element in E.
    destruct (nth_error (panel props) i) as [c|] eqn:N; [|discriminate].
    destruct (chain c p4) as [hs'|] eqn:C; [|discriminate].
    cbn in E. injection E as <-.
    destruct (chain_flat_child Handler (panel props) i c p4 hs'
                (nesting_panel props) N C) as [->|(h & -> & I)];
      [cbn; auto|].
    rewrite handlers_panel in I.
    right. right. right. left. exists h.
    destruct (isApplied props); cbn in I;
      repeat destruct I as [<-|I]; try destruct I;
      (split; [cbn; auto|]);
      (split; [intros X; (discriminate X || reflexivity) | reflexivity]).
  - (* the confirmation *)
    cbn [nth_error app] in E.
    destruct (showApplyConfirmation s) eqn:Sh; [|discriminate].
    cbn [negb ApplyConfirmationModal child nth_error] in E.
    destruct p2 as [|i p3]; [cbn in E; injection E as <-; auto|].
    rewrite chain_Portal in E.
    destruct (nth_error
                (confirmationContent (job props) HandleConfirmApply
                   HandleCancelApply) i) as [c|] eqn:N; [|discriminate].
    assert (F : list_max
                  (map (@nesting Handler)
                     (confirmationContent (job props) HandleConfirmApply
                        HandleCancelApply)) <= 1) by (cbn; lia).
    destruct (chain_flat_child Handler _ i c p3 hs F N E)
      as [->|(h & -> & I)]; [auto|].
    right. right. right. right. split; [reflexivity|].
    exists h. split; [exact I | reflexivity].
  - cbn [nth_error app] in E.
    destruct (showApplyConfirmation s); destruct i; discriminate.
Qed.

(** What one click on the dialog does, case by case. *)
Lemma modal_click_cases (doc : Document) (props : Props) (path : list nat)
  (r : State) (result : State * list (Handler * list Out)) :
  click doc props path r = result ->
  result = (r, [])
  \/ result = (r, [(OnClose, [CallOnClose])])
  \/ result = (r, [(StopClick, [StopPropagation])])
  \/ (exists h,
        In h [OnClose; HandleSaveToggle; HandleApplyClick]
        /\ (h = HandleApplyClick -> isApplied props = false)
        /\ result
           = (fst (handle props h r),
              [(h, snd (handle props h r));
               (StopClick, [StopPropagation])]))
  \/ (showApplyConfirmation r = true
      /\ exists h,
           In h [HandleCancelApply; HandleConfirmApply]
           /\ result
              = (fst (handle props h r), [(h, snd (handle props h r))])).
Proof.
  intros <-. unfold click.
  destruct (render doc props r) as [tree|] eqn:T; [|auto].
  destruct (chain tree path) as [hs|] eqn:C; [|auto].
  destruct (modal_chain_cases doc props r tree path hs T C)
    as [->|[->|[->|[(h & I & A & ->)|(W & h & I & ->)]]]];
    [cbn; auto ..| |].
  - right. right. right. left. exists h.
    split; [exact I|]. split; [exact A|].
    cbn [dispatch].
    pose proof (modal_no_stop props h r) as S.
    destruct (handle props h r) as [r1 outs]. cbn [fst snd] in S |- *.
    rewrite S; [reflexivity|].
    intros ->. cbn in I. intuition discriminate.
  - right. right. right. right. split; [exact W|].
    exists h. split; [exact I|].
    cbn [dispatch].
    destruct (handle props h r) as [r1 outs]. cbn [fst snd].
    destruct (existsb stops outs); reflexivity.
Qed.

Lemma modal_openApplyLink_quiet (job : Job.t) :
  filter isOnApply (openApplyLink job) = []
  /\ filter isOnClose (openApplyLink job) = [].
Proof.
  unfold openApplyLink. destruct (Job.applyLink job) as [link|]; [|auto].
  destruct (Js.truthy link); auto.
Qed.

(** X20. One click calls [onClose] at most once, and only when the
    control it lands on is the X button or the overlay around the
    panel: a click anywhere else in the panel, its other buttons
    included, does not close the dialog. A click on the overlay itself
    does. *)
Theorem dialog_closes_on_X_or_overlay_only (doc : Document) (props : Props)
  (path : list nat) (s : State) :
  length (filter isOnClose (outputs (snd (click doc props path s)))) <= 1
  /\ (In CallOnClose (outputs (snd (click doc props path s))) ->
      exists post,
        snd (click doc props path s) = (OnClose, [CallOnClose]) :: post)
  /\ (isOpen props = true ->
      click doc props [0; 0] s = (s, [(OnClose, [CallOnClose])])).
Proof.
  split; [|split].
  - destruct (modal_click_cases doc props path s _ eq_refl)
      as [E|[E|[E|[(h & I & _ & E)|(_ & h & I & E)]]]];
      rewrite E; try (cbn; lia).
    + cbn in I. destruct I as [<-|[<-|[<-|[]]]]; cbn; try lia.
      * unfold handleSaveToggle, callOnUnsave.
        destruct (isSaved props), (onUnsave props); cbn; lia.
      * unfold handleApplyClick. destruct (isApplied props); cbn; [lia|].
        rewrite filter_app, (proj2 (modal_openApplyLink_quiet _)). cbn. lia.
    + cbn in I. destruct I as [<-|[<-|[]]]; cbn; lia.
  - destruct (modal_click_cases doc props path s _ eq_refl)
      as [E|[E|[E|[(h & I & _ & E)|(_ & h & I & E)]]]];
      rewrite E; cbn [snd outputs flat_map app In].
    + intros [].
    + eauto.
    + intros [X|[]]. discriminate.
    + cbn in I. destruct I as [<-|[<-|[<-|[]]]].
      * eauto.
      * cbn. unfold handleSaveToggle, callOnUnsave.
        destruct (isSaved props), (onUnsave props); cbn;
          intuition discriminate.
      * cbn. unfold handleApplyClick.
        destruct (isApplied props); cbn; [intuition discriminate|].
        rewrite in_app_iff. intros [X|[X|[]]]; [|discriminate].
        pose proof (proj2 (modal_openApplyLink_quiet (job props))) as Q.
        assert (Y : In CallOnClose (filter isOnClose
                                      (openApplyLink (job props))))
          by (apply filter_In; auto).
        rewrite Q in Y. destruct Y.
    + cbn in I. destruct I as [<-|[<-|[]]]; cbn; intuition discriminate.
  - intros O. unfold click, render. rewrite O. reflexivity.
Qed.

(** One click keeps the count: the calls of [onApply] so far and the
    confirmation that waits are covered by the clicks on Apply. *)
Lemma modal_click_counts (doc : Document) (props : Props) (path : list nat)
  (r : State) (log : list (Handler * list Out)) :
  length (filter isOnApply (outputs log)) + waiting r
  <= length (filter isApplyClick log) ->
  length (filter isOnApply (outputs (log ++ snd (click doc props path r))))
  + waiting (fst (click doc props path r))
  <= length (filter isApplyClick (log ++ snd (click doc props path r))).
Proof.
  intros K. unfold outputs in *.
  rewrite flat_map_app, !filter_app, !length_app.
  destruct (modal_click_cases doc props path r _ eq_refl)
    as [E|[E|[E|[(h & I & A & E)|(W & h & I & E)]]]];
    rewrite E; try (cbn; lia).
  - cbn in I. destruct I as [<-|[<-|[<-|[]]]]; cbn.
    + lia.
    + unfold handleSaveToggle, callOnUnsave.
        destruct (isSaved props), (onUnsave props); cbn; lia.
    + rewrite (handleApplyClick_fresh props r (A eq_refl)). cbn.
      rewrite filter_app, (proj1 (modal_openApplyLink_quiet _)).
      cbn. lia.
  - unfold waiting in K. rewrite W in K.
    cbn in I. destruct I as [<-|[<-|[]]]; cbn; lia.
Qed.

(** X21. However the dialog is clicked, [onApply] is called at most
    once for each click on Apply Now that went through: the calls made
    so far, and the one a showing confirmation may still lead to,
    never outnumber those clicks. *)
Theorem each_apply_click_allows_one_onApply (doc : Document) (props : Props)
  (paths : list (list nat)) :
  length (filter isOnApply (outputs (snd (clicks doc props paths mounted))))
  + waiting (fst (clicks doc props paths mounted))
  <= length (filter isApplyClick (snd (clicks doc props paths mounted))).
Proof.
  assert (G : forall paths s log,
    length (filter isOnApply (outputs log)) + waiting s
    <= length (filter isApplyClick log) ->
    length (filter isOnApply
              (outputs (log ++ snd (clicks doc props paths s))))
    + waiting (fst (clicks doc props paths s))
    <= length (filter isApplyClick (log ++ snd (clicks doc props paths s)))).
  { clear paths. induction paths as [|path paths IH]; intros s log K.
    - cbn. rewrite app_nil_r. exact K.
    - cbn [clicks].
      pose proof (modal_click_counts doc props path s log K) as K1.
      destruct (click doc props path s) as [s1 log1]. cbn [fst snd] in K1.
      specialize (IH s1 (log ++ log1) K1).
      destruct (clicks doc props paths s1) as [s2 log2].
      cbn [fst snd] in IH |- *. rewrite app_assoc. exact IH. }
  apply (G paths mounted []). cbn. lia.
Qed.

End JobDetailModalClickFacts.

(* ================================================================== *)
(** * JobCard: opening the details, applying                        *)
(* ================================================================== *)

Module JobCardClickFacts.
Import React JobCard ReactFacts ReactClicks ReactClickFacts.
Import JobCardFacts JobCardLog.

#[local] Arguments str : simpl never.

(** The handlers a click on the card itself reaches: the card's alone,
    or those of one of its three buttons and then the card's. *)
Lemma card_chain_cases (props : Props) (path : list nat)
  (hs : list Handler) :
  chain (card props) path = Some hs ->
  hs = [HandleCardClick]
  \/ exists h,
       In h [HandleSaveToggle; HandleChoose; HandleApply]
       /\ (h = HandleApply -> isApplied props = false)
       /\ hs = [h; HandleCardClick].
Proof.
  unfold card, clickable. intros E.
  destruct path as [|i rest]; [cbn in E; injection E as <-; auto|].
  rewrite chain_Element in E.
  match type of E with
  | context [nth_error ?cs i] =>
      assert (F : list_max (map (@nesting Handler) cs) <= 1)
        by (destruct (isApplied props), (isSaved props),
              (isTrue (Job.isRemote (job props))); cbn; lia);
      assert (Hs : flat_map (@handlers Handler) cs
                   = HandleSaveToggle :: HandleChoose
                     :: (if isApplied props then [] else [HandleApply]))
        by (destruct (isApplied props), (isSaved props),
              (isTrue (Job.isRemote (job props))); reflexivity);
      destruct (nth_error cs i) as [c|] eqn:N; [|discriminate];
      destruct (chain c rest) as [hs'|] eqn:C; [|discriminate];
      destruct (chain_flat_child Handler cs i c rest hs' F N C)
        as [->|(h & -> & I)]
  end; cbn in E; injection E as <-; [auto|].
  rewrite Hs in I.
  right. exists h.
  destruct (isApplied props); cbn in I;
    repeat destruct I as [<-|I]; try destruct I;
    (split; [cbn; auto|]);
    (split; [intros X; (discriminate X || reflexivity) | reflexivity]).
Qed.

Lemma card_button_stops (props : Props) (r : State) (h : Handler)
  (s : State) :
  In h [HandleSaveToggle; HandleChoose; HandleApply] ->
  existsb stops (snd (handle props r h s)) = true
  /\ showDetailModal (fst (handle props r h s)) = showDetailModal s
  /\ detail (fst (handle props r h s)) = detail s.
Proof.
  intros I. cbn in I. destruct I as [<-|[<-|[<-|[]]]]; cbn.
  - unfold handleSaveToggle.
    destruct (isSaved props), (onUnsave props); cbn; auto.
  - auto.
  - unfold handleApply. destruct (isApplied props); cbn; auto.
Qed.

(** X22. A click on the card opens the detail dialog, and does nothing
    else, unless it lands on the Save, Choose or Apply button: then the
    button's handler runs alone, the click does not reach the card, and
    the detail dialog stays as it was. *)
Theorem card_click_opens_details_unless_on_button (doc : Document)
  (props : Props) (path : list nat) (s : State) (hs : list Handler) :
  chain (card props) path = Some hs ->
  (hs = [HandleCardClick]
   /\ click doc props (0 :: path) s
      = (setShowDetailModal true s, [(HandleCardClick, [])]))
  \/ (exists h,
        In h [HandleSaveToggle; HandleChoose; HandleApply]
        /\ hs = [h; HandleCardClick]
        /\ click doc props (0 :: path) s
           = (fst (handle props s h s), [(h, snd (handle props s h s))])
        /\ showDetailModal (fst (handle props s h s)) = showDetailModal s
        /\ detail (fst (handle props s h s)) = detail s).
Proof.
  intros E. unfold click, render. rewrite chain_Fragment.
  cbn [app nth_error]. rewrite E.
  destruct (card_chain_cases props path hs E) as [->|(h & I & _ & ->)].
  - left. split; reflexivity.
  - right. exists h. split; [exact I|]. split; [reflexivity|].
    destruct (card_button_stops props s h s I) as (St & Sh & D).
    split; [|auto]. cbn [dispatch].
    destruct (handle props s h s) as [s1 outs]. cbn [fst snd] in St |- *.
    rewrite St. reflexivity.
Qed.

Lemma card_click_opens_details_unless_on_button_witness :
  ([JobCard.HandleChoose; JobCard.HandleCardClick]
   = [JobCard.HandleCardClick]
   /\ click Examples.document Examples.cardProps [0; 3; 0] mounted
      = (setShowDetailModal true mounted, [(HandleCardClick, [])]))
  \/ (exists h,
        In h [HandleSaveToggle; HandleChoose; HandleApply]
        /\ [JobCard.HandleChoose; JobCard.HandleCardClick]
           = [h; HandleCardClick]
        /\ click Examples.document Examples.cardProps [0; 3; 0] mounted
           = (fst (handle Examples.cardProps mounted h mounted),
              [(h, snd (handle Examples.cardProps mounted h mounted))])
        /\ showDetailModal (fst (handle Examples.cardProps mounted h mounted))
           = showDetailModal mounted
        /\ detail (fst (handle Examples.cardProps mounted h mounted))
           = detail mounted).
Proof.
  exact (card_click_opens_details_unless_on_button Examples.document
           Examples.cardProps [3; 0] mounted
           [HandleChoose; HandleCardClick] eq_refl).
Defined.

(** The handlers a click on the rendered card reaches: none, those of
    the card, those of the detail dialog, or one of the card's own
    confirmation. *)
Lemma card_render_chain_cases (doc : Document) (props : Props) (s : State)
  (path : list nat) (hs : list Handler) :
  chain (render doc props s) path = Some hs ->
  hs = []
  \/ (exists p, chain (card props) p = Some hs)
  \/ (exists tree p hs',
        JobDetailModal.render doc (detailProps props s) (detail s)
        = Some tree
        /\ chain tree p = Some hs' /\ hs = map InDetail hs')
  \/ (showApplyConfirmation s = true
      /\ exists h,
           In h [HandleCancelApply; HandleConfirmApply] /\ hs = [h]).
Proof.
  unfold render. intros E.
  destruct path as [|i p]; [cbn in E; injection E as <-; auto|].
  rewrite chain_Fragment in E.
  assert (Conf : forall q,
    match nth_error
            (child (ApplyConfirmationModal doc (showApplyConfirmation s)
                      (job props) HandleConfirmApply HandleCancelApply))
            0 with
    | Some c => chain c q
    | None => None
    end = Some hs ->
    hs = []
    \/ (showApplyConfirmation s = true
        /\ exists h,
             In h [HandleCancelApply; HandleConfirmApply] /\ hs = [h])).
  { intros q C.
    destruct (showApplyConfirmation s); [|discriminate].
    cbn [negb ApplyConfirmationModal child nth_error] in C.
    destruct q as [|j q]; [cbn in C; injection C as <-; auto|].
    rewrite chain_Portal in C.
    destruct (nth_error
                (confirmationContent (job props) HandleConfirmApply
                   HandleCancelApply) j) as [c|] eqn:N; [|discriminate].
    assert (F : list_max
                  (map (@nesting Handler)
                     (confirmationContent (job props) HandleConfirmApply
                        HandleCancelApply)) <= 1) by (cbn; lia).
    destruct (chain_flat_child Handler _ j c q hs F N C)
      as [->|(h & -> & I)]; [auto|].
    right. split; [reflexivity|]. exists h. auto. }
  destruct i as [|i];
    [cbn [app nth_error] in E; right; left; exists p; exact E|].
  cbn [app nth_error] in E.
  destruct (JobDetailModal.render doc (detailProps props s) (detail s))
    as [tree|] eqn:T; cbn [option_map child app] in E.
  - destruct i as [|i]; cbn [nth_error] in E.
    + rewrite chain_mapNode in E.
      destruct (chain tree p) as [hs'|] eqn:C; [|discriminate].
      injection E as <-. right. right. left. exists tree, p, hs'. auto.
    + destruct i as [|i].
      * destruct (Conf p E); auto.
      * destruct (showApplyConfirmation s); destruct i; discriminate.
  - destruct i as [|i].
    + destruct (Conf p E); auto.
    + destruct (showApplyConfirmation s); destruct i; discriminate.
Qed.

Lemma detailCallbacks_count (os : list JobDetailModal.Out) :
  forall s,
    length (filter isOnApply (snd (detailCallbacks os s)))
    = length (filter JobDetailModalLog.isOnApply os).
Proof.
  induction os as [|o os IH]; intros s; cbn [detailCallbacks];
    [reflexivity|].
  destruct (detailCallback o s) as [s1 outs1] eqn:E1.
  specialize (IH s1).
  destruct (detailCallbacks os s1) as [s2 outs2]. cbn [snd] in IH |- *.
  rewrite filter_app, length_app, IH.
  destruct o; cbn in E1; injection E1 as <- <-; reflexivity.
Qed.

Lemma detailCallbacks_waiting (os : list JobDetailModal.Out) (s : State) :
  waiting (fst (detailCallbacks os s)) = waiting s.
Proof.
  unfold waiting. destruct (detailCallbacks_state os s) as [-> ->].
  reflexivity.
Qed.

Lemma card_openApplyLink_quiet (job : Job.t) :
  filter isOnApply (openApplyLink job) = [].
Proof.
  unfold openApplyLink. destruct (Job.applyLink job) as [link|]; [|auto].
  destruct (Js.truthy link); auto.
Qed.

(** A handler other than the two that confirm calls no [onApply], and
    only a click on Apply makes a confirmation wait. *)
Lemma card_handle_counts (props : Props) (r : State) (h : Handler)
  (s : State) :
  h <> HandleConfirmApply ->
  h <> InDetail JobDetailModal.HandleConfirmApply ->
  length (filter isOnApply (snd (handle props r h s)))
  + waiting (fst (handle props r h s))
  <= waiting s + length (filter isApplyClick [(h, snd (handle props r h s))]).
Proof.
  intros A B. destruct h as [| | | | | |h]; try congruence;
    cbn [handle].
  - unfold waiting. cbn. lia.
  - unfold waiting, handleSaveToggle.
    destruct (isSaved props), (onUnsave props); cbn; lia.
  - unfold handleApply. destruct (isApplied props);
      [unfold waiting; cbn; lia|].
    cbn [fst snd filter isOnApply].
    rewrite card_openApplyLink_quiet.
    unfold waiting. cbn. destruct (showApplyConfirmation s); lia.
  - unfold waiting. cbn. lia.
  - unfold waiting. cbn. destruct (showApplyConfirmation s); lia.
  - destruct (JobDetailModal.handle (detailProps props r) h (detail s))
      as [d os] eqn:E.
    rewrite detailCallbacks_count, detailCallbacks_waiting.
    unfold waiting, JobDetailModalLog.waiting. cbn [setDetail
      showApplyConfirmation detail].
    destruct h; try congruence; cbn in E.
    + injection E as <- <-. cbn. lia.
    + injection E as <- <-. cbn. lia.
    + unfold JobDetailModal.handleApplyClick in E. cbn in E.
      destruct (isApplied props); injection E as <- <-; [cbn; lia|].
      rewrite (proj1 (JobDetailModalClickFacts.modal_openApplyLink_quiet _)).
      cbn.
      destruct (JobDetailModal.showApplyConfirmation (detail s)); lia.
    + injection E as <- <-. cbn.
      destruct (JobDetailModal.showApplyConfirmation (detail s)); lia.
    + unfold JobDetailModal.handleSaveToggle,
        JobDetailModal.callOnUnsave in E. cbn in E.
      destruct (onUnsave props), (isSaved props); injection E as <- <-;
        cbn; lia.
Qed.

(** A click reaches a confirm handler only alone, and only while its
    confirmation shows. *)
Lemma card_chain_confirm (doc : Document) (props : Props) (s : State)
  (path : list nat) (hs : list Handler) :
  chain (render doc props s) path = Some hs ->
  (forall h, In h hs ->
     h <> HandleConfirmApply
     /\ h <> InDetail JobDetailModal.HandleConfirmApply)
  \/ (hs = [HandleConfirmApply] /\ showApplyConfirmation s = true)
  \/ (hs = [InDetail JobDetailModal.HandleConfirmApply]
      /\ JobDetailModal.showApplyConfirmation (detail s) = true).
Proof.
  intros E.
  destruct (card_render_chain_cases doc props s path hs E)
    as [->|[(p & C)|[(tree & p & hs' & T & C & ->)|(W & h & I & ->)]]].
  - left. intros h [].
  - left.
    destruct (card_chain_cases props p hs C) as [->|(h & I & _ & ->)].
    + intros h [<-|[]]. split; discriminate.
    + cbn in I. destruct I as [<-|[<-|[<-|[]]]];
        intros h' [<-|[<-|[]]]; split; discriminate.
  - destruct (JobDetailModalClickFacts.modal_chain_cases doc _ _ tree p hs' T C)
      as [->|[->|[->|[(h & I & _ & ->)|(W & h & I & ->)]]]].
    + left. intros h [].
    + left. intros h [<-|[]]. split; discriminate.
    + left. intros h [<-|[<-|[]]]; split; discriminate.
    + left. cbn in I. destruct I as [<-|[<-|[<-|[]]]];
        intros h' [<-|[<-|[<-|[]]]]; split; discriminate.
    + cbn in I. destruct I as [<-|[<-|[]]].
      * left. intros h [<-|[]]. split; discriminate.
      * right. right. auto.
  - cbn in I. destruct I as [<-|[<-|[]]].
    + left. intros h [<-|[]]. split; discriminate.
    + right. left. auto.
Qed.

(** One click keeps the count: the calls of [onApply] so far and the
    confirmations that wait are covered by the clicks on Apply. *)
Lemma card_click_counts (doc : Document) (props : Props) (path : list nat)
  (r : State) (log : list (Handler * list Out)) :
  length (filter isOnApply (outputs log)) + waiting r
  <= length (filter isApplyClick log) ->
  length (filter isOnApply (outputs (log ++ snd (click doc props path r))))
  + waiting (fst (click doc props path r))
  <= length (filter isApplyClick (log ++ snd (click doc props path r))).
Proof.
  intros K. unfold click.
  destruct (chain (render doc props r) path) as [hs|] eqn:C;
    [|cbn [fst snd]; rewrite app_nil_r; exact K].
  destruct (card_chain_confirm doc props r path hs C)
    as [N|[[-> W]|[-> W]]].
  - apply (dispatch_invariant Handler State Out (handle props r) stops
             (fun s l =>
                length (filter isOnApply (outputs l)) + waiting s
                <= length (filter isApplyClick l)) hs); [|exact K].
    intros h s l I Q. destruct (N h I) as [A B].
    pose proof (card_handle_counts props r h s A B) as P.
    unfold outputs in *.
    rewrite flat_map_app, !filter_app, !length_app.
    cbn [flat_map snd]. rewrite app_nil_r. lia.
  - unfold outputs in *. cbn [dispatch handle handleConfirmApply].
    cbn [existsb stops orb fst snd].
    rewrite flat_map_app, !filter_app, !length_app.
    unfold waiting in *. rewrite W in K. cbn. lia.
  - unfold outputs in *. cbn [dispatch handle].
    cbn. rewrite flat_map_app, !filter_app, !length_app.
    unfold waiting, JobDetailModalLog.waiting in *. rewrite W in K.
    cbn. lia.
Qed.

(** X23. However the card and the dialogs it opens are clicked,
    [onApply] is called at most once for each click on an Apply button
    that went through, be it the card's or the detail dialog's: the
    calls made so far, and those the showing confirmations may still
    lead to, never outnumber those clicks. *)
Theorem card_apply_clicks_allow_one_onApply (doc : Document)
  (props : Props) (paths : list (list nat)) :
  length (filter isOnApply (outputs (snd (clicks doc props paths mounted))))
  + waiting (fst (clicks doc props paths mounted))
  <= length (filter isApplyClick (snd (clicks doc props paths mounted))).
Proof.
  assert (G : forall paths s log,
    length (filter isOnApply (outputs log)) + waiting s
    <= length (filter isApplyClick log) ->
    length (filter isOnApply
              (outputs (log ++ snd (clicks doc props paths s))))
    + waiting (fst (clicks doc props paths s))
    <= length (filter isApplyClick (log ++ snd (clicks doc props paths s)))).
  { clear paths. induction paths as [|path paths IH]; intros s log K.
    - cbn. rewrite app_nil_r. exact K.
    - cbn [clicks].
      pose proof (card_click_counts doc props path s log K) as K1.
      destruct (click doc props path s) as [s1 log1]. cbn [fst snd] in K1.
      specialize (IH s1 (log ++ log1) K1).
      destruct (clicks doc props paths s1) as [s2 log2].
      cbn [fst snd] in IH |- *. rewrite app_assoc. exact IH. }
  apply (G paths mounted []). cbn. lia.
Qed.

End JobCardClickFacts.
